(** * Verification of the chainguard showcase application (app.py)

    A shallow embedding of the data-transforming core of
    [phase_3/python_chainguard/app.py]: the verifier output normalizer
    ([parse_chainver_output]), the archive inspector ([get_wheel_contents],
    [build_file_tree]), the tag resolver ([resolve_tag_to_commit]), the
    attestation decoder ([parse_provenance_data]) and the two gated request
    handlers ([chainver_api], [chainver_verbose_api]).

    Conventions.
    - Python text is [string]: a sequence of code points below 256.  On that
      range the classes of the [re] module are exact: [\d] is [0-9] and [\s]
      is the set [is_space] below.
    - Values that come out of [json.loads] are [pyval]; objects keep their
      keys in insertion order.
    - Python integers are [Z]; floats are IEEE binary64 values, written with
      the Standard Library's [spec_float].
    - A Python call that can raise returns a [result]; the exception classes
      that the modelled code can meet are the constructors of [pyexc]. *)

From Stdlib Require Import String Ascii List ZArith Bool Lia.
From Stdlib Require Import Floats.SpecFloat.
Import ListNotations.

Open Scope string_scope.
Open Scope list_scope.
Open Scope Z_scope.

(* ================================================================= *)
(** ** Python values, exceptions and results *)

#[warnings="-register-all"]
Inductive pyval : Type :=
| PNone
| PBool (b : bool)
| PInt (z : Z)
| PFloat (f : spec_float)
| PStr (s : string)
| PList (l : list pyval)
| PDict (d : list (string * pyval)).

(** The exception classes met by the modelled code.  [CancelledError] and
    [KeyboardInterrupt] derive from [BaseException] only; every other one
    derives from [Exception]. *)
Inductive pyexc : Type :=
| AttributeError
| TypeError
| KeyError
| IndexError
| ValueError
| BinasciiError
| UnicodeDecodeError
| UnicodeEncodeError
| JSONDecodeError
| OSError
| FileNotFoundError
| BadZipFile
| TimeoutError
| CancelledError
| KeyboardInterrupt.

Definition is_Exception (e : pyexc) : bool :=
  match e with
  | CancelledError | KeyboardInterrupt => false
  | _ => true
  end.

Inductive result (A : Type) : Type :=
| Ok (a : A)
| Raise (e : pyexc).

Arguments Ok {A} a.
Arguments Raise {A} e.

Definition bind {A B : Type} (m : result A) (k : A -> result B) : result B :=
  match m with
  | Ok a => k a
  | Raise e => Raise e
  end.

Notation "x <- m ;; k" := (bind m (fun x => k))
  (at level 61, m at next level, right associativity).

(** [for x in l: body], the body threading an accumulator; the first
    exception leaves the loop. *)
Fixpoint for_each {A S : Type} (body : S -> A -> result S) (l : list A) (st : S)
  : result S :=
  match l with
  | [] => Ok st
  | x :: rest => st' <- body st x ;; for_each body rest st'
  end.

(* ================================================================= *)
(** ** Strings *)

Definition is_digit (c : ascii) : bool :=
  let n := nat_of_ascii c in (48 <=? n)%nat && (n <=? 57)%nat.

(** The white space of [str.strip] and of [\s]: tab, line feed, vertical tab,
    form feed, carriage return, the four separators 28-31, space, NEL and
    the no-break space. *)
Definition is_space (c : ascii) : bool :=
  let n := nat_of_ascii c in
  ((9 <=? n)%nat && (n <=? 13)%nat) || ((28 <=? n)%nat && (n <=? 32)%nat)
  || (n =? 133)%nat || (n =? 160)%nat.

Fixpoint take_while (p : ascii -> bool) (s : string) : string :=
  match s with
  | String c r => if p c then String c (take_while p r) else ""
  | "" => ""
  end.

Fixpoint drop_while (p : ascii -> bool) (s : string) : string :=
  match s with
  | String c r => if p c then drop_while p r else s
  | "" => ""
  end.

Fixpoint str_rev_onto (s acc : string) : string :=
  match s with
  | "" => acc
  | String c r => str_rev_onto r (String c acc)
  end.

Definition str_rev (s : string) : string := str_rev_onto s "".

(** [s.strip()] *)
Definition str_strip (s : string) : string :=
  str_rev (drop_while is_space (str_rev (drop_while is_space s))).

(** [s.startswith(p)], returning what follows the prefix. *)
Fixpoint strip_prefix (p s : string) : option string :=
  match p, s with
  | "", _ => Some s
  | String a p', String b s' => if Ascii.eqb a b then strip_prefix p' s' else None
  | String _ _, "" => None
  end.

Definition startswith (p s : string) : bool :=
  match strip_prefix p s with Some _ => true | None => false end.

(** [sub in s] on two strings. *)
Fixpoint str_contains (sub s : string) : bool :=
  if startswith sub s then true
  else match s with
       | "" => false
       | String _ r => str_contains sub r
       end.

(** [s.endswith(suf)] *)
Definition endswith (suf s : string) : bool :=
  startswith (str_rev suf) (str_rev s).

(** [s[:-n]] for a positive [n]. *)
Definition drop_last (n : nat) (s : string) : string :=
  substring 0 (String.length s - n) s.

(** [s.split(c)] for a separator of one character. *)
Fixpoint str_split (c : ascii) (s : string) : list string :=
  match s with
  | "" => [""]
  | String x r =>
      if Ascii.eqb x c then "" :: str_split c r
      else match str_split c r with
           | h :: t => String x h :: t
           | [] => [String x ""]
           end
  end.

(** [s.split(sep, 1)] when [sep] occurs in [s]: the text before and after the
    first occurrence; [None] when [sep] does not occur. *)
Fixpoint str_partition (sep s : string) : option (string * string) :=
  match strip_prefix sep s with
  | Some after => Some ("", after)
  | None =>
      match s with
      | "" => None
      | String c r =>
          match str_partition sep r with
          | Some (before, after) => Some (String c before, after)
          | None => None
          end
      end
  end.

(** [Path(p).name] on a POSIX system: the last component of [p] that is
    neither empty nor a single dot, and the empty string when there is none. *)
Definition path_name (p : string) : string :=
  last (filter (fun part => negb (String.eqb part "") && negb (String.eqb part ".")) (str_split "/" p)) "".

(* ================================================================= *)
(** ** The two regular expressions of the normalizer *)

(** [re.search(pattern, s)] for a pattern given by its anchored matcher: the
    match at the leftmost position where the matcher succeeds. *)
Fixpoint re_search {A : Type} (match_at : string -> option A) (s : string) : option A :=
  match match_at s with
  | Some m => Some m
  | None =>
      match s with
      | "" => None
      | String _ r => re_search match_at r
      end
  end.

Definition rekor_entry_prefix : string :=
  "https://rekor.sigstore.dev/api/v1/log/entries/?logIndex=".

(** [(https://rekor\.sigstore\.dev/api/v1/log/entries/\?logIndex=\d+)] matched
    at the head of [s]; the result is group 1. *)
Definition match_rekor_url (s : string) : option string :=
  match strip_prefix rekor_entry_prefix s with
  | Some rest =>
      match take_while is_digit rest with
      | "" => None
      | ds => Some (rekor_entry_prefix ++ ds)%string
      end
  | None => None
  end.

Definition is_index_sep (c : ascii) : bool :=
  Ascii.eqb c "=" || Ascii.eqb c ":" || is_space c.

(** [logIndex[=:\s]+(\d+)] matched at the head of [s]; the result is group 1.
    The separator class and the digits are disjoint, so the greedy run of
    separators is the only split that can match. *)
Definition match_log_index (s : string) : option string :=
  match strip_prefix "logIndex" s with
  | Some rest =>
      match take_while is_index_sep rest with
      | "" => None
      | _ =>
          match take_while is_digit (drop_while is_index_sep rest) with
          | "" => None
          | ds => Some ds
          end
      end
  | None => None
  end.

(* ================================================================= *)
(** ** Python built-ins on JSON values *)

Fixpoint alist_get {V : Type} (k : string) (d : list (string * V)) : option V :=
  match d with
  | [] => None
  | (k', v) :: rest => if String.eqb k' k then Some v else alist_get k rest
  end.

(** [d[k] = v] on an insertion-ordered dict. *)
Fixpoint alist_set {V : Type} (k : string) (v : V) (d : list (string * V))
  : list (string * V) :=
  match d with
  | [] => [(k, v)]
  | (k', v') :: rest =>
      if String.eqb k' k then (k, v) :: rest else (k', v') :: alist_set k v rest
  end.

(** [x.get(k, dflt)]: only a dict has the method. *)
Definition dict_get (x : pyval) (k : string) (dflt : pyval) : result pyval :=
  match x with
  | PDict d => Ok (match alist_get k d with Some v => v | None => dflt end)
  | _ => Raise AttributeError
  end.

(** The value of a binary64 number is the integer [n]. *)
Definition float_eq_Z (f : spec_float) (n : Z) : bool :=
  match f with
  | S754_zero _ => n =? 0
  | S754_finite s m e =>
      let v := if s then Z.neg m else Z.pos m in
      if 0 <=? e then v * 2 ^ e =? n else v =? n * 2 ^ (- e)
  | _ => false
  end.

(** [x == n] for an integer literal [n]. *)
Definition py_eq_int (x : pyval) (n : Z) : bool :=
  match x with
  | PInt z => z =? n
  | PBool b => Z.b2z b =? n
  | PFloat f => float_eq_Z f n
  | _ => false
  end.

(** [x == s] for a string literal [s]. *)
Definition py_eq_str (x : pyval) (s : string) : bool :=
  match x with
  | PStr t => String.eqb t s
  | _ => false
  end.

(** Truth value of [x] in a condition. *)
Definition truthy (x : pyval) : bool :=
  match x with
  | PNone => false
  | PBool b => b
  | PInt z => negb (z =? 0)
  | PFloat (S754_zero _) => false
  | PFloat _ => true
  | PStr s => negb (String.eqb s "")
  | PList l => match l with [] => false | _ => true end
  | PDict d => match d with [] => false | _ => true end
  end.

(** [len(x)] *)
Definition py_len (x : pyval) : result Z :=
  match x with
  | PStr s => Ok (Z.of_nat (String.length s))
  | PList l => Ok (Z.of_nat (List.length l))
  | PDict d => Ok (Z.of_nat (List.length d))
  | _ => Raise TypeError
  end.

Definition chars_of (s : string) : list pyval :=
  map (fun c => PStr (String c "")) (list_ascii_of_string s).

(** The items that [for item in x] visits. *)
Definition py_iter (x : pyval) : result (list pyval) :=
  match x with
  | PStr s => Ok (chars_of s)
  | PList l => Ok l
  | PDict d => Ok (map (fun kv => PStr (fst kv)) d)
  | _ => Raise TypeError
  end.

(** [s in x] for a string [s]. *)
Definition py_in (s : string) (x : pyval) : result bool :=
  match x with
  | PStr t => Ok (str_contains s t)
  | PList l => Ok (existsb (fun v => py_eq_str v s) l)
  | PDict d => Ok (match alist_get s d with Some _ => true | None => false end)
  | _ => Raise TypeError
  end.

(** [Path(x).name] *)
Definition py_path_name (x : pyval) : result string :=
  match x with
  | PStr s => Ok (path_name s)
  | _ => Raise TypeError
  end.

(* ================================================================= *)
(** ** Verifier output normalizer: [parse_chainver_output] *)

(** One element of [results["packages"]]. *)
Record package : Type := mk_package {
  name : pyval;
  version : string;
  verified : bool;
  details : pyval;
  verification_method : pyval;
  rekor_url : option string
}.

(** The dict [results] that the normalizer builds and returns. *)
Record results : Type := mk_results {
  verified_count : Z;
  total_count : Z;
  packages : list package;
  overall_coverage : pyval;
  artifact_coverage : pyval;
  run_details : pyval
}.

Definition set_total_count (res : results) (n : Z) : results :=
  mk_results (verified_count res) n (packages res)
             (overall_coverage res) (artifact_coverage res) (run_details res).

(** [results["verified_count"] += 1] when the entry is verified, then
    [results["packages"].append(pkg)]. *)
Definition record_package (res : results) (pkg : package) : results :=
  mk_results (if verified pkg then verified_count res + 1 else verified_count res)
             (total_count res) (packages res ++ [pkg])
             (overall_coverage res) (artifact_coverage res) (run_details res).

Definition search_url_prefix : string := "https://search.sigstore.dev/?logIndex=".

(** Lines 375-386 and, word for word again, 416-427: the Rekor URL of an
    entry, from its verdict and its [details] value. *)
Definition extract_rekor_url (is_verified : bool) (details_str : pyval)
  : result (option string) :=
  if is_verified then
    mentions <- py_in "rekor.sigstore.dev" details_str ;;
    if (mentions : bool) then
      match details_str with
      | PStr s =>
          match re_search match_rekor_url s with
          | Some url => Ok (Some url)
          | None =>
              match re_search match_log_index s with
              | Some idx => Ok (Some (search_url_prefix ++ idx)%string)
              | None => Ok None
              end
          end
      | _ => Raise TypeError
      end
    else Ok None
  else Ok None.

(** Name and version from a wheel file name, [package-version-py3-none-any.whl]. *)
Definition wheel_name_version (filename : string) : string * string :=
  if endswith ".whl" filename then
    match str_split "-" (drop_last 4 filename) with
    | n :: v :: _ => (n, v)
    | _ => (filename, "")
    end
  else (filename, "").

(** Body of the loop over [results] (the per-artifact shape). *)
Definition parse_artifact (artifact : pyval) : result package :=
  artifact_path <- dict_get artifact "artifact" (PStr "") ;;
  filename <- py_path_name artifact_path ;;
  let '(nm, ver) := wheel_name_version filename in
  coverage <- dict_get artifact "artifactVerificationCoverage" (PInt 0) ;;
  let is_verified := py_eq_int coverage 100 in
  details_str <- dict_get artifact "details" (PStr "") ;;
  url <- extract_rekor_url is_verified details_str ;;
  Ok (mk_package (PStr nm) ver is_verified details_str
                 (PStr (if is_verified then "signature" else "none")) url).

(** Name and version from the [coordinates] of a legacy entry. *)
Definition coordinates_name_version (pkg_result coordinates : pyval)
  : result (pyval * string) :=
  has_sep <- py_in "==" coordinates ;;
  if (has_sep : bool) then
    match coordinates with
    | PStr s =>
        match str_partition "==" s with
        | Some (nm, ver) => Ok (PStr nm, ver)
        | None => Raise ValueError
        end
    | _ => Raise AttributeError
    end
  else
    nm <- dict_get pkg_result "path" (PStr "Unknown") ;;
    Ok (nm, "").

(** Body of the loop over [nestedResults] (the legacy shape). *)
Definition parse_nested (pkg_result : pyval) : result package :=
  coordinates <- dict_get pkg_result "coordinates" (PStr "") ;;
  nv <- coordinates_name_version pkg_result coordinates ;;
  coverage <- dict_get pkg_result "verificationCoverage" (PInt 0) ;;
  let is_verified := py_eq_int coverage 100 in
  details_str <- dict_get pkg_result "details" (PStr "") ;;
  url <- extract_rekor_url is_verified details_str ;;
  method <- dict_get pkg_result "verificationMethod" (PStr "none") ;;
  Ok (mk_package (fst nv) (snd nv) is_verified details_str method url).

Definition loop_body (parse_entry : pyval -> result package)
  (res : results) (entry : pyval) : result results :=
  pkg <- parse_entry entry ;;
  Ok (record_package res pkg).

Definition parse_chainver_output (chainver_data : pyval) : result results :=
  artifact_cov <- dict_get chainver_data "artifactVerificationCoverage" (PInt 0) ;;
  overall_cov <- dict_get chainver_data "overallVerificationCoverage" artifact_cov ;;
  top_details <- dict_get chainver_data "details" (PStr "") ;;
  let res := mk_results 0 0 [] overall_cov artifact_cov top_details in
  artifact_results <- dict_get chainver_data "results" (PList []) ;;
  if truthy artifact_results then
    n <- py_len artifact_results ;;
    items <- py_iter artifact_results ;;
    for_each (loop_body parse_artifact) items (set_total_count res n)
  else
    nested_results <- dict_get chainver_data "nestedResults" (PList []) ;;
    n <- py_len nested_results ;;
    items <- py_iter nested_results ;;
    for_each (loop_body parse_nested) items (set_total_count res n).

(* ================================================================= *)
(** ** Archive inspector: [build_file_tree] and [get_wheel_contents] *)

(** One element of [file_info]. *)
Record file_entry : Type := mk_file_entry {
  path : string;
  size : Z;
  compressed_size : Z;
  is_dir : bool
}.

(** A node of the tree: a dict with the key ["type"] and, for a leaf, ["size"]
    and ["path"], for a directory ["children"].  A leaf that a later entry
    descends through gains ["children"] and keeps its other keys, hence the
    three options. *)
#[warnings="-register-all"]
Inductive tree_node : Type :=
| mk_node (node_type : string) (node_size : option Z) (node_path : option string)
          (children : option (list (string * tree_node))).

Definition file_tree : Type := list (string * tree_node).

Definition leaf_node (item : file_entry) : tree_node :=
  mk_node (if is_dir item then "dir" else "file")
          (Some (size item)) (Some (path item)) None.

(** The node [current[part]] after the branch "Directory node" has run: a
    fresh directory when the key was missing, the node itself otherwise, with
    an empty ["children"] added when it had none. *)
Definition enter_dir (part : string) (current : file_tree) : tree_node :=
  match alist_get part current with
  | None => mk_node "dir" None None (Some [])
  | Some (mk_node t s p None) => mk_node t s p (Some [])
  | Some nd => nd
  end.

(** The inner loop of [build_file_tree] for one item.  The source walks
    [current] down the dicts it mutates in place; here the walk rebuilds each
    dict on its way back, every key keeping its position. *)
Fixpoint insert_path (item : file_entry) (path_parts : list string)
  (current : file_tree) : file_tree :=
  match path_parts with
  | [] => current
  | [part] =>
      if String.eqb part "" then current
      else alist_set part (leaf_node item) current
  | part :: rest =>
      match enter_dir part current with
      | mk_node t s p ch =>
          let below := match ch with Some c => c | None => [] end in
          alist_set part (mk_node t s p (Some (insert_path item rest below))) current
      end
  end.

Definition build_file_tree (file_info : list file_entry) : file_tree :=
  fold_left (fun tree item => insert_path item (str_split "/" (path item)) tree)
            file_info [].

(** What [zipfile] knows of one member of an archive. *)
Record zip_info : Type := mk_zip_info {
  filename : string;
  file_size : Z;
  compress_size : Z
}.

(** [wheel_zip.getinfo(name)]: when several members share a name the archive
    answers with the last one. *)
Fixpoint getinfo (nm : string) (members : list zip_info) : option zip_info :=
  match members with
  | [] => None
  | m :: rest =>
      match getinfo nm rest with
      | Some later => Some later
      | None => if String.eqb (filename m) nm then Some m else None
      end
  end.

(** The directory of wheels as the inspector reads it: the paths that a glob
    pattern matches, and the members of the archive at a path. *)
Record wheel_store : Type := mk_wheel_store {
  glob : string -> list string;
  open_zip : string -> result (list zip_info)
}.

Record manifest : Type := mk_manifest {
  m_package : string;
  m_version : string;
  wheel_file : string;
  total_files : Z;
  total_size : Z;
  files : list file_entry;
  tree : file_tree
}.

(** The dict that [get_wheel_contents] returns: the manifest, the "not found"
    error, or the error made of the exception that [except Exception] caught. *)
Inductive contents_reply : Type :=
| Contents (m : manifest)
| ContentsNotFound (package_name package_version : string)
| ContentsError (e : pyexc).

(** The loop "Get file sizes": [file_info] and [total_size] after it. *)
Fixpoint collect_file_info (members : list zip_info) (names : list string)
  (file_info : list file_entry) (total : Z) : result (list file_entry * Z) :=
  match names with
  | [] => Ok (file_info, total)
  | nm :: rest =>
      match getinfo nm members with
      | None => Raise KeyError
      | Some info =>
          collect_file_info members rest
            (file_info ++ [mk_file_entry nm (file_size info) (compress_size info)
                                         (endswith "/" nm)])
            (total + file_size info)
      end
  end.

Definition wheel_pattern (package_name package_version : string) : string :=
  (package_name ++ "-" ++ package_version ++ "-*.whl")%string.

Definition get_wheel_contents (store : wheel_store)
  (package_name package_version : string) : result contents_reply :=
  match glob store (wheel_pattern package_name package_version) with
  | [] => Ok (ContentsNotFound package_name package_version)
  | wheel_path :: _ =>
      let outcome :=
        members <- open_zip store wheel_path ;;
        let file_list := map filename members in
        info <- collect_file_info members file_list [] 0 ;;
        Ok (mk_manifest package_name package_version (path_name wheel_path)
                        (Z.of_nat (List.length file_list)) (snd info) (fst info)
                        (build_file_tree (fst info))) in
      match outcome with
      | Ok m => Ok (Contents m)
      | Raise e => if is_Exception e then Ok (ContentsError e) else Raise e
      end
  end.

(* ================================================================= *)
(** ** More built-ins, used by the attestation decoder *)

(** [x[k]] for a string key [k]. *)
Definition py_getitem (x : pyval) (k : string) : result pyval :=
  match x with
  | PDict d =>
      match alist_get k d with
      | Some v => Ok v
      | None => Raise KeyError
      end
  | _ => Raise TypeError
  end.

(** [x[0]] *)
Definition py_first (x : pyval) : result pyval :=
  match x with
  | PList (h :: _) => Ok h
  | PList [] => Raise IndexError
  | PStr (String c _) => Ok (PStr (String c ""))
  | PStr "" => Raise IndexError
  | PDict _ => Raise KeyError
  | _ => Raise TypeError
  end.

Definition is_ascii (c : ascii) : bool := (nat_of_ascii c <? 128)%nat.

Fixpoint str_forallb (p : ascii -> bool) (s : string) : bool :=
  match s with
  | "" => true
  | String c r => p c && str_forallb p r
  end.

Definition newline : string := String "010" "".

(* ================================================================= *)
(** ** The world of the request handlers *)

(** What a finished child process hands back to [communicate()]. *)
Record proc_output : Type := mk_proc_output {
  returncode : Z;
  stdout : string;
  stderr : string
}.

(** What the code does to the outside: a child process started with
    [asyncio.create_subprocess_exec], a temporary directory made or removed,
    a warning printed. *)
Inductive event : Type :=
| EvExec (argv : list string) (cwd : option string)
| EvMkdtemp (prefix : string)
| EvRmtree (dir : string)
| EvWarn (tag_name : string) (e : pyexc).

(** The global [auth_state]. *)
Record auth : Type := mk_auth {
  authenticated : bool;
  auth_url : option string;
  auth_process : option Z;
  error : option string
}.

(** The two globals of the module and the trace of what was done outside. *)
Record world : Type := mk_world {
  auth_state : auth;
  chainver_logs : list (string * pyval);
  trace : list event
}.

Definition log_event (ev : event) (w : world) : world :=
  mk_world (auth_state w) (chainver_logs w) (trace w ++ [ev]).

Definition set_log (k : string) (v : pyval) (w : world) : world :=
  mk_world (auth_state w) (alist_set k v (chainver_logs w)) (trace w).

(** A coroutine of the module: it runs in a world, leaves a world, and
    returns or raises. *)
Definition M (A : Type) : Type := world -> result A * world.

Definition ret {A : Type} (a : A) : M A := fun w => (Ok a, w).

Definition lift {A : Type} (r : result A) : M A := fun w => (r, w).

Definition mbind {A B : Type} (m : M A) (k : A -> M B) : M B :=
  fun w =>
    match m w with
    | (Ok a, w') => k a w'
    | (Raise e, w') => (Raise e, w')
    end.

Notation "x <~ m ;; k" := (mbind m (fun x => k))
  (at level 61, m at next level, right associativity).

(** Start a child process and collect its output; [outcome] is what the
    process, or the timeout around it, answers. *)
Definition exec (argv : list string) (cwd : option string)
  (outcome : result proc_output) : M proc_output :=
  fun w => (outcome, log_event (EvExec argv cwd) w).

(** [try: body / except Exception as e: handler(e)] *)
Definition try_except {A : Type} (body : M A) (handler : pyexc -> M A) : M A :=
  fun w =>
    match body w with
    | (Raise e, w') => if is_Exception e then handler e w' else (Raise e, w')
    | (Ok a, w') => (Ok a, w')
    end.

(** The outcomes of the external steps of one tag resolution; [git_print]
    is what the [print] of the warning does, which stands in the [except]
    clause and so outside every [try]. *)
Record git_env : Type := mk_git_env {
  git_mkdtemp : result string;
  git_clone : result proc_output;
  git_fetch : result proc_output;
  git_rev_list : result proc_output;
  git_dir_exists : bool;
  git_print : result unit
}.

(** The outcomes of the external steps of one verification run. *)
Record verifier_env : Type := mk_verifier_env {
  env_parent_org : string;
  env_wheels : list string;
  env_chainver : result proc_output;
  env_date : result proc_output
}.

(** [sorted(paths)]: the paths share their directory, so their order is
    the order of the strings. *)
Fixpoint insert_sorted (p : string) (l : list string) : list string :=
  match l with
  | [] => [p]
  | q :: rest => if String.leb p q then p :: l else q :: insert_sorted p rest
  end.

Definition sorted (l : list string) : list string :=
  fold_right insert_sorted [] l.

(** The dict that [get_chainver_results] returns. *)
Inductive chainver_reply : Type :=
| RunResults (r : results)
| RunFailed (msg : string) (stderr_text : option string)
| RunRaised (e : pyexc).

(** The body of a JSON response. *)
Inductive body : Type :=
| BodyError (msg : string)
| BodyRaised (e : pyexc)
| BodyRun (r : chainver_reply)
| BodyVerbose (verbose last_run : option pyval).

Record response : Type := json_response {
  resp_body : body;
  status : Z
}.

Definition not_authenticated_msg : string :=
  "Not authenticated with Chainguard. Please authenticate first.".

(* ================================================================= *)
(** ** Code that calls the decoders of the Python library *)

Section Library.

(** [binascii.a2b_base64] on ASCII text (not strict), [bytes.decode('utf-8')]
    and [json.loads]: library code, taken as it comes. *)
Variable b64decode : string -> result string.
Variable utf8_decode : string -> result string.
Variable json_loads : string -> result pyval.

(** [base64.b64decode(x)] *)
Definition py_b64decode (x : pyval) : result string :=
  match x with
  | PStr s => if str_forallb is_ascii s then b64decode s else Raise ValueError
  | _ => Raise TypeError
  end.

(** [json.loads(base64.b64decode(payload).decode('utf-8'))] *)
Definition decode_payload (payload : pyval) : result pyval :=
  statement_bytes <- py_b64decode payload ;;
  text <- utf8_decode statement_bytes ;;
  json_loads text.

(** *** Attestation decoder: [parse_provenance_data] *)

(** The block "Decode the statement": the keys it adds to [att_info]. *)
Definition decode_statement (envelope : pyval) (att_info : list (string * pyval))
  : result (list (string * pyval)) :=
  has_statement <- py_in "statement" envelope ;;
  if (has_statement : bool) then
    payload <- py_getitem envelope "statement" ;;
    statement <- decode_payload payload ;;
    subject <- dict_get statement "subject" (PList []) ;;
    let att_info := alist_set "subject" subject att_info in
    predicate <- dict_get statement "predicate" (PDict []) ;;
    build_def <- dict_get predicate "buildDefinition" (PDict []) ;;
    build_type <- dict_get build_def "buildType" (PStr "") ;;
    let att_info := alist_set "build_type" build_type att_info in
    external <- dict_get build_def "externalParameters" (PDict []) ;;
    let att_info := alist_set "external_parameters" external att_info in
    internal <- dict_get build_def "internalParameters" (PDict []) ;;
    let att_info := alist_set "internal_parameters" internal att_info in
    resolved <- dict_get build_def "resolvedDependencies" (PList []) ;;
    let att_info := alist_set "resolved_dependencies" resolved att_info in
    run_info <- dict_get predicate "runDetails" (PDict []) ;;
    builder <- dict_get run_info "builder" (PDict []) ;;
    let att_info := alist_set "builder" builder att_info in
    metadata <- dict_get run_info "metadata" (PDict []) ;;
    Ok (alist_set "metadata" metadata att_info)
  else Ok att_info.

(** The block "Verification material". *)
Definition read_verification (attestation : pyval) (att_info : list (string * pyval))
  : result (list (string * pyval)) :=
  verif_material <- dict_get attestation "verification_material" (PDict []) ;;
  if truthy verif_material then
    certificate <- dict_get verif_material "certificate" (PStr "") ;;
    certificate_length <- py_len certificate ;;
    entries <- dict_get verif_material "transparency_entries" (PList []) ;;
    entry_count <- py_len entries ;;
    let verification := [("certificate_length", PInt certificate_length);
                         ("transparency_entries", PInt entry_count)] in
    listed <- dict_get verif_material "transparency_entries" PNone ;;
    if truthy listed then
      all_entries <- py_getitem verif_material "transparency_entries" ;;
      entry <- py_first all_entries ;;
      log_index <- dict_get entry "logIndex" (PStr "") ;;
      let verification := alist_set "log_index" log_index verification in
      integrated_time <- dict_get entry "integratedTime" (PStr "") ;;
      let verification := alist_set "integrated_time" integrated_time verification in
      Ok (alist_set "verification" (PDict verification) att_info)
    else Ok (alist_set "verification" (PDict verification) att_info)
  else Ok att_info.

(** Body of the loop over the attestations of a bundle: [att_info]. *)
Definition parse_attestation (attestation : pyval) : result pyval :=
  att_version <- dict_get attestation "version" (PInt 1) ;;
  let att_info := [("version", att_version)] in
  envelope <- dict_get attestation "envelope" (PDict []) ;;
  att_info <- decode_statement envelope att_info ;;
  att_info <- read_verification attestation att_info ;;
  Ok (PDict att_info).

Definition append_attestation (done : list pyval) (attestation : pyval)
  : result (list pyval) :=
  att_info <- parse_attestation attestation ;;
  Ok (done ++ [att_info]).

(** Body of the loop over the bundles: [bundle_info]. *)
Definition parse_bundle (bundle : pyval) : result pyval :=
  publisher <- dict_get bundle "publisher" (PDict []) ;;
  listed <- dict_get bundle "attestations" (PList []) ;;
  attestations <- py_iter listed ;;
  infos <- for_each append_attestation attestations [] ;;
  Ok (PDict [("publisher", publisher); ("attestations", PList infos)]).

Definition append_bundle (done : list pyval) (bundle : pyval) : result (list pyval) :=
  bundle_info <- parse_bundle bundle ;;
  Ok (done ++ [bundle_info]).

Definition parse_provenance_data (provenance_data : pyval) : result pyval :=
  doc_version <- dict_get provenance_data "version" (PInt 1) ;;
  listed <- dict_get provenance_data "attestation_bundles" (PList []) ;;
  bundles <- py_iter listed ;;
  infos <- for_each append_bundle bundles [] ;;
  Ok (PDict [("version", doc_version); ("bundles", PList infos)]).

(** *** Source reference resolver: [resolve_tag_to_commit] *)

Definition tag_ref (tag_name : string) : string := ("refs/tags/" ++ tag_name)%string.

(** The body of the [try], from the clone on; [temp_dir] is bound. *)
Definition git_steps (env : git_env) (repo_url tag_name object_id temp_dir : string)
  : M string :=
  _ <~ exec ["git"; "clone"; "--filter=blob:none"; "--no-checkout"; repo_url; temp_dir]
            None (git_clone env) ;;
  _ <~ exec ["git"; "fetch"; "origin"; (tag_ref tag_name ++ ":" ++ tag_ref tag_name)%string]
            (Some temp_dir) (git_fetch env) ;;
  out <~ exec ["git"; "rev-list"; "-n"; "1"; tag_ref tag_name]
              (Some temp_dir) (git_rev_list env) ;;
  text <~ lift (utf8_decode (stdout out)) ;;
  let commit_sha := str_strip text in
  ret (if String.eqb commit_sha "" then object_id else commit_sha).

(** The [finally] block; what [shutil.rmtree] raises is swallowed. *)
Definition cleanup (env : git_env) (temp_dir : option string) (w : world) : world :=
  match temp_dir with
  | Some d =>
      if negb (String.eqb d "") && git_dir_exists env then log_event (EvRmtree d) w
      else w
  | None => w
  end.

Definition resolve_tag_to_commit (env : git_env)
  (repo_url tag_name object_id : string) : M string :=
  fun w =>
    let w0 := log_event (EvMkdtemp "git_resolve_") w in
    let '(temp_dir, (r, w1)) :=
      match git_mkdtemp env with
      | Raise e => (None, (Raise e, w0))
      | Ok d => (Some d, git_steps env repo_url tag_name object_id d w0)
      end in
    let '(r2, w2) :=
      match r with
      | Ok sha => (Ok sha, w1)
      | Raise e =>
          if is_Exception e then
            match git_print env with
            | Ok _ => (Ok object_id, log_event (EvWarn tag_name e) w1)
            | Raise e' => (Raise e', w1)
            end
          else (Raise e, w1)
      end in
    (r2, cleanup env temp_dir w2).

(** *** Aggregation layer: the verification run and its two handlers *)

Definition chainver_cmd (flags : list string) (env : verifier_env)
  (wheel_files : list string) : list string :=
  ("chainver" :: flags)
  ++ (if String.eqb (env_parent_org env) "" then [] else ["--parent"; env_parent_org env])
  ++ wheel_files.

Definition get_chainver_results (env : verifier_env) : M chainver_reply :=
  try_except
    (let wheel_files := sorted (env_wheels env) in
     match wheel_files with
     | [] => ret (RunFailed "No wheel files found in /app/wheels/" None)
     | _ =>
         out <~ exec (chainver_cmd ["-o"; "json"; "--detailed"] env wheel_files)
                     None (env_chainver env) ;;
         date_out <~ exec ["date"] None (env_date env) ;;
         out_text <~ lift (utf8_decode (stdout out)) ;;
         err_text <~ lift (utf8_decode (stderr out)) ;;
         _ <~ (fun w => (Ok tt, set_log "normal_output"
                 (PStr (out_text ++ newline ++ newline ++ err_text)%string) w)) ;;
         date_text <~ lift (utf8_decode (stdout date_out)) ;;
         _ <~ (fun w => (Ok tt, set_log "last_run" (PStr (str_strip date_text)) w)) ;;
         if (returncode out =? 0) && negb (String.eqb (stdout out) "") then
           text <~ lift (utf8_decode (stdout out)) ;;
           chainver_data <~ lift (json_loads text) ;;
           parsed <~ lift (parse_chainver_output chainver_data) ;;
           ret (RunResults parsed)
         else
           err_again <~ lift (utf8_decode (stderr out)) ;;
           ret (RunFailed "Unable to run chainver" (Some err_again))
     end)
    (fun e => ret (RunRaised e)).

Definition chainver_api (env : verifier_env) : M response :=
  fun w =>
    if negb (authenticated (auth_state w)) then
      (Ok (json_response (BodyError not_authenticated_msg) 401), w)
    else
      (run <~ get_chainver_results env ;;
       ret (json_response (BodyRun run) 200)) w.

Definition chainver_verbose_api (env : verifier_env) : M response :=
  fun w =>
    if negb (authenticated (auth_state w)) then
      (Ok (json_response (BodyError not_authenticated_msg) 401), w)
    else
      try_except
        (let wheel_files := sorted (env_wheels env) in
         match wheel_files with
         | [] => ret (json_response (BodyError "No wheel files found") 404)
         | _ =>
             out <~ exec (chainver_cmd ["-v"; "--detailed"] env wheel_files)
                         None (env_chainver env) ;;
             date_out <~ exec ["date"] None (env_date env) ;;
             out_text <~ lift (utf8_decode (stdout out)) ;;
             err_text <~ lift (utf8_decode (stderr out)) ;;
             _ <~ (fun w => (Ok tt, set_log "verbose_output"
                     (PStr (out_text ++ newline ++ newline ++ err_text)%string) w)) ;;
             date_text <~ lift (utf8_decode (stdout date_out)) ;;
             _ <~ (fun w => (Ok tt, set_log "verbose_last_run"
                     (PStr (str_strip date_text)) w)) ;;
             (fun w => (Ok (json_response
                              (BodyVerbose (alist_get "verbose_output" (chainver_logs w))
                                           (alist_get "verbose_last_run" (chainver_logs w)))
                              200), w))
         end)
        (fun e => ret (json_response (BodyRaised e) 500)) w.

End Library.

(* ================================================================= *)
(** ** A reference instance of the library decoders

    The theorems about the code of section [Library] hold for every
    behaviour of the three decoders.  The instance below runs them on
    concrete documents: base64 as [binascii.a2b_base64] decodes it when not
    strict, UTF-8 for the code points of the text model (what lies above
    U+00FF is outside it and is refused), and the JSON grammar of
    [json.loads]. *)

Definition code (c : ascii) : Z := Z.of_nat (nat_of_ascii c).

Definition char_of (n : Z) : ascii := ascii_of_nat (Z.to_nat n).

Definition b64_value (c : ascii) : option Z :=
  let n := code c in
  if (65 <=? n) && (n <=? 90) then Some (n - 65)
  else if (97 <=? n) && (n <=? 122) then Some (n - 71)
  else if (48 <=? n) && (n <=? 57) then Some (n + 4)
  else if n =? 43 then Some 62
  else if n =? 47 then Some 63
  else None.

Definition push_byte (out : string) (n : Z) : string :=
  (out ++ String (char_of (n mod 256)) "")%string.

(** The loop of [a2b_base64]: [quad_pos] counts the data characters of the
    current group of four, [leftchar] holds the bits not yet written, [pads]
    the padding seen since the last data character.  Characters outside the
    alphabet are skipped; enough padding after two data characters ends the
    input. *)
Fixpoint a2b_base64 (s : string) (quad_pos leftchar pads : Z) (out : string)
  : result string :=
  match s with
  | "" => if quad_pos =? 0 then Ok out else Raise BinasciiError
  | String c r =>
      if Ascii.eqb c "=" then
        if 2 <=? quad_pos then
          if 4 <=? quad_pos + (pads + 1) then Ok out
          else a2b_base64 r quad_pos leftchar (pads + 1) out
        else a2b_base64 r quad_pos leftchar pads out
      else
        match b64_value c with
        | None => a2b_base64 r quad_pos leftchar pads out
        | Some v =>
            if quad_pos =? 0 then a2b_base64 r 1 v 0 out
            else if quad_pos =? 1 then
              a2b_base64 r 2 (Z.land v 15) 0
                (push_byte out (Z.lor (Z.shiftl leftchar 2) (Z.shiftr v 4)))
            else if quad_pos =? 2 then
              a2b_base64 r 3 (Z.land v 3) 0
                (push_byte out (Z.lor (Z.shiftl leftchar 4) (Z.shiftr v 2)))
            else
              a2b_base64 r 0 0 0 (push_byte out (Z.lor (Z.shiftl leftchar 6) v))
        end
  end.

Definition ref_b64decode (s : string) : result string := a2b_base64 s 0 0 0 "".

Definition is_continuation (c : ascii) : bool := (128 <=? code c) && (code c <=? 191).

Fixpoint ref_utf8_decode (s : string) : result string :=
  match s with
  | "" => Ok ""
  | String c r =>
      if code c <? 128 then
        text <- ref_utf8_decode r ;; Ok (String c text)
      else if (code c =? 194) || (code c =? 195) then
        match r with
        | String c2 r2 =>
            if is_continuation c2 then
              text <- ref_utf8_decode r2 ;;
              Ok (String (char_of ((code c - 192) * 64 + (code c2 - 128))) text)
            else Raise UnicodeDecodeError
        | "" => Raise UnicodeDecodeError
        end
      else Raise UnicodeDecodeError
  end.

Definition dquote : ascii := "034".
Definition backslash : ascii := "092".

Definition is_json_ws (c : ascii) : bool :=
  (code c =? 32) || (code c =? 9) || (code c =? 10) || (code c =? 13).

Definition skip_ws (s : string) : string := drop_while is_json_ws s.

Definition hex_value (c : ascii) : option Z :=
  let n := code c in
  if (48 <=? n) && (n <=? 57) then Some (n - 48)
  else if (97 <=? n) && (n <=? 102) then Some (n - 87)
  else if (65 <=? n) && (n <=? 70) then Some (n - 55)
  else None.

Definition simple_escape (c : ascii) : option ascii :=
  if Ascii.eqb c dquote then Some dquote
  else if Ascii.eqb c backslash then Some backslash
  else if Ascii.eqb c "/" then Some "/"%char
  else if Ascii.eqb c "b" then Some "008"%char
  else if Ascii.eqb c "f" then Some "012"%char
  else if Ascii.eqb c "n" then Some "010"%char
  else if Ascii.eqb c "r" then Some "013"%char
  else if Ascii.eqb c "t" then Some "009"%char
  else None.

(** A JSON string from after its opening quote: its text and what follows
    the closing quote. *)
Fixpoint scan_string (s : string) : option (string * string) :=
  match s with
  | "" => None
  | String c r =>
      if Ascii.eqb c dquote then Some ("", r)
      else if Ascii.eqb c backslash then
        match r with
        | String e r2 =>
            if Ascii.eqb e "u" then
              match r2 with
              | String h1 (String h2 (String h3 (String h4 r3))) =>
                  match hex_value h1, hex_value h2, hex_value h3, hex_value h4 with
                  | Some a, Some b, Some c3, Some d =>
                      let n := ((a * 16 + b) * 16 + c3) * 16 + d in
                      if n <? 256 then
                        match scan_string r3 with
                        | Some (text, rest) => Some (String (char_of n) text, rest)
                        | None => None
                        end
                      else None
                  | _, _, _, _ => None
                  end
              | _ => None
              end
            else
              match simple_escape e with
              | Some ch =>
                  match scan_string r2 with
                  | Some (text, rest) => Some (String ch text, rest)
                  | None => None
                  end
              | None => None
              end
        | "" => None
        end
      else if code c <? 32 then None
      else
        match scan_string r with
        | Some (text, rest) => Some (String c text, rest)
        | None => None
        end
  end.

Fixpoint digits_value (ds : string) (acc : Z) : Z :=
  match ds with
  | "" => acc
  | String c r => digits_value r (acc * 10 + (code c - 48))
  end.

(** The binary64 number nearest to [m * 10 ^ e], ties to even. *)
Definition float_of_decimal (negative : bool) (m e : Z) : spec_float :=
  if m =? 0 then S754_zero negative
  else if 0 <=? e then
    binary_normalize 53 1024 ((if negative then - m else m) * 10 ^ e) 0 false
  else
    SFdiv 53 1024 (S754_finite negative (Z.to_pos m) 0)
                  (S754_finite false (Z.to_pos (10 ^ (- e))) 0).

(** The integer part [0|[1-9]\d*] at the head of [s]. *)
Definition scan_int_part (s : string) : option (string * string) :=
  match s with
  | String c r =>
      if Ascii.eqb c "0" then Some ("0", r)
      else if is_digit c then Some (take_while is_digit s, drop_while is_digit s)
      else None
  | "" => None
  end.

(** The fraction [\.\d+] at the head of [s], when there is one. *)
Definition scan_frac (s : string) : option (string * string) :=
  match s with
  | String c r =>
      if Ascii.eqb c "." then
        match take_while is_digit r with
        | "" => None
        | ds => Some (ds, drop_while is_digit r)
        end
      else None
  | "" => None
  end.

(** The exponent [[eE][-+]?\d+] at the head of [s], when there is one. *)
Definition scan_exp (s : string) : option (Z * string) :=
  match s with
  | String c r =>
      if Ascii.eqb c "e" || Ascii.eqb c "E" then
        let '(negative, r') :=
          match r with
          | String sg r1 =>
              if Ascii.eqb sg "-" then (true, r1)
              else if Ascii.eqb sg "+" then (false, r1)
              else (false, r)
          | "" => (false, r)
          end in
        match take_while is_digit r' with
        | "" => None
        | ds =>
            let v := digits_value ds 0 in
            Some (if negative then - v else v, drop_while is_digit r')
        end
      else None
  | "" => None
  end.

(** A JSON number at the head of [s]: an [int] when it has neither fraction
    nor exponent, a [float] otherwise. *)
Definition scan_number (s : string) : option (pyval * string) :=
  let '(negative, s1) :=
    match s with
    | String c r => if Ascii.eqb c "-" then (true, r) else (false, s)
    | "" => (false, s)
    end in
  match scan_int_part s1 with
  | None => None
  | Some (ip, s2) =>
      let '(fp, s3) :=
        match scan_frac s2 with
        | Some (ds, rest) => (Some ds, rest)
        | None => (None, s2)
        end in
      let '(ex, s4) :=
        match scan_exp s3 with
        | Some (v, rest) => (Some v, rest)
        | None => (None, s3)
        end in
      match fp, ex with
      | None, None =>
          let v := digits_value ip 0 in
          Some (PInt (if negative then - v else v), s4)
      | _, _ =>
          let frac := match fp with Some ds => ds | None => "" end in
          let e := match ex with Some v => v | None => 0 end in
          Some (PFloat (float_of_decimal negative
                          (digits_value (ip ++ frac)%string 0)
                          (e - Z.of_nat (String.length frac))), s4)
      end
  end.

Definition literal (word : string) (v : pyval) (s : string) : option (pyval * string) :=
  match strip_prefix word s with
  | Some rest => Some (v, rest)
  | None => None
  end.

(** A JSON value at the head of [s], the elements of an array from after a
    bracket or a comma, and the members of an object likewise. *)
Fixpoint scan_value (fuel : nat) (s : string) : option (pyval * string) :=
  match fuel with
  | O => None
  | S fuel' =>
      match s with
      | "" => None
      | String c r =>
          if Ascii.eqb c dquote then
            match scan_string r with
            | Some (text, rest) => Some (PStr text, rest)
            | None => None
            end
          else if Ascii.eqb c "[" then
            match skip_ws r with
            | String c1 r1 =>
                if Ascii.eqb c1 "]" then Some (PList [], r1)
                else scan_elements fuel' (skip_ws r) []
            | "" => None
            end
          else if Ascii.eqb c "{" then
            match skip_ws r with
            | String c1 r1 =>
                if Ascii.eqb c1 "}" then Some (PDict [], r1)
                else scan_members fuel' (skip_ws r) []
            | "" => None
            end
          else if Ascii.eqb c "n" then literal "null" PNone s
          else if Ascii.eqb c "t" then literal "true" (PBool true) s
          else if Ascii.eqb c "f" then literal "false" (PBool false) s
          else if Ascii.eqb c "N" then literal "NaN" (PFloat S754_nan) s
          else if Ascii.eqb c "I" then literal "Infinity" (PFloat (S754_infinity false)) s
          else
            match scan_number s with
            | Some found => Some found
            | None => literal "-Infinity" (PFloat (S754_infinity true)) s
            end
      end
  end
with scan_elements (fuel : nat) (s : string) (done : list pyval)
  : option (pyval * string) :=
  match fuel with
  | O => None
  | S fuel' =>
      match scan_value fuel' s with
      | Some (v, rest) =>
          match skip_ws rest with
          | String c r =>
              if Ascii.eqb c "," then scan_elements fuel' (skip_ws r) (done ++ [v])
              else if Ascii.eqb c "]" then Some (PList (done ++ [v]), r)
              else None
          | "" => None
          end
      | None => None
      end
  end
with scan_members (fuel : nat) (s : string) (done : list (string * pyval))
  : option (pyval * string) :=
  match fuel with
  | O => None
  | S fuel' =>
      match s with
      | String q r =>
          if Ascii.eqb q dquote then
            match scan_string r with
            | Some (key, rest) =>
                match skip_ws rest with
                | String colon r1 =>
                    if Ascii.eqb colon ":" then
                      match scan_value fuel' (skip_ws r1) with
                      | Some (v, rest1) =>
                          match skip_ws rest1 with
                          | String c r2 =>
                              if Ascii.eqb c "," then
                                scan_members fuel' (skip_ws r2) (alist_set key v done)
                              else if Ascii.eqb c "}" then
                                Some (PDict (alist_set key v done), r2)
                              else None
                          | "" => None
                          end
                      | None => None
                      end
                    else None
                | "" => None
                end
            | None => None
            end
          else None
      | "" => None
      end
  end.

(** [json.loads(s)] *)
Definition ref_json_loads (s : string) : result pyval :=
  match scan_value (2 * String.length s + 2) (skip_ws s) with
  | Some (v, rest) =>
      match skip_ws rest with
      | "" => Ok v
      | _ => Raise JSONDecodeError
      end
  | None => Raise JSONDecodeError
  end.

(* ================================================================= *)
(** ** Vocabulary of the specification *)

(** The value of [d.get(k, dflt)] for the items [d] of a dict. *)
Definition field_or (k : string) (dflt : pyval) (d : list (string * pyval)) : pyval :=
  match alist_get k d with
  | Some v => v
  | None => dflt
  end.

Definition text_or_absent (k : string) (d : list (string * pyval)) : bool :=
  match alist_get k d with
  | None | Some (PStr _) => true
  | Some _ => false
  end.

(** An entry of [results] as the verifier writes it: an object whose
    [artifact] and [details], when present, are text. *)
Definition wf_artifact (entry : pyval) : bool :=
  match entry with
  | PDict d => text_or_absent "artifact" d && text_or_absent "details" d
  | _ => false
  end.

(** An entry of [nestedResults] likewise, with [coordinates] and [details]. *)
Definition wf_nested (entry : pyval) : bool :=
  match entry with
  | PDict d => text_or_absent "coordinates" d && text_or_absent "details" d
  | _ => false
  end.

Definition entries_or_absent (k : string) (wf : pyval -> bool)
  (d : list (string * pyval)) : bool :=
  match alist_get k d with
  | None => true
  | Some (PList l) => forallb wf l
  | Some _ => false
  end.

(** Well-formed verifier output: an object whose [results] and
    [nestedResults], when present, are arrays of well-formed entries. *)
Definition wf_verifier_output (x : pyval) : bool :=
  match x with
  | PDict top =>
      entries_or_absent "results" wf_artifact top
      && entries_or_absent "nestedResults" wf_nested top
  | _ => false
  end.

(** The coverage of an entry under the key [k], 0 when the key is missing. *)
Definition coverage_of (k : string) (entry : pyval) : pyval :=
  match entry with
  | PDict d => field_or k (PInt 0) d
  | _ => PInt 0
  end.

(** The entries that the normalizer reads: those of [results] when that
    array is present and not empty, those of [nestedResults] otherwise. *)
Definition items_of (k : string) (top : list (string * pyval)) : list pyval :=
  match alist_get k top with
  | Some (PList l) => l
  | _ => []
  end.

Definition count_verified (ps : list package) : Z :=
  Z.of_nat (List.length (filter verified ps)).

(** The external steps of a tag resolution in their order: the decoded
    output of [git rev-list], or the first exception on the way. *)
Definition steps_outcome (utf8_decode : string -> result string) (env : git_env)
  : result string :=
  _ <- git_mkdtemp env ;;
  _ <- git_clone env ;;
  _ <- git_fetch env ;;
  out <- git_rev_list env ;;
  utf8_decode (stdout out).

(** A child process was started in the trace. *)
Definition started_process (ev : event) : bool :=
  match ev with
  | EvExec _ _ => true
  | _ => false
  end.

(** The payloads of the envelope statements of a provenance document, in
    the order of the document. *)
Definition statement_of (attestation : pyval) : list pyval :=
  match attestation with
  | PDict a =>
      match alist_get "envelope" a with
      | Some (PDict env) =>
          match alist_get "statement" env with
          | Some payload => [payload]
          | None => []
          end
      | _ => []
      end
  | _ => []
  end.

Definition statements_of_bundle (bundle : pyval) : list pyval :=
  match bundle with
  | PDict b => flat_map statement_of (items_of "attestations" b)
  | _ => []
  end.

Definition statements_of (provenance_data : pyval) : list pyval :=
  match provenance_data with
  | PDict top => flat_map statements_of_bundle (items_of "attestation_bundles" top)
  | _ => []
  end.

(** Nothing before the statement [payload] fails: the bundles before its
    bundle parse, and in its bundle the attestations before its own parse,
    so the decoder gets as far as decoding [payload]. *)
Definition statement_is_reached (b64decode utf8_decode : string -> result string)
  (json_loads : string -> result pyval) (provenance_data payload : pyval) : Prop :=
  exists top earlier_bundles b later_bundles done earlier a later parsed env,
    provenance_data = PDict top
    /\ field_or "attestation_bundles" (PList []) top
       = PList (earlier_bundles ++ PDict b :: later_bundles)
    /\ for_each (append_bundle b64decode utf8_decode json_loads) earlier_bundles []
       = Ok done
    /\ field_or "attestations" (PList []) b = PList (earlier ++ PDict a :: later)
    /\ for_each (append_attestation b64decode utf8_decode json_loads) earlier []
       = Ok parsed
    /\ alist_get "envelope" a = Some (PDict env)
    /\ alist_get "statement" env = Some payload.

(* ================================================================= *)
(** ** Wheel digest: [get_wheel_hash] *)

(** [s[:n]] and [s[n:]] *)
Fixpoint str_take (n : nat) (s : string) : string :=
  match n, s with
  | S n', String c r => String c (str_take n' r)
  | _, _ => ""
  end.

Fixpoint str_drop (n : nat) (s : string) : string :=
  match n, s with
  | S n', String _ r => str_drop n' r
  | _, _ => s
  end.

(** The loop [for byte_block in iter(lambda: f.read(block_size), b"")]: the
    file gives its next [block_size] bytes, fewer at its end, and the loop
    ends at the first empty block.  A hash object is the data it has been
    fed, which [update] extends; [unread] is what the file still holds. *)
Fixpoint feed_blocks (fuel block_size : nat) (unread fed : string) : string :=
  match fuel with
  | O => fed
  | S fuel' =>
      match str_take block_size unread with
      | "" => fed
      | byte_block =>
          feed_blocks fuel' block_size (str_drop block_size unread)
                      (fed ++ byte_block)%string
      end
  end.

(** The dict that [get_wheel_hash] returns. *)
Record wheel_hash : Type := mk_wheel_hash {
  sha256 : string;
  hash_rekor_url : string
}.

Definition hash_search_prefix : string := "https://search.sigstore.dev/?hash=".

Section Hashing.

(** [hashlib.sha256(data).hexdigest()], and the bytes of the file at a path
    as [open(path, "rb")] gives them. *)
Variable sha256_hex : string -> string.
Variable read_bytes : string -> result string.

Definition get_wheel_hash (store : wheel_store)
  (package_name package_version : string) : result (option wheel_hash) :=
  match glob store (wheel_pattern package_name package_version) with
  | [] => Ok None
  | wheel_path :: _ =>
      match read_bytes wheel_path with
      | Ok data =>
          let fed := feed_blocks (S (String.length data)) 4096 data "" in
          Ok (Some (mk_wheel_hash (sha256_hex fed)
                                  (hash_search_prefix ++ sha256_hex fed)))
      | Raise e => if is_Exception e then Ok None else Raise e
      end
  end.

(** The response of [get_rekor_hash_handler]: the hash, or status 404. *)
Definition get_rekor_hash_handler (store : wheel_store)
  (package_name package_version : string) : result (option wheel_hash * Z) :=
  hash_data <- get_wheel_hash store package_name package_version ;;
  match hash_data with
  | Some h => Ok (Some h, 200)
  | None => Ok (None, 404)
  end.

End Hashing.

(* ================================================================= *)
(** ** Credentials from [.netrc] *)

(** [s.split(maxsplit=1)] on a stripped text: nothing for the empty text,
    else the first word and, if any, what follows the white space after
    it. *)
Definition split_once (s : string) : list string :=
  match s with
  | "" => []
  | _ =>
      let word := take_while (fun c => negb (is_space c)) s in
      match drop_while is_space (drop_while (fun c => negb (is_space c)) s) with
      | "" => [word]
      | rest => [word; rest]
      end
  end.

(** The body of the inner loop: one line that may give the login or the
    password. *)
Definition read_field (creds : option string * option string) (line : string)
  : option string * option string :=
  match split_once (str_strip line) with
  | [k; v] =>
      if String.eqb k "login" then (Some v, snd creds)
      else if String.eqb k "password" then (fst creds, Some v)
      else creds
  | _ => creds
  end.

(** [lines[j] for j in range(i + 1, min(i + 5, len(lines)))] *)
Definition lines_after (i : nat) (lines : list string) : list string :=
  firstn 4 (skipn (S i) lines).

Definition machine_marker : string := "machine libraries.cgr.dev".

(** The outer loop from line [i] on; [rest] are the lines not yet seen. *)
Fixpoint scan_netrc (lines : list string) (i : nat) (rest : list string)
  (creds : option string * option string) : option string * option string :=
  match rest with
  | [] => creds
  | line :: rest' =>
      scan_netrc lines (S i) rest'
        (if str_contains machine_marker line
         then fold_left read_field (lines_after i lines) creds
         else creds)
  end.

(** [username] and [password] after the loop over the lines of the file. *)
Definition netrc_credentials (lines : list string) : option string * option string :=
  scan_netrc lines 0 lines (None, None).

(* ================================================================= *)
(** ** A reference instance of SHA-256 (FIPS 180-4) *)

Module Sha256.

Definition w32 (x : Z) : Z := x mod 2 ^ 32.

Definition rotr (n x : Z) : Z :=
  w32 (Z.lor (Z.shiftr x n) (Z.shiftl x (32 - n))).

Definition xor3 (a b c : Z) : Z := Z.lxor (Z.lxor a b) c.

Definition ch (x y z : Z) : Z :=
  Z.lxor (Z.land x y) (Z.land (Z.lxor x (2 ^ 32 - 1)) z).

Definition maj (x y z : Z) : Z := xor3 (Z.land x y) (Z.land x z) (Z.land y z).

Definition big_sigma0 (x : Z) : Z := xor3 (rotr 2 x) (rotr 13 x) (rotr 22 x).
Definition big_sigma1 (x : Z) : Z := xor3 (rotr 6 x) (rotr 11 x) (rotr 25 x).
Definition small_sigma0 (x : Z) : Z := xor3 (rotr 7 x) (rotr 18 x) (Z.shiftr x 3).
Definition small_sigma1 (x : Z) : Z := xor3 (rotr 17 x) (rotr 19 x) (Z.shiftr x 10).

(** The first primes, by trial division. *)
Definition is_prime (n : nat) : bool :=
  forallb (fun d => negb (Nat.eqb (n mod d) 0)) (seq 2 (n - 2)).

Definition first_primes (count : nat) : list Z :=
  map Z.of_nat (firstn count (filter is_prime (seq 2 310))).

(** The largest [r] below [2 ^ bits] whose cube is at most [n]. *)
Fixpoint cube_root (bits : nat) (n r : Z) : Z :=
  match bits with
  | O => r
  | S bits' =>
      let r' := r + 2 ^ Z.of_nat bits' in
      cube_root bits' n (if r' * r' * r' <=? n then r' else r)
  end.

(** The first 32 bits of the fractional parts of the cube roots of the
    first 64 primes, and of the square roots of the first 8. *)
Definition round_constants : list Z :=
  Eval vm_compute in
    map (fun p => w32 (cube_root 40 (p * 2 ^ 96) 0)) (first_primes 64).

Definition initial_hash : list Z :=
  Eval vm_compute in map (fun p => w32 (Z.sqrt (p * 2 ^ 64))) (first_primes 8).

(** The message with its padding: a bit 1, zeros, and the length in bits
    as 64 bits, up to a multiple of 64 bytes. *)
Definition big_endian (width : nat) (x : Z) : list Z :=
  map (fun i => Z.shiftr x (8 * Z.of_nat (width - 1 - i)) mod 256) (seq 0 width).

Definition padded (message : list Z) : list Z :=
  let len := Z.of_nat (List.length message) in
  let zeros := Z.to_nat ((55 - len) mod 64) in
  message ++ [128] ++ repeat 0 zeros ++ big_endian 8 (8 * len).

Fixpoint words_of (fuel : nat) (bytes : list Z) : list Z :=
  match fuel, bytes with
  | S fuel', a :: b :: c :: d :: rest =>
      (((a * 256 + b) * 256 + c) * 256 + d) :: words_of fuel' rest
  | _, _ => []
  end.

(** The message schedule, newest word first. *)
Fixpoint schedule (more : nat) (newest_first : list Z) : list Z :=
  match more with
  | O => newest_first
  | S more' =>
      let w := w32 (small_sigma1 (nth 1 newest_first 0) + nth 6 newest_first 0
                    + small_sigma0 (nth 14 newest_first 0) + nth 15 newest_first 0) in
      schedule more' (w :: newest_first)
  end.

Definition round (state : list Z) (kw : Z * Z) : list Z :=
  match state with
  | [a; b; c; d; e; f; g; h] =>
      let t1 := h + big_sigma1 e + ch e f g + fst kw + snd kw in
      let t2 := big_sigma0 a + maj a b c in
      [w32 (t1 + t2); a; b; c; w32 (d + t1); e; f; g]
  | _ => state
  end.

Definition compress (hash block_words : list Z) : list Z :=
  let w := rev (schedule 48 (rev block_words)) in
  let final := fold_left round (combine round_constants w) hash in
  map (fun p => w32 (fst p + snd p)) (combine hash final).

Fixpoint blocks (fuel : nat) (hash words : list Z) : list Z :=
  match fuel, words with
  | S fuel', _ :: _ => blocks fuel' (compress hash (firstn 16 words)) (skipn 16 words)
  | _, _ => hash
  end.

Definition hex_digit (n : Z) : ascii :=
  if n <? 10 then ascii_of_nat (Z.to_nat (48 + n)) else ascii_of_nat (Z.to_nat (87 + n)).

Definition hex_of_byte (b : Z) : string :=
  String (hex_digit (b / 16)) (String (hex_digit (b mod 16)) "").

Definition hexdigest (data : string) : string :=
  let bytes := padded (map (fun c => Z.of_nat (nat_of_ascii c))
                           (list_ascii_of_string data)) in
  let words := words_of (List.length bytes) bytes in
  let digest := blocks (List.length words) initial_hash words in
  String.concat "" (map hex_of_byte (flat_map (big_endian 4) digest)).

End Sha256.

(* ================================================================= *)
(** ** Fetching provenance: the two attestation handlers *)

(** [c.lower()] on the code points below 256: the capital letters of ASCII
    and those of Latin-1 (all of 192-222 but the multiplication sign). *)
Definition lower_char (c : ascii) : ascii :=
  let n := nat_of_ascii c in
  if ((65 <=? n)%nat && (n <=? 90)%nat)
     || ((192 <=? n)%nat && (n <=? 222)%nat && negb (n =? 215)%nat)
  then ascii_of_nat (n + 32) else c.

Fixpoint str_lower (s : string) : string :=
  match s with
  | "" => ""
  | String c r => String (lower_char c) (str_lower r)
  end.

(** [x.lower()] *)
Definition py_lower (x : pyval) : result string :=
  match x with
  | PStr s => Ok (str_lower s)
  | _ => Raise AttributeError
  end.

(** [s.replace(a, b)] for single characters [a] and [b]. *)
Fixpoint str_replace (a b : ascii) (s : string) : string :=
  match s with
  | "" => ""
  | String c r => String (if Ascii.eqb c a then b else c) (str_replace a b r)
  end.

(** Body of the loop "Check attestation bundles for Chainguard"; the state
    is [(is_chainguard, publisher_info)].  The [or] reads the issuer only
    while [is_chainguard] is still false. *)
Definition classify_bundle (st : bool * pyval) (bundle : pyval) : result (bool * pyval) :=
  has_publisher <- py_in "publisher" bundle ;;
  if (has_publisher : bool) then
    publisher <- py_getitem bundle "publisher" ;;
    has_issuer <- py_in "issuer" publisher ;;
    if (has_issuer : bool) then
      if fst st then Ok (true, publisher)
      else
        issuer <- py_getitem publisher "issuer" ;;
        low <- py_lower issuer ;;
        if str_contains "chainguard" low then Ok (true, publisher)
        else
          issuer' <- py_getitem publisher "issuer" ;;
          low' <- py_lower issuer' ;;
          Ok (str_contains "enforce.dev" low', publisher)
    else Ok (fst st, publisher)
  else Ok st.

Definition classify_publisher (attestation_data : pyval) : result (bool * pyval) :=
  has_bundles <- py_in "attestation_bundles" attestation_data ;;
  if (has_bundles : bool) then
    listed <- py_getitem attestation_data "attestation_bundles" ;;
    bundles <- py_iter listed ;;
    for_each classify_bundle bundles (false, PDict [])
  else Ok (false, PDict []).

(** What the fetch of a provenance document needs from outside: the wheels,
    the lines of [~/.netrc] when the file exists, and the outcome of curl. *)
Record fetch_env : Type := mk_fetch_env {
  fe_wheels : wheel_store;
  fe_netrc : option (result (list string));
  fe_curl : result proc_output
}.

(** How far the fetch got. *)
Inductive fetch_stage : Type :=
| WheelMissing
| NoCredentials
| FetchFailed
| InvalidData
| Fetched (wheel_filename provenance_url : string) (data : pyval).

Definition provenance_url_of (package_name package_version wheel_filename : string)
  : string :=
  ("https://libraries.cgr.dev/python/integrity/" ++ str_replace "_" "-" package_name
   ++ "/" ++ package_version ++ "/" ++ wheel_filename ++ "/provenance")%string.

Definition is_json_error (e : pyexc) : bool :=
  match e with
  | JSONDecodeError => true
  | _ => false
  end.

Section Fetching.

Variable b64decode : string -> result string.
Variable utf8_decode : string -> result string.
Variable json_loads : string -> result pyval.

(** The steps that both handlers take, word for word, up to the parsed
    document: the wheel, the address, the credentials, curl, [json.loads]. *)
Definition fetch_provenance (env : fetch_env) (package_name package_version : string)
  : M fetch_stage :=
  match glob (fe_wheels env)
             (wheel_pattern (str_replace "-" "_" package_name) package_version) with
  | [] => ret WheelMissing
  | wheel_path :: _ =>
      let wheel_filename := path_name wheel_path in
      let url := provenance_url_of package_name package_version wheel_filename in
      creds <~ lift (match fe_netrc env with
                     | Some content => lines <- content ;; Ok (netrc_credentials lines)
                     | None => Ok (None, None)
                     end) ;;
      match creds with
      | (Some username, Some password) =>
          out <~ exec ["curl"; "-s"; "-u"; (username ++ ":" ++ password)%string; url]
                      None (fe_curl env) ;;
          if negb (returncode out =? 0) || String.eqb (stdout out) "" then ret FetchFailed
          else
            text <~ lift (utf8_decode (stdout out)) ;;
            match json_loads text with
            | Ok data => ret (Fetched wheel_filename url data)
            | Raise e => if is_json_error e then ret InvalidData else lift (Raise e)
            end
      | _ => ret NoCredentials
      end
  end.

(** The error texts of the two handlers. *)
Inductive fetch_error : Type :=
| ErrWheelNotFound (package_name package_version : string)
| ErrNoCredentials
| ErrFetchFailed
| ErrInvalidData
| ErrTimeout
| ErrRaised (e : pyexc).

(** The answer of [get_pep740_attestations_handler]; the status is 200
    throughout. *)
Inductive pep740_reply : Type :=
| NoAttestations (err : fetch_error)
| HasAttestations (is_chainguard : bool) (publisher : pyval)
                  (provenance_url wheel_filename : string) (attestation_count : Z).

Definition is_timeout (e : pyexc) : bool :=
  match e with
  | TimeoutError => true
  | _ => false
  end.

Definition get_pep740_attestations_handler (env : fetch_env)
  (package_name package_version : string) : M pep740_reply :=
  try_except
    (stage <~ fetch_provenance env package_name package_version ;;
     match stage with
     | WheelMissing => ret (NoAttestations (ErrWheelNotFound package_name package_version))
     | NoCredentials => ret (NoAttestations ErrNoCredentials)
     | FetchFailed => ret (NoAttestations ErrFetchFailed)
     | InvalidData => ret (NoAttestations ErrInvalidData)
     | Fetched wheel_filename url attestation_data =>
         verdict <~ lift (classify_publisher attestation_data) ;;
         listed <~ lift (dict_get attestation_data "attestation_bundles" (PList [])) ;;
         count <~ lift (py_len listed) ;;
         ret (HasAttestations (fst verdict) (snd verdict) url wheel_filename count)
     end)
    (fun e => ret (NoAttestations (if is_timeout e then ErrTimeout else ErrRaised e))).

(** The answer of [get_parsed_provenance_handler]. *)
Inductive provenance_body : Type :=
| ProvenanceError (err : fetch_error)
| ProvenanceParsed (parsed : pyval).

Record provenance_response : Type := mk_provenance_response {
  provenance_body_of : provenance_body;
  provenance_status : Z
}.

(** [d[k] = v] on a Python value. *)
Definition py_setitem (d : pyval) (k : string) (v : pyval) : result pyval :=
  match d with
  | PDict items => Ok (PDict (alist_set k v items))
  | _ => Raise TypeError
  end.

Definition get_parsed_provenance_handler (env : fetch_env)
  (package_name package_version : string) : M provenance_response :=
  try_except
    (stage <~ fetch_provenance env package_name package_version ;;
     match stage with
     | WheelMissing =>
         ret (mk_provenance_response
                (ProvenanceError (ErrWheelNotFound package_name package_version)) 404)
     | NoCredentials => ret (mk_provenance_response (ProvenanceError ErrNoCredentials) 401)
     | FetchFailed => ret (mk_provenance_response (ProvenanceError ErrFetchFailed) 500)
     | InvalidData => ret (mk_provenance_response (ProvenanceError ErrInvalidData) 500)
     | Fetched wheel_filename url provenance_data =>
         parsed <~ lift (parse_provenance_data b64decode utf8_decode json_loads
                           provenance_data) ;;
         parsed <~ lift (py_setitem parsed "provenance_url" (PStr url)) ;;
         parsed <~ lift (py_setitem parsed "wheel_filename" (PStr wheel_filename)) ;;
         ret (mk_provenance_response (ProvenanceParsed parsed) 200)
     end)
    (fun e => ret (mk_provenance_response
                     (ProvenanceError (if is_timeout e then ErrTimeout else ErrRaised e))
                     500)).

End Fetching.

(* ================================================================= *)
(** ** Signing in: [check_auth_status] and [auth_worker] *)

(** What the sign-in needs from outside: the outcome of the status command,
    the handle of the login process or what starting it raises, what the
    successive [readline()] calls on its output give (after them the stream
    has ended), the outcomes of [process.kill()] and [process.wait()], the
    latter with the exit code, and what the [print] of the address does. *)
Record login_env : Type := mk_login_env {
  le_status : result proc_output;
  le_login : result Z;
  le_lines : list (result string);
  le_kill : result unit;
  le_wait : result Z;
  le_print : result unit
}.

(** The worker also prints and may kill its child: the world with the lines
    printed and whether the login process was killed. *)
Record login_world : Type := mk_login_world {
  lw_world : world;
  lw_printed : list string;
  lw_killed : bool
}.

Definition LM (A : Type) : Type := login_world -> result A * login_world.

Definition lret {A : Type} (a : A) : LM A := fun lw => (Ok a, lw).

Definition lbind {A B : Type} (m : LM A) (k : A -> LM B) : LM B :=
  fun lw =>
    match m lw with
    | (Ok a, lw') => k a lw'
    | (Raise e, lw') => (Raise e, lw')
    end.

Notation "x <~~ m ;; k" := (lbind m (fun x => k))
  (at level 61, m at next level, right associativity).

(** A coroutine of the module run by the worker. *)
Definition in_world {A : Type} (m : M A) : LM A :=
  fun lw =>
    let (r, w') := m (lw_world lw) in
    (r, mk_login_world w' (lw_printed lw) (lw_killed lw)).

(** [async with auth_lock: auth_state[...] = ...] *)
Definition set_auth (f : auth -> auth) : LM unit :=
  fun lw =>
    let w := lw_world lw in
    (Ok tt, mk_login_world (mk_world (f (auth_state w)) (chainver_logs w) (trace w))
                           (lw_printed lw) (lw_killed lw)).

(** [print(line)] with the given outcome. *)
Definition py_print (outcome : result unit) (line : string) : LM unit :=
  fun lw =>
    match outcome with
    | Ok _ => (Ok tt, mk_login_world (lw_world lw) (lw_printed lw ++ [line])
                                     (lw_killed lw))
    | Raise e => (Raise e, lw)
    end.

Definition kill (outcome : result unit) : LM unit :=
  fun lw =>
    match outcome with
    | Ok _ => (Ok tt, mk_login_world (lw_world lw) (lw_printed lw) true)
    | Raise e => (Raise e, lw)
    end.

(** [try: body / except Exception as e: handler(e)] in the worker. *)
Definition ltry_except {A : Type} (body : LM A) (handler : pyexc -> LM A) : LM A :=
  fun lw =>
    match body lw with
    | (Raise e, lw') => if is_Exception e then handler e lw' else (Raise e, lw')
    | (Ok a, lw') => (Ok a, lw')
    end.

(** [https://[^\s]+] matched at the head of [s]. *)
Definition match_https_url (s : string) : option string :=
  match strip_prefix "https://" s with
  | Some rest =>
      match take_while (fun c => negb (is_space c)) rest with
      | "" => None
      | run => Some ("https://" ++ run)%string
      end
  | None => None
  end.

Section SigningIn.

Variable utf8_decode : string -> result string.
Variable json_loads : string -> result pyval.

(** [str(e)] *)
Variable describe : pyexc -> string.

(** Both [except:] clauses are bare: whatever is raised, a cancellation
    included, becomes [False]. *)
Definition check_auth_status (env : login_env) : M bool :=
  fun w =>
    match exec ["chainctl"; "auth"; "status"; "-o"; "json"] None (le_status env) w with
    | (Ok out, w') =>
        if returncode out =? 0 then
          match (text <- utf8_decode (stdout out) ;; json_loads text) with
          | Ok status_data => (Ok (truthy status_data), w')
          | Raise _ => (Ok false, w')
          end
        else (Ok false, w')
    | (Raise _, w') => (Ok false, w')
    end.

(** The [while True] loop over the output of the login process: the
    address on the first line that has one, if any. *)
Fixpoint read_auth_url (lines : list (result string)) : result (option string) :=
  match lines with
  | [] => Ok None
  | Raise e :: _ => Raise e
  | Ok raw :: rest =>
      if String.eqb raw "" then Ok None
      else
        line <- utf8_decode raw ;;
        if str_contains "Visit this URL" line && str_contains "https://" line then
          match re_search match_https_url line with
          | Some url => Ok (Some url)
          | None => read_auth_url rest
          end
        else read_auth_url rest
  end.

(** The worker up to the point where it waits for the login to complete:
    the handle of the process it waits for, or [None] when it has returned. *)
Definition announce (env : login_env) : LM (option Z) :=
  already <~~ in_world (check_auth_status env) ;;
  if (already : bool) then
    _ <~~ set_auth (fun a => mk_auth true None (auth_process a) (error a)) ;;
    lret None
  else
    process <~~ in_world (fun w => (le_login env,
                                    log_event (EvExec ["chainctl"; "auth"; "login";
                                                       "--headless"] None) w)) ;;
    found <~~ (fun lw => (read_auth_url (le_lines env), lw)) ;;
    match found with
    | Some url =>
        _ <~~ py_print (le_print env) ("Authentication URL generated: " ++ url)%string ;;
        _ <~~ set_auth (fun a => mk_auth (authenticated a) (Some url) (Some process)
                                         (error a)) ;;
        lret (Some process)
    | None =>
        _ <~~ set_auth (fun a => mk_auth (authenticated a) (auth_url a) (auth_process a)
                                         (Some "Failed to get authentication URL")) ;;
        _ <~~ kill (le_kill env) ;;
        lret None
    end.

(** From [await process.wait()] on. *)
Definition complete (env : login_env) : LM unit :=
  code <~~ (fun lw => (le_wait env, lw)) ;;
  set_auth (fun a =>
              if code =? 0 then mk_auth true None None (error a)
              else mk_auth (authenticated a) (auth_url a) None
                           (Some "Authentication failed")).

Definition auth_worker (env : login_env) : LM unit :=
  ltry_except
    (waiting <~~ announce env ;;
     match waiting with
     | Some _ => complete env
     | None => lret tt
     end)
    (fun e => set_auth (fun a => mk_auth (authenticated a) (auth_url a) (auth_process a)
                                         (Some (describe e)))).

End SigningIn.

(* ================================================================= *)
(** ** Provenance from the SBOM: [extract_sbom_provenance] and
       [get_sbom_provenance_api] *)

(** What the reading of an SBOM needs from outside: the matches of a
    pattern under [site-packages], whether a path exists, what opening the
    file and [json.load] give, and what the [print] of an error does. *)
Record sbom_env : Type := mk_sbom_env {
  se_glob : string -> list string;
  se_exists : string -> bool;
  se_load : string -> result pyval;
  se_print : result unit
}.

(** The dict [provenance]; [created] is [None] until it is read. *)
Record sbom_provenance : Type := mk_sbom_provenance {
  has_sbom : bool;
  creator : option string;
  created : pyval;
  patches : list string;
  source_repo : option string;
  commit_id : option string
}.

Fixpoint join_strs (sep : string) (l : list string) : string :=
  match l with
  | [] => ""
  | [s] => s
  | s :: rest => (s ++ sep ++ join_strs sep rest)%string
  end.

(** [sep.join(x)]: every item must be text. *)
Definition py_join (sep : string) (x : pyval) : result string :=
  items <- py_iter x ;;
  texts <- for_each (fun acc item =>
                       match item with
                       | PStr s => Ok (acc ++ [s])
                       | _ => Raise TypeError
                       end) items [] ;;
  Ok (join_strs sep texts).

(** [s.split(sep)[1]]: what stands between the first occurrence of [sep]
    and the next one, or the end. *)
Definition split_second (sep s : string) : result string :=
  match str_partition sep s with
  | Some (_, after) =>
      Ok (match str_partition sep after with
          | Some (middle, _) => middle
          | None => after
          end)
  | None => Raise IndexError
  end.

Definition py_split_second (sep : string) (x : pyval) : result string :=
  match x with
  | PStr s => split_second sep s
  | _ => Raise AttributeError
  end.

(** [[p.strip() for p in patches_text.split(',') if p.strip()]] *)
Definition patch_list (patches_text : string) : list string :=
  flat_map (fun p => if String.eqb (str_strip p) "" then [] else [str_strip p])
           (str_split "," patches_text).

(** The class [[a-f0-9]]. *)
Definition is_hex (c : ascii) : bool :=
  let n := nat_of_ascii c in
  is_digit c || ((97 <=? n)%nat && (n <=? 102)%nat).

Definition not_at (c : ascii) : bool := negb (Ascii.eqb c "@").

(** [(https?://[^@]+)@([a-f0-9]{40})] after [git\+] and one of the two
    schemes: the greedy run stops at the first [@], which no shorter run
    can reach. *)
Definition match_repo_commit (scheme rest : string) : option (string * string) :=
  match take_while not_at rest with
  | "" => None
  | host =>
      match strip_prefix "@" (drop_while not_at rest) with
      | Some after =>
          let commit := str_take 40 after in
          if (String.length commit =? 40)%nat && str_forallb is_hex commit
          then Some ((scheme ++ host)%string, commit)
          else None
      | None => None
      end
  end.

(** [git\+(https?://[^@]+)@([a-f0-9]{40})] matched at the head of [s]; the
    result is groups 1 and 2. *)
Definition match_git_location (s : string) : option (string * string) :=
  match strip_prefix "git+" s with
  | Some r =>
      match strip_prefix "https://" r with
      | Some rest => match_repo_commit "https://" rest
      | None =>
          match strip_prefix "http://" r with
          | Some rest => match_repo_commit "http://" rest
          | None => None
          end
      end
  | None => None
  end.

(** The body of [if package.get('name') == package_name:], up to [break]. *)
Definition read_package (package : pyval) (prov : sbom_provenance)
  : result sbom_provenance :=
  source_info <- dict_get package "sourceInfo" (PStr "") ;;
  has_patches <- py_in "patches:" source_info ;;
  prov <- (if (has_patches : bool) then
             patches_text <- py_split_second "patches:" source_info ;;
             Ok (mk_sbom_provenance (has_sbom prov) (creator prov) (created prov)
                                    (patch_list patches_text)
                                    (source_repo prov) (commit_id prov))
           else Ok prov) ;;
  has_location <- py_in "downloadLocation" package ;;
  if (has_location : bool) then
    download_loc <- py_getitem package "downloadLocation" ;;
    has_git <- py_in "git+" download_loc ;;
    if (has_git : bool) then
      match download_loc with
      | PStr text =>
          match re_search match_git_location text with
          | Some (repo, commit) =>
              Ok (mk_sbom_provenance (has_sbom prov) (creator prov) (created prov)
                                     (patches prov) (Some repo) (Some commit))
          | None => Ok prov
          end
      | _ => Raise TypeError
      end
    else Ok prov
  else Ok prov.

(** The loop over [sbom_data['packages']], left at the first package of
    the name. *)
Fixpoint scan_packages (package_name : string) (packages : list pyval)
  (prov : sbom_provenance) : result sbom_provenance :=
  match packages with
  | [] => Ok prov
  | package :: rest =>
      name <- dict_get package "name" PNone ;;
      if py_eq_str name package_name then read_package package prov
      else scan_packages package_name rest prov
  end.

(** The block "Get creator information". *)
Definition read_creators (sbom_data : pyval) (prov : sbom_provenance)
  : result sbom_provenance :=
  has_info <- py_in "creationInfo" sbom_data ;;
  has_creators <- (if (has_info : bool) then
                     info <- py_getitem sbom_data "creationInfo" ;;
                     py_in "creators" info
                   else Ok false) ;;
  if (has_creators : bool) then
    info <- py_getitem sbom_data "creationInfo" ;;
    creators <- py_getitem info "creators" ;;
    joined <- py_join ", " creators ;;
    info' <- py_getitem sbom_data "creationInfo" ;;
    made <- dict_get info' "created" (PStr "") ;;
    Ok (mk_sbom_provenance (has_sbom prov) (Some joined) made (patches prov)
                           (source_repo prov) (commit_id prov))
  else Ok prov.

(** What the function did: it returned [r], or it printed the error [e]
    and returned [None].  The [print] stands in the [except] clause: what
    it raises leaves the function. *)
Inductive extraction : Type :=
| Extracted (r : option sbom_provenance)
| Reported (e : pyexc).

Definition returned (x : extraction) : option sbom_provenance :=
  match x with
  | Extracted r => r
  | Reported _ => None
  end.

Definition sbom_path_of (dist_info : string) : string :=
  (dist_info ++ "/sboms/sbom.spdx.json")%string.

(** [version] is a parameter that the function does not read. *)
Definition extract_sbom_provenance (env : sbom_env) (package_name version : string)
  : result extraction :=
  let outcome :=
    match se_glob env (package_name ++ "-*.dist-info")%string with
    | [] => Ok None
    | dist_info :: _ =>
        let sbom_path := sbom_path_of dist_info in
        if negb (se_exists env sbom_path) then Ok None
        else
          sbom_data <- se_load env sbom_path ;;
          prov <- read_creators sbom_data
                    (mk_sbom_provenance true None PNone [] None None) ;;
          has_packages <- py_in "packages" sbom_data ;;
          prov <- (if (has_packages : bool) then
                     listed <- py_getitem sbom_data "packages" ;;
                     packages <- py_iter listed ;;
                     scan_packages package_name packages prov
                   else Ok prov) ;;
          Ok (Some prov)
    end in
  match outcome with
  | Ok r => Ok (Extracted r)
  | Raise e =>
      if is_Exception e then
        match se_print env with
        | Ok _ => Ok (Reported e)
        | Raise e' => Raise e'
        end
      else Raise e
  end.

(** An entry of the list [packages] of the answer. *)
Record package_record : Type := mk_package_record {
  pr_name : string;
  pr_version : string;
  pr_provenance : option sbom_provenance
}.

(** The body of [for dist in pkg_resources.working_set]. *)
Definition list_distribution (env : sbom_env) (packages : list package_record)
  (dist : string * string) : result (list package_record) :=
  let package_name := fst dist in
  let version := snd dist in
  if String.eqb package_name "pip" || String.eqb package_name "setuptools"
  then Ok packages
  else
    x <- extract_sbom_provenance env package_name version ;;
    Ok (packages ++ [mk_package_record package_name version (returned x)]).

Inductive sbom_api_body : Type :=
| SbomPackages (packages : list package_record)
| SbomError (e : pyexc).

(** [working_set] is the list of the installed distributions, name and
    version, or what importing [pkg_resources] raises. *)
Definition get_sbom_provenance_api (env : sbom_env)
  (working_set : result (list (string * string))) : result (sbom_api_body * Z) :=
  match (dists <- working_set ;; for_each (list_distribution env) dists []) with
  | Ok packages => Ok (SbomPackages packages, 200)
  | Raise e => if is_Exception e then Ok (SbomError e, 500) else Raise e
  end.

(* ================================================================= *)
(** ** Serving an SBOM: [get_sbom_handler] *)

(** *** The pattern read on [sourceInfo]

    The pattern has a lazy [.*?] twice, so which match [re.search] returns
    depends on the order in which the matcher tries: a greedy repetition
    tries the longest run first and gives back one character at a time, a
    lazy one tries the shortest first.  Every repetition of this pattern
    is over a class of single characters. *)
Inductive item : Type :=
| One (p : ascii -> bool)
| Maybe (p : ascii -> bool)
| Greedy (least : nat) (p : ascii -> bool)
| Lazy (p : ascii -> bool)
| Exactly (n : nat) (p : ascii -> bool)
| Open
| Close.

(** The groups closed so far, and the text of the one that is open. *)
Record captures : Type := mk_captures {
  closed : list string;
  current : option string
}.

Definition push (c : ascii) (st : captures) : captures :=
  match current st with
  | Some t => mk_captures (closed st) (Some (t ++ String c "")%string)
  | None => st
  end.

Definition open_group (st : captures) : captures := mk_captures (closed st) (Some "").

Definition close_group (st : captures) : captures :=
  match current st with
  | Some t => mk_captures (closed st ++ [t]) None
  | None => st
  end.

Section Matcher.

(** What matches the rest of the pattern. *)
Variable k : string -> captures -> option (list string).

Fixpoint match_greedy (least : nat) (p : ascii -> bool) (n : nat) (s : string)
  (st : captures) : option (list string) :=
  let stop := if (least <=? n)%nat then k s st else None in
  match s with
  | String c r =>
      if p c then
        match match_greedy least p (S n) r (push c st) with
        | Some m => Some m
        | None => stop
        end
      else stop
  | "" => stop
  end.

Fixpoint match_lazy (p : ascii -> bool) (s : string) (st : captures) : option (list string) :=
  match k s st with
  | Some m => Some m
  | None =>
      match s with
      | String c r => if p c then match_lazy p r (push c st) else None
      | "" => None
      end
  end.

Fixpoint match_exactly (n : nat) (p : ascii -> bool) (s : string) (st : captures)
  : option (list string) :=
  match n with
  | O => k s st
  | S n' =>
      match s with
      | String c r => if p c then match_exactly n' p r (push c st) else None
      | "" => None
      end
  end.

End Matcher.

(** The pattern matched at the head of a text: the groups, in order. *)
Fixpoint run (pat : list item) : string -> captures -> option (list string) :=
  match pat with
  | [] => fun _ st => Some (closed st)
  | One p :: rest =>
      fun s st =>
        match s with
        | String c r => if p c then run rest r (push c st) else None
        | "" => None
        end
  | Maybe p :: rest =>
      fun s st =>
        match s with
        | String c r =>
            if p c then
              match run rest r (push c st) with
              | Some m => Some m
              | None => run rest s st
              end
            else run rest s st
        | "" => run rest s st
        end
  | Greedy least p :: rest => match_greedy (run rest) least p 0
  | Lazy p :: rest => match_lazy (run rest) p
  | Exactly n p :: rest => match_exactly (run rest) n p
  | Open :: rest => fun s st => run rest s (open_group st)
  | Close :: rest => fun s st => run rest s (close_group st)
  end.

(** A letter of the pattern under [re.IGNORECASE]. *)
Definition letter (c : ascii) : item := One (fun x => Ascii.eqb (lower_char x) c).

Definition sign (c : ascii) : item := One (Ascii.eqb c).

(** [.] without [re.DOTALL]. *)
Definition any_but_newline (c : ascii) : bool := negb (Ascii.eqb c "010").

Definition not_space_or_comma (c : ascii) : bool :=
  negb (is_space c) && negb (Ascii.eqb c ",").

(** [[a-f0-9]] under [re.IGNORECASE]. *)
Definition is_hex_any_case (c : ascii) : bool := is_hex (lower_char c).

(** [git\+(https?://[^\s,]+).*?tag:\s*([^,\s]+).*?commit\s+id:\s*([a-f0-9]{40})] *)
Definition source_info_pattern : list item :=
  [letter "g"; letter "i"; letter "t"; sign "+";
   Open; letter "h"; letter "t"; letter "t"; letter "p"; Maybe (fun x => Ascii.eqb (lower_char x) "s");
   sign ":"; sign "/"; sign "/"; Greedy 1 not_space_or_comma; Close;
   Lazy any_but_newline;
   letter "t"; letter "a"; letter "g"; sign ":"; Greedy 0 is_space;
   Open; Greedy 1 not_space_or_comma; Close;
   Lazy any_but_newline;
   letter "c"; letter "o"; letter "m"; letter "m"; letter "i"; letter "t";
   Greedy 1 is_space; letter "i"; letter "d"; sign ":"; Greedy 0 is_space;
   Open; Exactly 40 is_hex_any_case; Close].

(** Groups 1, 2 and 3 of the pattern matched at the head of [s]. *)
Definition match_source_info (s : string) : option (string * string * string) :=
  match run source_info_pattern s (mk_captures [] None) with
  | Some [repo_url; tag_name; object_id] => Some (repo_url, tag_name, object_id)
  | _ => None
  end.

(** *** The handler *)

(** [for x in l: st = body(st, x)] in a coroutine. *)
Fixpoint mfor_each {A S : Type} (body : S -> A -> M S) (l : list A) (st : S) : M S :=
  match l with
  | [] => ret st
  | x :: rest => st' <~ body st x ;; mfor_each body rest st'
  end.

Inductive sbom_answer : Type :=
| PackageNotFound (package_name : string)
| SbomNotFound (package_name : string)
| SbomFailure (e : pyexc)
| SbomServed (sbom_data : pyval).

Record sbom_response : Type := mk_sbom_response {
  sbom_answer_of : sbom_answer;
  sbom_status : Z
}.

Section ServingSbom.

Variable utf8_decode : string -> result string.

(** The outcomes of the git steps of the successive tag resolutions. *)
Variable git : nat -> git_env.

(** The body of [for package in sbom_data['packages']]; the state is the
    number of resolutions made and the packages as they now are. *)
Definition resolve_package (st : nat * list pyval) (package : pyval)
  : M (nat * list pyval) :=
  has_info <~ lift (py_in "sourceInfo" package) ;;
  if (has_info : bool) then
    source_info <~ lift (py_getitem package "sourceInfo") ;;
    found <~ lift (match source_info with
                   | PStr text => Ok (re_search match_source_info text)
                   | _ => Raise TypeError
                   end) ;;
    match found with
    | Some (repo_url, tag_name, object_id) =>
        resolved_commit <~ resolve_tag_to_commit utf8_decode (git (fst st))
                             repo_url tag_name object_id ;;
        package' <~ lift (py_setitem package "_resolved_commit_sha"
                            (PStr resolved_commit)) ;;
        ret (S (fst st), snd st ++ [package'])
    | None => ret (fst st, snd st ++ [package])
    end
  else ret (fst st, snd st ++ [package]).

(** The packages are changed in place: the document that is served is the
    one that was read, with its packages as the loop leaves them.  Only the
    entries of a list can have been changed. *)
Definition with_packages (sbom_data listed : pyval) (packages : list pyval) : pyval :=
  match sbom_data, listed with
  | PDict top, PList _ => PDict (alist_set "packages" (PList packages) top)
  | _, _ => sbom_data
  end.

Definition get_sbom_handler (env : sbom_env) (package_name : string) : M sbom_response :=
  try_except
    (match se_glob env (package_name ++ "-*.dist-info")%string with
     | [] => ret (mk_sbom_response (PackageNotFound package_name) 404)
     | dist_info :: _ =>
         let sbom_path := sbom_path_of dist_info in
         if negb (se_exists env sbom_path)
         then ret (mk_sbom_response (SbomNotFound package_name) 404)
         else
           sbom_data <~ lift (se_load env sbom_path) ;;
           has_packages <~ lift (py_in "packages" sbom_data) ;;
           if (has_packages : bool) then
             listed <~ lift (py_getitem sbom_data "packages") ;;
             packages <~ lift (py_iter listed) ;;
             st <~ mfor_each resolve_package packages (O, []) ;;
             ret (mk_sbom_response
                    (SbomServed (with_packages sbom_data listed (snd st))) 200)
           else ret (mk_sbom_response (SbomServed sbom_data) 200)
     end)
    (fun e => ret (mk_sbom_response (SbomFailure e) 500)).

End ServingSbom.

(** The number 100, as an [int] or as a [float]. *)
Definition is_100 (x : pyval) : Prop :=
  x = PInt 100 \/ exists f, x = PFloat f /\ float_eq_Z f 100 = true.

(* ================================================================= *)
(** ** Sample inputs *)

Definition rekor_details : string :=
  "signed, see https://rekor.sigstore.dev/api/v1/log/entries/?logIndex=12345 (cosign)".

Definition sample_artifact (file : string) (coverage : Z) (text : string) : pyval :=
  PDict [("artifact", PStr file);
         ("artifactVerificationCoverage", PInt coverage);
         ("details", PStr text)].

(** Output of a run on three wheels, with coverage 100, 99 and 101. *)
Definition sample_wheels : pyval :=
  PDict [("overallVerificationCoverage", PInt 33);
         ("results",
          PList [sample_artifact "/app/wheels/flask-3.1.2-py3-none-any.whl" 100 rekor_details;
                 sample_artifact "/app/wheels/click-8.3.0-py3-none-any.whl" 99 rekor_details;
                 sample_artifact "/app/wheels/aiohttp-3.13.0-cp312-cp312-linux_x86_64.whl" 101
                                 "rekor.sigstore.dev logIndex=7"])].

Definition sample_legacy_items : list (string * pyval) :=
  [("verificationCoverage", PInt 60);
   ("nestedResults",
    PList [PDict [("coordinates", PStr "flask==3.1.2");
                  ("path", PStr "site-packages/flask");
                  ("verificationCoverage", PInt 100);
                  ("verificationMethod", PStr "sigstore");
                  ("details", PStr "rekor.sigstore.dev logIndex: 42")];
           PDict [("coordinates", PStr "werkzeug");
                  ("path", PStr "site-packages/werkzeug");
                  ("verificationCoverage", PInt 0)]])].

(** Output of a run on site-packages, in the legacy shape. *)
Definition sample_legacy : pyval := PDict sample_legacy_items.

(** A legacy entry that is fully covered and whose method is reported as
    ["none"]. *)
Definition covered_without_method : pyval :=
  PDict [("nestedResults",
          PList [PDict [("coordinates", PStr "click==8.3.0");
                        ("verificationCoverage", PInt 100);
                        ("verificationMethod", PStr "none")]])].

Definition flask_entry : list (string * pyval) :=
  [("coordinates", PStr "flask==3.1.2"); ("path", PStr "site-packages/flask")].

(** An entry that is not verified and whose details hold a full log URL. *)
Definition unverified_with_url : pyval :=
  PDict [("results",
          PList [sample_artifact "/app/wheels/click-8.3.0-py3-none-any.whl" 0 rekor_details])].

(** A verified entry whose details hold a log index and no host name. *)
Definition verified_with_bare_index : pyval :=
  PDict [("results",
          PList [sample_artifact "/app/wheels/click-8.3.0-py3-none-any.whl" 100
                                 "transparency log entry logIndex=98765"])].

(** A store with one wheel whose archive has the members [members]. *)
Definition one_wheel_store (members : list zip_info) : wheel_store :=
  mk_wheel_store (fun _ => ["/app/wheels/demo-1.0-py3-none-any.whl"])
                 (fun _ => Ok members).

Definition three_members : list zip_info :=
  [mk_zip_info "a/b.txt" 120 80; mk_zip_info "a/c/" 0 0; mk_zip_info "d.txt" 30 30].

(** The same three members, the directory member recorded with a size. *)
Definition three_members_sized : list zip_info :=
  [mk_zip_info "a/b.txt" 100 60; mk_zip_info "a/c/" 5 5; mk_zip_info "d.txt" 50 50].

Definition empty_logs : list (string * pyval) :=
  [("verbose_output", PStr ""); ("last_run", PNone)].

(** The module just loaded: nobody is authenticated, nothing was run. *)
Definition fresh_world : world :=
  mk_world (mk_auth false None None None) empty_logs [].

Definition signed_in_world : world :=
  mk_world (mk_auth true None None None) empty_logs [].

Definition quiet (text : string) : result proc_output := Ok (mk_proc_output 0 text "").

(** A run of the verifier on two wheels that prints an empty report. *)
Definition sample_run : verifier_env :=
  mk_verifier_env "" ["/app/wheels/flask-3.1.2-py3-none-any.whl";
                      "/app/wheels/click-8.3.0-py3-none-any.whl"]
                  (quiet "{}") (quiet ("Tue Nov  3 10:00:00 UTC 2026" ++ newline)).

Definition click_repo : string := "https://github.com/pallets/click".
Definition click_tag_object : string := "3d1d3c0c3b6a5d5a7c0f8f0f5f2b9e1a4c6d8e0f".
Definition click_commit : string := "b1f3c7a2d4e6f8091a2b3c4d5e6f708192a3b4c5".

(** A resolution where every step succeeds. *)
Definition git_success : git_env :=
  mk_git_env (Ok "/tmp/git_resolve_k3") (quiet "") (quiet "")
             (quiet (click_commit ++ newline)) true (Ok tt).

(** A resolution where the clone runs into its timeout. *)
Definition git_timeout : git_env :=
  mk_git_env (Ok "/tmp/git_resolve_k3") (Raise TimeoutError) (quiet "") (quiet "") true
             (Ok tt).

(** The same, on a standard output that cannot take the warning. *)
Definition git_mute : git_env :=
  mk_git_env (Ok "/tmp/git_resolve_k3") (Raise TimeoutError) (quiet "") (quiet "") true
             (Raise UnicodeEncodeError).


(** [{"subject": []}] in base64, and a payload that is not base64. *)
Definition good_statement : string := "eyJzdWJqZWN0IjogW119".
Definition bad_statement : string := "%%%not-base64%%%".

Definition attestation_with (payload : string) : pyval :=
  PDict [("version", PInt 1);
         ("envelope", PDict [("statement", PStr payload); ("signature", PStr "MEUC")])].

Definition bundle_of (attestations : list pyval) : pyval :=
  PDict [("version", PInt 1);
         ("attestation_bundles",
          PList [PDict [("publisher", PDict [("kind", PStr "GitHub")]);
                        ("attestations", PList attestations)]])].

(* ================================================================= *)
(** ** Vocabulary for the further properties *)

(** Walk a tree along the segments of a path: through ["children"] for
    every segment but the last, which is looked up. *)
Fixpoint tree_lookup (path_parts : list string) (t : file_tree) : option tree_node :=
  match path_parts with
  | [] => None
  | [part] => alist_get part t
  | part :: rest =>
      match alist_get part t with
      | Some (mk_node _ _ _ (Some below)) => tree_lookup rest below
      | _ => None
      end
  end.

(** The segments [p] begin the segments [q]. *)
Fixpoint is_prefix (p q : list string) : bool :=
  match p, q with
  | [], _ => true
  | x :: p', y :: q' => String.eqb x y && is_prefix p' q'
  | _ :: _, [] => false
  end.

(** Neither path leads through the other. *)
Definition apart (p q : list string) : bool :=
  negb (is_prefix p q) && negb (is_prefix q p).

Definition parts_of (item : file_entry) : list string := str_split "/" (path item).

Definition sum_sizes (l : list file_entry) : Z :=
  fold_right (fun item acc => size item + acc) 0 l.

(** Two nodes with the same ["type"], ["size"] and ["path"]. *)
Definition same_label (n n' : tree_node) : Prop :=
  match n, n' with
  | mk_node ty s p _, mk_node ty' s' p' _ => ty = ty' /\ s = s' /\ p = p'
  end.

Definition is_directory (n : tree_node) : Prop :=
  match n with
  | mk_node _ _ _ (Some _) => True
  | mk_node _ _ _ None => False
  end.

Definition entry (p : string) (n : Z) : file_entry :=
  mk_file_entry p n n (endswith "/" p).

(** Members of a small archive, a directory listed after its files. *)
Definition pkg_members : list zip_info :=
  [mk_zip_info "pkg/__init__.py" 10 8;
   mk_zip_info "pkg/core/util.py" 200 90;
   mk_zip_info "pkg/core/" 0 0;
   mk_zip_info "pkg-1.0.dist-info/METADATA" 50 40].

Definition broken_store : wheel_store :=
  mk_wheel_store (fun _ => ["/app/wheels/demo-1.0-py3-none-any.whl"])
                 (fun _ => Raise BadZipFile).

Definition empty_store : wheel_store :=
  mk_wheel_store (fun _ => []) (fun _ => Raise FileNotFoundError).

(** The text has no hyphen. *)
Definition no_dash (s : string) : bool :=
  str_forallb (fun c => negb (Ascii.eqb c "-")) s.

(** A run in the per-artifact shape with one entry that is not an object. *)
Definition run_with_stray_entry : list (string * pyval) :=
  [("results",
    PList [sample_artifact "/app/wheels/flask-3.1.2-py3-none-any.whl" 100 rekor_details;
           PStr "click-8.3.0-py3-none-any.whl"])].

(** The three commands of a tag resolution, in their order. *)
Definition git_commands (repo_url tag_name temp_dir : string) : list event :=
  [EvExec ["git"; "clone"; "--filter=blob:none"; "--no-checkout"; repo_url; temp_dir] None;
   EvExec ["git"; "fetch"; "origin";
           (tag_ref tag_name ++ ":" ++ tag_ref tag_name)%string] (Some temp_dir);
   EvExec ["git"; "rev-list"; "-n"; "1"; tag_ref tag_name] (Some temp_dir)].

(** A resolution that is cancelled while the tag is fetched. *)
Definition git_cancelled : git_env :=
  mk_git_env (Ok "/tmp/git_resolve_k3") (quiet "") (Raise CancelledError) (quiet "") true
             (Ok tt).

(** A run of the verifier that ends with exit code 1 and a message. *)
Definition failing_run : verifier_env :=
  mk_verifier_env "chainguard.dev" ["/app/wheels/flask-3.1.2-py3-none-any.whl"]
                  (Ok (mk_proc_output 1 "" "chainver: not signed in"))
                  (quiet ("Tue Nov  3 10:00:00 UTC 2026" ++ newline)).

Definition no_wheels_run : verifier_env :=
  mk_verifier_env "" [] (quiet "{}") (quiet "").

(** A coroutine that leaves the authentication state alone and writes the
    log under the keys [keys] at most. *)
Definition writes_only {A : Type} (keys : list string) (m : M A) : Prop :=
  forall w,
    auth_state (snd (m w)) = auth_state w
    /\ forall k, ~ In k keys ->
         alist_get k (chainver_logs (snd (m w))) = alist_get k (chainver_logs w).

(** A world in which a normal run has been logged. *)
Definition world_after_run : world :=
  mk_world (mk_auth true None None None)
           [("verbose_output", PStr ""); ("last_run", PStr "Mon Nov  2 09:00:00 UTC 2026");
            ("normal_output", PStr "{}")] [].

(** A document with two bundles, of two attestations and of none. *)
Definition two_bundles : list (string * pyval) :=
  [("version", PInt 1);
   ("attestation_bundles",
    PList [PDict [("publisher", PDict [("kind", PStr "GitHub");
                                       ("repository", PStr "pallets/flask")]);
                  ("attestations",
                   PList [attestation_with good_statement;
                          PDict [("version", PInt 2)]])];
           PDict [("attestations", PList [])]])].

(** A file store for the digest: the bytes of the one wheel. *)
Definition read_abc (p : string) : result string :=
  if String.eqb p "/app/wheels/demo-1.0-py3-none-any.whl" then Ok "abc"
  else Raise FileNotFoundError.

Definition usual_netrc : list string :=
  [("# credentials" ++ newline)%string;
   ("machine libraries.cgr.dev" ++ newline)%string;
   ("  login  robot@example.org" ++ newline)%string;
   ("  password s3cret" ++ newline)%string].

(** The value [value] stands under [key] on one of the four lines that
    follow a line with the machine marker. *)
Definition stands_after_marker (lines : list string) (key value : string) : Prop :=
  exists i j marker_line line,
    nth_error lines i = Some marker_line
    /\ str_contains machine_marker marker_line = true
    /\ (i < j <= i + 4)%nat
    /\ nth_error lines j = Some line
    /\ split_once (str_strip line) = [key; value]
    /\ value <> "".

Definition sound_credentials (lines : list string)
  (creds : option string * option string) : Prop :=
  (forall u, fst creds = Some u -> stands_after_marker lines "login" u)
  /\ (forall p, snd creds = Some p -> stands_after_marker lines "password" p).

(** A bundle as the service writes it: an object whose publisher, when
    present, is an object whose issuer, when present, is text. *)
Definition wf_bundle (bundle : pyval) : bool :=
  match bundle with
  | PDict b =>
      match alist_get "publisher" b with
      | None => true
      | Some (PDict p) => text_or_absent "issuer" p
      | Some _ => false
      end
  | _ => false
  end.

(** The issuer, in lower case, contains one of the two trusted fragments. *)
Definition trusted_issuer (issuer : string) : bool :=
  str_contains "chainguard" (str_lower issuer)
  || str_contains "enforce.dev" (str_lower issuer).

Definition bundle_trusted (bundle : pyval) : bool :=
  match bundle with
  | PDict b =>
      match alist_get "publisher" b with
      | Some (PDict p) =>
          match alist_get "issuer" p with
          | Some (PStr issuer) => trusted_issuer issuer
          | _ => false
          end
      | _ => false
      end
  | _ => false
  end.

(** The publisher of the last bundle that has one. *)
Definition last_publisher (bundles : list pyval) (before : pyval) : pyval :=
  fold_left (fun found bundle =>
               match bundle with
               | PDict b =>
                   match alist_get "publisher" b with
                   | Some p => p
                   | None => found
                   end
               | _ => found
               end) bundles before.

Definition issued_by (issuer : string) : pyval :=
  PDict [("publisher", PDict [("kind", PStr "GitHub"); ("issuer", PStr issuer)]);
         ("attestations", PList [])].

Definition three_issuers : list pyval :=
  [issued_by "https://issuer.ENFORCE.dev";
   PDict [("attestations", PList [])];
   issued_by "https://token.actions.githubusercontent.com"].

(** The command line of the fetch. *)
Definition curl_command (username password url : string) : event :=
  EvExec ["curl"; "-s"; "-u"; (username ++ ":" ++ password)%string; url] None.

(** The wheels and credentials of a fetch, with curl answering [answer]. *)
Definition fetch_with (answer : result proc_output) : fetch_env :=
  mk_fetch_env (mk_wheel_store (fun _ => ["/app/wheels/typing_extensions-4.15.0-py3-none-any.whl"])
                               (fun _ => Raise BadZipFile))
               (Some (Ok usual_netrc)) answer.

(** A provenance document as curl prints it: one bundle, one attestation
    whose statement is [payload]. *)
Definition document_text (payload : string) : string :=
  let q := String dquote "" in
  ("{" ++ q ++ "version" ++ q ++ ": 1, " ++ q ++ "attestation_bundles" ++ q
   ++ ": [{" ++ q ++ "publisher" ++ q ++ ": {" ++ q ++ "issuer" ++ q ++ ": "
   ++ q ++ "https://issuer.enforce.dev" ++ q ++ "}, " ++ q ++ "attestations" ++ q
   ++ ": [{" ++ q ++ "envelope" ++ q ++ ": {" ++ q ++ "statement" ++ q ++ ": "
   ++ q ++ payload ++ q ++ "}}]}]}")%string.

(** Everything that stands behind a fetched document: the wheel, the
    address made of its name, the credentials of [.netrc], and a curl that
    ended well with output that decodes and parses. *)
Definition fetched_from (utf8_decode : string -> result string)
  (json_loads : string -> result pyval) (env : fetch_env)
  (package_name package_version : string) (w w' : world)
  (wheel_filename url : string) (data : pyval) : Prop :=
  exists wheel_path others lines username password out text,
    glob (fe_wheels env) (wheel_pattern (str_replace "-" "_" package_name) package_version)
    = wheel_path :: others
    /\ wheel_filename = path_name wheel_path
    /\ url = provenance_url_of package_name package_version wheel_filename
    /\ fe_netrc env = Some (Ok lines)
    /\ netrc_credentials lines = (Some username, Some password)
    /\ fe_curl env = Ok out
    /\ returncode out = 0 /\ stdout out <> ""
    /\ utf8_decode (stdout out) = Ok text
    /\ json_loads text = Ok data
    /\ w' = log_event (curl_command username password url) w.

(** The status command ended well and printed a JSON value that counts as
    true. *)
Definition status_says_yes (utf8_decode : string -> result string)
  (json_loads : string -> result pyval) (env : login_env) : Prop :=
  exists out text status_data,
    le_status env = Ok out /\ returncode out = 0
    /\ utf8_decode (stdout out) = Ok text /\ json_loads text = Ok status_data
    /\ truthy status_data = true.

(** The login process started and printed an address, the address was
    announced, and the process ended with exit code 0. *)
Definition login_succeeded (utf8_decode : string -> result string) (env : login_env)
  : Prop :=
  exists process url,
    le_login env = Ok process
    /\ read_auth_url utf8_decode (le_lines env) = Ok (Some url)
    /\ le_print env = Ok tt
    /\ le_wait env = Ok 0.

Definition status_command : event :=
  EvExec ["chainctl"; "auth"; "status"; "-o"; "json"] None.

Definition login_lines : list (result string) :=
  [Ok ("Opening a browser is not possible here." ++ newline)%string;
   Ok ("Visit this URL to sign in: https://auth.chainguard.dev/activate?code=QWER-1234 now"
       ++ newline)%string;
   Ok ("Waiting..." ++ newline)%string].

(** A first start: not signed in, and a login that ends with [code]. *)
Definition login_ending_with (code : Z) : login_env :=
  mk_login_env (Ok (mk_proc_output 1 "" "not logged in")) (Ok 4242) login_lines
               (Ok tt) (Ok code) (Ok tt).

Definition at_startup : login_world := mk_login_world fresh_world [] false.

Definition no_message (e : pyexc) : string := "".

(** [package] is an object whose [name] is [package_name]. *)
Definition is_named (package_name : string) (package : pyval) : bool :=
  match package with
  | PDict d =>
      py_eq_str (match alist_get "name" d with Some v => v | None => PNone end)
                package_name
  | _ => false
  end.

(** The first package of the document that bears the name. *)
Definition named_package (package_name : string) (sbom_data : pyval) : option pyval :=
  match sbom_data with
  | PDict top =>
      match alist_get "packages" top with
      | Some (PList packages) => find (is_named package_name) packages
      | _ => None
      end
  | _ => None
  end.

Definition not_comma (c : ascii) : bool := negb (Ascii.eqb c ",").

(** A text with no white space at either end. *)
Definition trimmed (s : string) : Prop :=
  (forall c r, s = String c r -> is_space c = false)
  /\ (forall r c, s = (r ++ String c "")%string -> is_space c = false).

Definition is_listed (dist : string * string) : bool :=
  negb (String.eqb (fst dist) "pip" || String.eqb (fst dist) "setuptools").

(** An SBOM of the distribution [click] with two packages of that name. *)
Definition click_sbom : pyval :=
  PDict [("spdxVersion", PStr "SPDX-2.3");
         ("creationInfo",
          PDict [("created", PStr "2026-10-30T08:00:00Z");
                 ("creators", PList [PStr "Organization: Chainguard, Inc";
                                     PStr "Tool: melange"])]);
         ("packages",
          PList [PDict [("name", PStr "wheel")];
                 PDict [("name", PStr "click");
                        ("sourceInfo",
                         PStr "built from source; patches: fix-a.patch , ,fix-b.patch ");
                        ("downloadLocation",
                         PStr ("git+https://github.com/pallets/click@"
                               ++ "0123456789abcdef0123456789abcdef01234567"))];
                 PDict [("name", PStr "click");
                        ("downloadLocation", PStr "NOASSERTION")]])].

Definition site_packages : sbom_env :=
  mk_sbom_env
    (fun pattern => if String.eqb pattern "click-*.dist-info"
                    then ["/usr/lib/python3.11/site-packages/click-8.3.0.dist-info"]
                    else if String.eqb pattern "broken-*.dist-info"
                    then ["/usr/lib/python3.11/site-packages/broken-1.0.dist-info"]
                    else [])
    (fun _ => true)
    (fun path => if String.eqb path
                      "/usr/lib/python3.11/site-packages/click-8.3.0.dist-info/sboms/sbom.spdx.json"
                 then Ok click_sbom else Raise JSONDecodeError)
    (Ok tt).

(** The same directory, on a standard output that is closed. *)
Definition site_packages_mute : sbom_env :=
  mk_sbom_env (se_glob site_packages) (se_exists site_packages) (se_load site_packages)
              (Raise OSError).

(** What the pattern finds in the [sourceInfo] of a package, if anything. *)
Definition source_info_match (package : pyval) : option (string * string * string) :=
  match package with
  | PDict d =>
      match alist_get "sourceInfo" d with
      | Some (PStr info) => re_search match_source_info info
      | _ => None
      end
  | _ => None
  end.

(** A package as it is served: as it was read when the pattern finds
    nothing in it, else with one more key, holding what a tag resolution
    returned for the three groups of the match. *)
Definition resolved_from (utf8_decode : string -> result string) (git : nat -> git_env)
  (old new : pyval) : Prop :=
  (source_info_match old = None /\ new = old)
  \/ exists d repo_url tag_name object_id n w sha,
       old = PDict d
       /\ source_info_match old = Some (repo_url, tag_name, object_id)
       /\ String.length object_id = 40%nat
       /\ str_forallb is_hex_any_case object_id = true
       /\ fst (resolve_tag_to_commit utf8_decode (git n) repo_url tag_name object_id w)
          = Ok sha
       /\ new = PDict (alist_set "_resolved_commit_sha" (PStr sha) d).

(** The last group of a match is forty characters of [0-9a-fA-F]. *)
Definition ends_with_object_id (groups : list string) : Prop :=
  exists front g,
    groups = front ++ [g]
    /\ String.length g = 40%nat /\ str_forallb is_hex_any_case g = true.

Definition flask_tag_object : string := "89abcdef0123456789abcdef0123456789ABCDEF".

(** An SBOM with a package that names its source and one that does not. *)
Definition flask_sbom : pyval :=
  PDict [("spdxVersion", PStr "SPDX-2.3");
         ("packages",
          PList [PDict [("name", PStr "flask");
                        ("sourceInfo",
                         PStr ("built from git+https://github.com/pallets/flask, tag: 3.1.2,"
                               ++ " commit id: " ++ flask_tag_object ++ "; patches: none"))];
                 PDict [("name", PStr "wheel"); ("sourceInfo", PStr "vendored")]]);
         ("name", PStr "flask-sbom")].

Definition flask_site : sbom_env :=
  mk_sbom_env (fun _ => ["/usr/lib/python3.11/site-packages/flask-3.1.2.dist-info"])
              (fun _ => true) (fun _ => Ok flask_sbom) (Ok tt).

(** The packages of a document that is an object and lists them. *)
Definition packages_of (sbom_data : pyval) : option (list pyval) :=
  match sbom_data with
  | PDict top =>
      match alist_get "packages" top with
      | Some (PList packages) => Some packages
      | _ => None
      end
  | _ => None
  end.

(* ================================================================= *)
(** * Properties *)

(** ** Results and loops *)

Lemma bind_ok {A B : Type} (m : result A) (k : A -> result B) (b : B) :
  bind m k = Ok b -> exists a, m = Ok a /\ k a = Ok b.
Proof.
  destruct m as [a|e]; simpl; intros H.
  - exists a; split; [reflexivity | exact H].
  - discriminate H.
Qed.

(** Split a hypothesis [x <- m ;; k = Ok b] into its two steps. *)
Ltac inv_bind H :=
  let a := fresh "v" in
  let Ea := fresh "E" in
  apply bind_ok in H; destruct H as (a & Ea & H).

Lemma dict_get_ok (x : pyval) (k : string) (dflt v : pyval) :
  dict_get x k dflt = Ok v -> exists d, x = PDict d /\ v = field_or k dflt d.
Proof.
  destruct x; simpl; try discriminate.
  intros H; injection H as <-. exists d; split; reflexivity.
Qed.

Lemma dict_get_dict (d : list (string * pyval)) (k : string) (dflt : pyval) :
  dict_get (PDict d) k dflt = Ok (field_or k dflt d).
Proof. reflexivity. Qed.

Lemma count_verified_cons (p : package) (ps : list package) :
  count_verified (p :: ps) = (if verified p then 1 else 0) + count_verified ps.
Proof.
  unfold count_verified; simpl. destruct (verified p); simpl List.length; lia.
Qed.

Lemma count_verified_le (ps : list package) :
  count_verified ps <= Z.of_nat (List.length ps).
Proof.
  unfold count_verified. apply Nat2Z.inj_le, filter_length_le.
Qed.

(** The loop over the entries: one record per entry, in order, and the
    counter of verified records keeps pace with the list. *)
Lemma for_each_loop_body (parse_entry : pyval -> result package) (l : list pyval) :
  forall res res',
    for_each (loop_body parse_entry) l res = Ok res' ->
    exists ps,
      Forall2 (fun e p => parse_entry e = Ok p) l ps
      /\ packages res' = packages res ++ ps
      /\ verified_count res' = verified_count res + count_verified ps
      /\ total_count res' = total_count res.
Proof.
  induction l as [|e l IH]; simpl; intros res res' H.
  - injection H as <-. exists []. rewrite app_nil_r.
    repeat split; [constructor | unfold count_verified; simpl; lia].
  - inv_bind H. unfold loop_body in E. inv_bind E. injection E as <-.
    destruct (IH _ _ H) as (ps & Hps & Hpk & Hvc & Htc).
    exists (v0 :: ps). repeat split.
    + constructor; assumption.
    + rewrite Hpk. simpl. rewrite <- app_assoc. reflexivity.
    + rewrite Hvc, count_verified_cons. simpl. destruct (verified v0); lia.
    + rewrite Htc. reflexivity.
Qed.

Lemma for_each_loop_body_total (parse_entry : pyval -> result package) (l : list pyval) :
  Forall (fun e => exists p, parse_entry e = Ok p) l ->
  forall res, exists res', for_each (loop_body parse_entry) l res = Ok res'.
Proof.
  induction 1 as [|e l [p Hp] _ IH]; intros res; simpl.
  - exists res; reflexivity.
  - unfold loop_body at 1. rewrite Hp. simpl. apply IH.
Qed.

(** A loop that returns has run its body on every item. *)
Lemma for_each_ok_each {A S : Type} (body : S -> A -> result S) (l : list A) :
  forall st st', for_each body l st = Ok st' ->
  forall x, In x l -> exists s0 s1, body s0 x = Ok s1.
Proof.
  induction l as [|a l IH]; simpl; intros st st' H x Hx; [contradiction|].
  inv_bind H. destruct Hx as [<-|Hx].
  - exists st, v; assumption.
  - eapply IH; eassumption.
Qed.

Lemma length_chars_of (s : string) : List.length (chars_of s) = String.length s.
Proof.
  unfold chars_of. rewrite length_map.
  induction s as [|c s IH]; simpl; [reflexivity | now rewrite IH].
Qed.

Lemma py_len_iter (x : pyval) (n : Z) (items : list pyval) :
  py_len x = Ok n -> py_iter x = Ok items -> n = Z.of_nat (List.length items).
Proof.
  destruct x; simpl; try discriminate; intros Hn Hi;
    injection Hn as <-; injection Hi as <-.
  - now rewrite length_chars_of.
  - reflexivity.
  - now rewrite length_map.
Qed.

(** ** Strings and the two regular expressions *)

Lemma str_app_assoc (a b c : string) : ((a ++ b) ++ c = a ++ (b ++ c))%string.
Proof. induction a as [|x a IH]; simpl; [reflexivity | now rewrite IH]. Qed.

Lemma strip_prefix_app (p s rest : string) :
  strip_prefix p s = Some rest <-> s = (p ++ rest)%string.
Proof.
  revert s; induction p as [|a p IH]; intros s; simpl.
  - split; [intros H; now injection H | intros ->; reflexivity].
  - destruct s as [|b s]; [split; discriminate|].
    destruct (Ascii.eqb_spec a b) as [->|Hab].
    + rewrite IH. split; [intros ->; reflexivity | intros H; now injection H].
    + split; [discriminate | intros H; injection H as H _; congruence].
Qed.

Lemma take_drop_while (p : ascii -> bool) (s : string) :
  s = (take_while p s ++ drop_while p s)%string.
Proof.
  induction s as [|c s IH]; simpl; [reflexivity|].
  destruct (p c); simpl; [now rewrite <- IH | reflexivity].
Qed.

Lemma take_while_forallb (p : ascii -> bool) (s : string) :
  str_forallb p (take_while p s) = true.
Proof.
  induction s as [|c s IH]; simpl; [reflexivity|].
  destruct (p c) eqn:E; simpl; [now rewrite E | reflexivity].
Qed.

(** What follows a greedy run does not continue it. *)
Lemma drop_while_head (p : ascii -> bool) (s : string) (c : ascii) (r : string) :
  drop_while p s = String c r -> p c = false.
Proof.
  induction s as [|x s IH]; simpl; [discriminate|].
  destruct (p x) eqn:E; [exact IH | intros H; injection H as <- _; exact E].
Qed.

(** [re.search] returns the match at the leftmost position that has one. *)
Lemma re_search_some {A : Type} (match_at : string -> option A) (s : string) (m : A) :
  re_search match_at s = Some m ->
  exists before after,
    s = (before ++ after)%string /\ match_at after = Some m
    /\ forall b a, s = (b ++ a)%string ->
                   (String.length b < String.length before)%nat ->
                   match_at a = None.
Proof.
  induction s as [|c s IH]; simpl.
  - destruct (match_at "") eqn:E; [|discriminate].
    intros H; injection H as ->. exists "", "". repeat split; [exact E|].
    intros b a _ Hlt; simpl in Hlt; lia.
  - destruct (match_at (String c s)) eqn:E.
    + intros H; injection H as ->. exists "", (String c s). repeat split; [exact E|].
      intros b a _ Hlt; simpl in Hlt; lia.
    + intros H. destruct (IH H) as (before & after & -> & Hm & Hleft).
      exists (String c before), after. repeat split; [exact Hm|].
      intros b a Hs Hlt. destruct b as [|x b]; simpl in Hs.
      * subst a. exact E.
      * injection Hs as _ Hs. apply (Hleft b a Hs). simpl in Hlt. lia.
Qed.

Lemma re_search_none {A : Type} (match_at : string -> option A) (s : string) :
  re_search match_at s = None <->
  forall before after, s = (before ++ after)%string -> match_at after = None.
Proof.
  induction s as [|c s IH]; simpl.
  - split.
    + destruct (match_at "") eqn:E; [discriminate|].
      intros _ [|x b] a Hs; simpl in Hs; [now subst a | discriminate].
    + intros H. now rewrite (H "" "" eq_refl).
  - split.
    + destruct (match_at (String c s)) eqn:E; [discriminate|].
      intros H [|x b] a Hs; simpl in Hs; [now subst a|].
      injection Hs as _ Hs. apply (proj1 IH H b a Hs).
    + intros H. rewrite (H "" (String c s) eq_refl).
      apply IH. intros b a Hs. apply (H (String c b) a). simpl. now rewrite Hs.
Qed.

(** A match of the full-URL pattern is the known prefix followed by the
    longest run of digits found there, at least one. *)
Lemma match_rekor_url_some (s url : string) :
  match_rekor_url s = Some url ->
  exists ds rest,
    s = (url ++ rest)%string /\ url = (rekor_entry_prefix ++ ds)%string
    /\ ds <> "" /\ str_forallb is_digit ds = true
    /\ (forall c r, rest = String c r -> is_digit c = false).
Proof.
  unfold match_rekor_url.
  destruct (strip_prefix rekor_entry_prefix s) as [rest|] eqn:E; [|discriminate].
  apply strip_prefix_app in E.
  destruct (take_while is_digit rest) as [|d ds] eqn:T; [discriminate|].
  intros H.
  assert (Hu : url = (rekor_entry_prefix ++ String d ds)%string) by congruence.
  clear H; subst url.
  exists (String d ds), (drop_while is_digit rest). repeat split.
  - rewrite E, str_app_assoc, <- T, <- take_drop_while. reflexivity.
  - discriminate.
  - rewrite <- T. apply take_while_forallb.
  - intros c r. apply drop_while_head.
Qed.

(** A match of the index pattern is the longest run of digits, at least
    one, that follows [logIndex] and a run of separators, at least one. *)
Lemma match_log_index_some (s idx : string) :
  match_log_index s = Some idx ->
  exists seps rest,
    s = ("logIndex" ++ seps ++ idx ++ rest)%string
    /\ seps <> "" /\ str_forallb is_index_sep seps = true
    /\ idx <> "" /\ str_forallb is_digit idx = true
    /\ (forall c r, rest = String c r -> is_digit c = false).
Proof.
  unfold match_log_index.
  destruct (strip_prefix "logIndex" s) as [rest|] eqn:E; [|discriminate].
  apply strip_prefix_app in E.
  destruct (take_while is_index_sep rest) as [|x seps] eqn:T; [discriminate|].
  destruct (take_while is_digit (drop_while is_index_sep rest)) as [|d ds] eqn:D;
    [discriminate|].
  intros H; injection H as <-.
  exists (String x seps), (drop_while is_digit (drop_while is_index_sep rest)).
  repeat split.
  - rewrite E. f_equal. rewrite <- T, <- D, <- take_drop_while, <- take_drop_while.
    reflexivity.
  - discriminate.
  - rewrite <- T. apply take_while_forallb.
  - discriminate.
  - rewrite <- D. apply take_while_forallb.
  - intros c r. apply drop_while_head.
Qed.

(** ** The normalizer *)

Lemma extract_rekor_url_text (is_verified : bool) (s : string) :
  exists url, extract_rekor_url is_verified (PStr s) = Ok url.
Proof.
  unfold extract_rekor_url. destruct is_verified; [|eexists; reflexivity].
  simpl. destruct (str_contains "rekor.sigstore.dev" s); [|eexists; reflexivity].
  destruct (re_search match_rekor_url s); [eexists; reflexivity|].
  destruct (re_search match_log_index s); eexists; reflexivity.
Qed.

Lemma extract_rekor_url_gate (is_verified : bool) (x : pyval) (url : string) :
  extract_rekor_url is_verified x = Ok (Some url) -> is_verified = true.
Proof.
  destruct is_verified; [reflexivity|]. simpl. discriminate.
Qed.

Lemma parse_artifact_ok (a : pyval) (p : package) :
  parse_artifact a = Ok p ->
  exists d s,
    a = PDict d
    /\ field_or "artifact" (PStr "") d = PStr s
    /\ name p = PStr (fst (wheel_name_version (path_name s)))
    /\ version p = snd (wheel_name_version (path_name s))
    /\ verified p = py_eq_int (field_or "artifactVerificationCoverage" (PInt 0) d) 100
    /\ details p = field_or "details" (PStr "") d
    /\ verification_method p = PStr (if verified p then "signature" else "none")
    /\ extract_rekor_url (verified p) (details p) = Ok (rekor_url p).
Proof.
  unfold parse_artifact. intros H.
  inv_bind H. apply dict_get_ok in E as (d & -> & ->).
  inv_bind H. unfold py_path_name in E.
  destruct (field_or "artifact" (PStr "") d) as [| | | |s| |] eqn:Hs; try discriminate.
  injection E as <-.
  destruct (wheel_name_version (path_name s)) as [nm ver] eqn:Hnv.
  inv_bind H. rewrite dict_get_dict in E. injection E as <-.
  inv_bind H. rewrite dict_get_dict in E. injection E as <-.
  inv_bind H. injection H as <-. simpl.
  exists d, s. rewrite Hnv. simpl. repeat split; assumption.
Qed.

Lemma parse_nested_ok (e : pyval) (p : package) :
  parse_nested e = Ok p ->
  exists d,
    e = PDict d
    /\ coordinates_name_version (PDict d) (field_or "coordinates" (PStr "") d)
       = Ok (name p, version p)
    /\ verified p = py_eq_int (field_or "verificationCoverage" (PInt 0) d) 100
    /\ details p = field_or "details" (PStr "") d
    /\ verification_method p = field_or "verificationMethod" (PStr "none") d
    /\ extract_rekor_url (verified p) (details p) = Ok (rekor_url p).
Proof.
  unfold parse_nested. intros H.
  inv_bind H. apply dict_get_ok in E as (d & -> & ->).
  inv_bind H. destruct v as [nm ver].
  inv_bind H. rewrite dict_get_dict in E0. injection E0 as <-.
  inv_bind H. rewrite dict_get_dict in E0. injection E0 as <-.
  inv_bind H. inv_bind H. rewrite dict_get_dict in E1. injection E1 as <-.
  injection H as <-. simpl.
  exists d. repeat split; assumption.
Qed.

(** What a returning run of the normalizer has done: it chose a shape by
    the truth value of [results], visited the entries of that shape in
    order, and made one record of each. *)
Lemma parse_chainver_output_ok (chainver_data : pyval) (r : results) :
  parse_chainver_output chainver_data = Ok r ->
  exists top items,
    chainver_data = PDict top
    /\ total_count r = Z.of_nat (List.length items)
    /\ verified_count r = count_verified (packages r)
    /\ ((truthy (field_or "results" (PList []) top) = true
         /\ py_iter (field_or "results" (PList []) top) = Ok items
         /\ Forall2 (fun e p => parse_artifact e = Ok p) items (packages r))
        \/ (truthy (field_or "results" (PList []) top) = false
            /\ py_iter (field_or "nestedResults" (PList []) top) = Ok items
            /\ Forall2 (fun e p => parse_nested e = Ok p) items (packages r))).
Proof.
  unfold parse_chainver_output. intros H.
  inv_bind H. apply dict_get_ok in E as (top & -> & ->).
  repeat (inv_bind H; rewrite dict_get_dict in E; injection E as <-).
  destruct (truthy (field_or "results" (PList []) top)) eqn:Ht.
  - inv_bind H. inv_bind H.
    destruct (for_each_loop_body _ _ _ _ H) as (ps & Hps & Hpk & Hvc & Htc).
    simpl in Hpk, Hvc, Htc. subst ps.
    exists top, v0. repeat split.
    + rewrite Htc. eapply py_len_iter; eassumption.
    + rewrite Hvc. lia.
    + left. repeat split; assumption.
  - inv_bind H. rewrite dict_get_dict in E. injection E as <-.
    inv_bind H. inv_bind H.
    destruct (for_each_loop_body _ _ _ _ H) as (ps & Hps & Hpk & Hvc & Htc).
    simpl in Hpk, Hvc, Htc. subst ps.
    exists top, v0. repeat split.
    + rewrite Htc. eapply py_len_iter; eassumption.
    + rewrite Hvc. lia.
    + right. repeat split; assumption.
Qed.

Lemma str_contains_partition (sep s : string) :
  str_contains sep s = true -> exists a b, str_partition sep s = Some (a, b).
Proof.
  induction s as [|c s IH].
  - simpl. unfold startswith. destruct (strip_prefix sep ""); [eauto | discriminate].
  - cbn [str_contains str_partition]. unfold startswith.
    destruct (strip_prefix sep (String c s)); [eauto|].
    intros H. destruct (IH H) as (a & b & ->). eauto.
Qed.

Lemma str_partition_none (sep s : string) :
  str_contains sep s = false -> str_partition sep s = None.
Proof.
  induction s as [|c s IH].
  - simpl. unfold startswith. destruct (strip_prefix sep ""); [discriminate | reflexivity].
  - cbn [str_contains str_partition]. unfold startswith.
    destruct (strip_prefix sep (String c s)); [discriminate|].
    intros H. now rewrite (IH H).
Qed.

Lemma str_partition_cons (sep : string) (c : ascii) (r : string) :
  str_partition sep (String c r) =
  match strip_prefix sep (String c r) with
  | Some after => Some ("", after)
  | None =>
      match str_partition sep r with
      | Some (before, after) => Some (String c before, after)
      | None => None
      end
  end.
Proof. reflexivity. Qed.

(** [split('==', 1)] cuts at the first separator: when no [==] starts
    inside [a], the text [a == b] splits into [a] and [b]. *)
Lemma str_partition_first (a b : string) :
  str_contains "==" (a ++ "=")%string = false ->
  str_partition "==" (a ++ "==" ++ b)%string = Some (a, b).
Proof.
  induction a as [|x a IH]; intros H.
  - reflexivity.
  - cbn [str_contains String.append] in H.
    destruct (startswith "==" (String x (a ++ "="))) eqn:Hs; [discriminate|].
    change (String x a ++ "==" ++ b)%string with (String x (a ++ "==" ++ b)).
    rewrite str_partition_cons, (IH H).
    assert (Hn : strip_prefix "==" (String x (a ++ "==" ++ b)) = None).
    { unfold startswith in Hs. cbn [strip_prefix String.append] in Hs |- *.
      destruct (Ascii.eqb "=" x); [|reflexivity].
      destruct a as [|y a]; cbn [strip_prefix String.append] in Hs |- *.
      - rewrite Ascii.eqb_refl in Hs. discriminate.
      - destruct (Ascii.eqb "=" y); [discriminate | reflexivity]. }
    rewrite Hn. reflexivity.
Qed.

Lemma wf_artifact_total (a : pyval) :
  wf_artifact a = true -> exists p, parse_artifact a = Ok p.
Proof.
  destruct a as [| | | | | |d]; try discriminate. cbn [wf_artifact].
  unfold text_or_absent, parse_artifact. rewrite !dict_get_dict. unfold field_or.
  intros H. apply andb_prop in H as [Ha Hd].
  assert (Ha' : exists s, match alist_get "artifact" d with
                          | Some v => v | None => PStr "" end = PStr s).
  { destruct (alist_get "artifact" d) as [[]|]; try discriminate; eauto. }
  assert (Hd' : exists s, match alist_get "details" d with
                          | Some v => v | None => PStr "" end = PStr s).
  { destruct (alist_get "details" d) as [[]|]; try discriminate; eauto. }
  destruct Ha' as [s ->], Hd' as [t ->]. simpl.
  destruct (wheel_name_version (path_name s)) as [nm ver].
  destruct (extract_rekor_url_text
              (py_eq_int match alist_get "artifactVerificationCoverage" d with
                         | Some v => v | None => PInt 0 end 100) t) as [u ->].
  simpl. eexists; reflexivity.
Qed.

Lemma wf_nested_total (e : pyval) :
  wf_nested e = true -> exists p, parse_nested e = Ok p.
Proof.
  destruct e as [| | | | | |d]; try discriminate. cbn [wf_nested].
  unfold text_or_absent, parse_nested. rewrite !dict_get_dict. unfold field_or.
  intros H. apply andb_prop in H as [Hc Hd].
  assert (Hc' : exists s, match alist_get "coordinates" d with
                          | Some v => v | None => PStr "" end = PStr s).
  { destruct (alist_get "coordinates" d) as [[]|]; try discriminate; eauto. }
  assert (Hd' : exists s, match alist_get "details" d with
                          | Some v => v | None => PStr "" end = PStr s).
  { destruct (alist_get "details" d) as [[]|]; try discriminate; eauto. }
  destruct Hc' as [s ->], Hd' as [t ->].
  assert (Hnv : exists nv, coordinates_name_version (PDict d) (PStr s) = Ok nv).
  { unfold coordinates_name_version. simpl.
    destruct (str_contains "==" s) eqn:Hs.
    - destruct (str_contains_partition _ _ Hs) as (a & b & ->). eauto.
    - eauto. }
  cbn [bind]. destruct Hnv as [nv ->]. cbn [bind].
  destruct (extract_rekor_url_text
              (py_eq_int match alist_get "verificationCoverage" d with
                         | Some v => v | None => PInt 0 end 100) t) as [u ->].
  simpl. eexists; reflexivity.
Qed.

Lemma Forall2_right {A B : Type} (R : A -> B -> Prop) (Q : B -> Prop)
  (l : list A) (ps : list B) :
  Forall2 R l ps -> (forall a b, R a b -> Q b) -> Forall Q ps.
Proof.
  intros H HQ. induction H; constructor; [eapply HQ; eassumption | assumption].
Qed.

Lemma Forall2_weaken {A B : Type} (R R' : A -> B -> Prop) (l : list A) (ps : list B) :
  Forall2 R l ps -> (forall a b, R a b -> R' a b) -> Forall2 R' l ps.
Proof.
  intros H HR. induction H; constructor; [now apply HR | assumption].
Qed.

Lemma py_eq_int_100 (x : pyval) : py_eq_int x 100 = true <-> is_100 x.
Proof.
  unfold is_100. destruct x; simpl; split; intros H;
    try discriminate;
    try (destruct H as [H|(f' & H & _)]; discriminate H).
  - destruct b; discriminate H.
  - left. apply Z.eqb_eq in H. now subst.
  - destruct H as [H|(f' & H & _)]; [|discriminate H].
    injection H as ->. reflexivity.
  - right. exists f. split; [reflexivity | exact H].
  - destruct H as [H|(f' & H & Hf)]; [discriminate H|].
    injection H as ->. exact Hf.
Qed.

Lemma is_100_int (z : Z) : is_100 (PInt z) <-> z = 100.
Proof.
  unfold is_100. split.
  - intros [H|(f & H & _)]; [now injection H | discriminate H].
  - intros ->. now left.
Qed.

Lemma entries_or_absent_items (k : string) (wf : pyval -> bool)
  (top : list (string * pyval)) :
  entries_or_absent k wf top = true ->
  forallb wf (items_of k top) = true
  /\ field_or k (PList []) top = PList (items_of k top).
Proof.
  unfold entries_or_absent, items_of, field_or.
  destruct (alist_get k top) as [[]|]; try discriminate; intros H; split;
    try assumption; reflexivity.
Qed.

Lemma forallb_total (wf : pyval -> bool) (parse_entry : pyval -> result package)
  (l : list pyval) :
  (forall e, wf e = true -> exists p, parse_entry e = Ok p) ->
  forallb wf l = true -> Forall (fun e => exists p, parse_entry e = Ok p) l.
Proof.
  intros Hwf H. apply Forall_forall. intros e He. apply Hwf.
  rewrite forallb_forall in H. now apply H.
Qed.

(** Every well-formed verifier output is normalized without an error. *)
Lemma wf_verifier_output_total (chainver_data : pyval) :
  wf_verifier_output chainver_data = true ->
  exists top r, chainver_data = PDict top /\ parse_chainver_output chainver_data = Ok r.
Proof.
  destruct chainver_data as [| | | | | |top]; try discriminate.
  cbn [wf_verifier_output]. intros H. apply andb_prop in H as [Hr Hn].
  apply entries_or_absent_items in Hr as [Hr Er].
  apply entries_or_absent_items in Hn as [Hn En].
  exists top. unfold parse_chainver_output. rewrite !dict_get_dict. cbn [bind].
  rewrite Er. destruct (items_of "results" top) as [|a l] eqn:El; cbn [truthy].
  - rewrite dict_get_dict, En. cbn [bind py_len py_iter].
    destruct (for_each_loop_body_total parse_nested (items_of "nestedResults" top)
                (forallb_total _ _ _ wf_nested_total Hn)
                (set_total_count
                   (mk_results 0 0 []
                      (field_or "overallVerificationCoverage"
                         (field_or "artifactVerificationCoverage" (PInt 0) top) top)
                      (field_or "artifactVerificationCoverage" (PInt 0) top)
                      (field_or "details" (PStr "") top))
                   (Z.of_nat (List.length (items_of "nestedResults" top)))))
      as [r Hrun].
    exists r. split; [reflexivity | exact Hrun].
  - cbn [bind py_len py_iter].
    destruct (for_each_loop_body_total parse_artifact (a :: l)
                (forallb_total _ _ _ wf_artifact_total Hr)
                (set_total_count
                   (mk_results 0 0 []
                      (field_or "overallVerificationCoverage"
                         (field_or "artifactVerificationCoverage" (PInt 0) top) top)
                      (field_or "artifactVerificationCoverage" (PInt 0) top)
                      (field_or "details" (PStr "") top))
                   (Z.of_nat (List.length (a :: l)))))
      as [r Hrun].
    exists r. split; [reflexivity | exact Hrun].
Qed.

(* ================================================================= *)
(** ** Claims about the normalizer *)

(** C1.  For every well-formed verifier output the normalizer returns, with
    exactly one record per entry of [results], or of [nestedResults] when
    [results] is absent or empty; so N entries give N records and an empty
    array gives none.  The record of an entry is verified if and only if
    the coverage field of the entry is the number 100. *)
Theorem normalizer_one_record_per_entry (chainver_data : pyval) :
  wf_verifier_output chainver_data = true ->
  exists top r,
    chainver_data = PDict top
    /\ parse_chainver_output chainver_data = Ok r
    /\ (items_of "results" top <> [] ->
        List.length (packages r) = List.length (items_of "results" top)
        /\ Forall2 (fun e p =>
                      verified p = true
                      <-> is_100 (coverage_of "artifactVerificationCoverage" e))
                   (items_of "results" top) (packages r))
    /\ (items_of "results" top = [] ->
        List.length (packages r) = List.length (items_of "nestedResults" top)
        /\ Forall2 (fun e p =>
                      verified p = true
                      <-> is_100 (coverage_of "verificationCoverage" e))
                   (items_of "nestedResults" top) (packages r)).
Proof.
  intros Hwf.
  destruct (wf_verifier_output_total _ Hwf) as (top & r & -> & Hrun).
  exists top, r. split; [reflexivity|]. split; [exact Hrun|].
  cbn [wf_verifier_output] in Hwf. apply andb_prop in Hwf as [Hr Hn].
  apply entries_or_absent_items in Hr as [_ Er].
  apply entries_or_absent_items in Hn as [_ En].
  destruct (parse_chainver_output_ok _ _ Hrun)
    as (top' & items & Etop & _ & _ & [(Ht & Hi & Hall)|(Ht & Hi & Hall)]);
    injection Etop as <-.
  - rewrite Er in Ht, Hi. cbn [py_iter] in Hi. injection Hi as <-.
    split.
    + intros _. split; [symmetry; eapply Forall2_length; exact Hall|].
      eapply Forall2_weaken; [exact Hall|].
      intros e p Hp. apply parse_artifact_ok in Hp as (d & s & -> & _ & _ & _ & Hv & _).
      rewrite Hv. apply py_eq_int_100.
    + intros E. rewrite E in Ht. discriminate Ht.
  - rewrite Er in Ht. rewrite En in Hi. cbn [py_iter] in Hi. injection Hi as <-.
    split.
    + intros E. destruct (items_of "results" top); [now contradiction E | discriminate Ht].
    + intros _. split; [symmetry; eapply Forall2_length; exact Hall|].
      eapply Forall2_weaken; [exact Hall|].
      intros e p Hp. apply parse_nested_ok in Hp as (d & -> & _ & Hv & _).
      rewrite Hv. apply py_eq_int_100.
Qed.

Lemma normalizer_one_record_per_entry_witness :
  wf_verifier_output sample_wheels = true
  /\ exists top r,
       sample_wheels = PDict top
       /\ parse_chainver_output sample_wheels = Ok r
       /\ (items_of "results" top <> [] ->
           List.length (packages r) = List.length (items_of "results" top)
           /\ Forall2 (fun e p =>
                         verified p = true
                         <-> is_100 (coverage_of "artifactVerificationCoverage" e))
                      (items_of "results" top) (packages r))
       /\ (items_of "results" top = [] ->
           List.length (packages r) = List.length (items_of "nestedResults" top)
           /\ Forall2 (fun e p =>
                         verified p = true
                         <-> is_100 (coverage_of "verificationCoverage" e))
                      (items_of "nestedResults" top) (packages r)).
Proof.
  split; [reflexivity|].
  apply (normalizer_one_record_per_entry sample_wheels). reflexivity.
Defined.

(** Coverage 100 is verified; 99 and 101 are not. *)
Example coverage_99_and_101_not_verified :
  exists r, parse_chainver_output sample_wheels = Ok r
            /\ map verified (packages r) = [true; false; false]
            /\ total_count r = 3 /\ verified_count r = 1.
Proof. eexists. repeat split. Qed.

(** Empty arrays, and a missing one, give no record and no error. *)
Example empty_arrays_give_no_record :
  (exists r, parse_chainver_output (PDict [("results", PList [])]) = Ok r
             /\ packages r = [])
  /\ (exists r, parse_chainver_output (PDict [("nestedResults", PList [])]) = Ok r
                /\ packages r = [])
  /\ (exists r, parse_chainver_output (PDict []) = Ok r /\ packages r = []).
Proof. repeat split; eexists; split; reflexivity. Qed.

(** A float coverage of 100.0 compares equal to 100. *)
Example float_100_is_verified :
  is_100 (PFloat (S754_finite false 7036874417766400 (-46))).
Proof. right. eexists. split; reflexivity. Qed.

(** The URL of every record is what the shared extraction block makes of
    the record's own verdict and details, in either shape. *)
Lemma packages_rekor_url (chainver_data : pyval) (r : results) :
  parse_chainver_output chainver_data = Ok r ->
  Forall (fun p => extract_rekor_url (verified p) (details p) = Ok (rekor_url p))
         (packages r).
Proof.
  intros H.
  destruct (parse_chainver_output_ok _ _ H)
    as (top & items & _ & _ & _ & [(_ & _ & Hall)|(_ & _ & Hall)]).
  - eapply Forall2_right; [exact Hall|].
    intros e p Hp. now apply parse_artifact_ok in Hp as (d & s & _ & _ & _ & _ & _ & _ & _ & Hu).
  - eapply Forall2_right; [exact Hall|].
    intros e p Hp. now apply parse_nested_ok in Hp as (d & _ & _ & _ & _ & _ & Hu).
Qed.

(** C4, as the code has it.  In either shape the URL of a record comes from
    the text of [details] only when the entry is verified and the text
    mentions [rekor.sigstore.dev]: then the full-URL pattern is tried first
    and its match is the URL; failing that, a bare log index is looked for
    and a search URL is made from it; failing both the record has no URL.
    A record that is not verified, or whose details do not mention the host,
    has no URL.  None of this is an error. *)
Theorem rekor_url_of_each_record (chainver_data : pyval) (r : results) :
  parse_chainver_output chainver_data = Ok r ->
  Forall (fun p =>
    (verified p = false -> rekor_url p = None)
    /\ forall s, details p = PStr s ->
       (str_contains "rekor.sigstore.dev" s = false -> rekor_url p = None)
       /\ (verified p = true -> str_contains "rekor.sigstore.dev" s = true ->
           (forall url, re_search match_rekor_url s = Some url ->
              rekor_url p = Some url
              /\ exists ds, url = (rekor_entry_prefix ++ ds)%string
                            /\ ds <> "" /\ str_forallb is_digit ds = true)
           /\ (re_search match_rekor_url s = None ->
               forall idx, re_search match_log_index s = Some idx ->
                 rekor_url p = Some (search_url_prefix ++ idx)%string
                 /\ idx <> "" /\ str_forallb is_digit idx = true)
           /\ (re_search match_rekor_url s = None ->
               re_search match_log_index s = None -> rekor_url p = None)))
    (packages r).
Proof.
  intros H. eapply Forall_impl; [|exact (packages_rekor_url _ _ H)].
  intros p Hp. cbv beta in Hp. split.
  - intros Hv. rewrite Hv in Hp. simpl in Hp. congruence.
  - intros s Hs. rewrite Hs in Hp. unfold extract_rekor_url in Hp. split.
    + intros Hc. destruct (verified p); cbn [py_in bind] in Hp;
        [rewrite Hc in Hp|]; congruence.
    + intros Hv Hc. rewrite Hv in Hp. cbn [py_in bind] in Hp. rewrite Hc in Hp.
      split; [|split].
      * intros url Hfull. rewrite Hfull in Hp. split; [congruence|].
        destruct (re_search_some _ _ _ Hfull) as (before & after & _ & Hm & _).
        destruct (match_rekor_url_some _ _ Hm) as (ds & rest & _ & Hu & Hne & Hd & _).
        exists ds. repeat split; assumption.
      * intros Hfull idx Hidx. rewrite Hfull, Hidx in Hp. split; [congruence|].
        destruct (re_search_some _ _ _ Hidx) as (before & after & _ & Hm & _).
        destruct (match_log_index_some _ _ Hm)
          as (seps & rest & _ & _ & _ & Hne & Hd & _).
        split; assumption.
      * intros Hfull Hidx. rewrite Hfull, Hidx in Hp. congruence.
Qed.

Lemma rekor_url_of_each_record_witness :
  parse_chainver_output sample_wheels
  = Ok (mk_results 1 3
          [mk_package (PStr "flask") "3.1.2" true (PStr rekor_details) (PStr "signature")
             (Some "https://rekor.sigstore.dev/api/v1/log/entries/?logIndex=12345");
           mk_package (PStr "click") "8.3.0" false (PStr rekor_details) (PStr "none") None;
           mk_package (PStr "aiohttp") "3.13.0" false
             (PStr "rekor.sigstore.dev logIndex=7") (PStr "none") None]
          (PInt 33) (PInt 0) (PStr ""))
  /\ Forall (fun p =>
       (verified p = false -> rekor_url p = None)
       /\ forall s, details p = PStr s ->
          (str_contains "rekor.sigstore.dev" s = false -> rekor_url p = None)
          /\ (verified p = true -> str_contains "rekor.sigstore.dev" s = true ->
              (forall url, re_search match_rekor_url s = Some url ->
                 rekor_url p = Some url
                 /\ exists ds, url = (rekor_entry_prefix ++ ds)%string
                               /\ ds <> "" /\ str_forallb is_digit ds = true)
              /\ (re_search match_rekor_url s = None ->
                  forall idx, re_search match_log_index s = Some idx ->
                    rekor_url p = Some (search_url_prefix ++ idx)%string
                    /\ idx <> "" /\ str_forallb is_digit idx = true)
              /\ (re_search match_rekor_url s = None ->
                  re_search match_log_index s = None -> rekor_url p = None)))
       [mk_package (PStr "flask") "3.1.2" true (PStr rekor_details) (PStr "signature")
          (Some "https://rekor.sigstore.dev/api/v1/log/entries/?logIndex=12345");
        mk_package (PStr "click") "8.3.0" false (PStr rekor_details) (PStr "none") None;
        mk_package (PStr "aiohttp") "3.13.0" false
          (PStr "rekor.sigstore.dev logIndex=7") (PStr "none") None].
Proof.
  split; [reflexivity|].
  exact (rekor_url_of_each_record sample_wheels _ eq_refl).
Defined.

(** C4 as stated fails twice over: an entry that is not verified gets no URL
    although its details hold a full log URL, and a verified entry gets none
    although its details hold a log index, because they do not mention the
    host. *)
Lemma rekor_url_extraction_is_gated :
  (re_search match_rekor_url rekor_details
   = Some "https://rekor.sigstore.dev/api/v1/log/entries/?logIndex=12345"
   /\ exists r p, parse_chainver_output unverified_with_url = Ok r
                  /\ packages r = [p] /\ details p = PStr rekor_details
                  /\ verified p = false /\ rekor_url p = None)
  /\ (re_search match_log_index "transparency log entry logIndex=98765" = Some "98765"
      /\ exists r p, parse_chainver_output verified_with_bare_index = Ok r
                     /\ packages r = [p]
                     /\ details p = PStr "transparency log entry logIndex=98765"
                     /\ verified p = true /\ rekor_url p = None).
Proof.
  split; (split; [reflexivity|]); do 2 eexists; repeat split.
Qed.

(** The three outcomes of the extraction on a verified entry. *)
Example rekor_url_three_ways :
  extract_rekor_url true (PStr rekor_details)
  = Ok (Some "https://rekor.sigstore.dev/api/v1/log/entries/?logIndex=12345")
  /\ extract_rekor_url true (PStr "rekor.sigstore.dev logIndex: 42")
     = Ok (Some "https://search.sigstore.dev/?logIndex=42")
  /\ extract_rekor_url true (PStr "see rekor.sigstore.dev") = Ok None.
Proof. repeat split. Qed.

(** C7, as the code has it.  In the per-artifact shape the method of a
    record is ["signature"] when it is verified and ["none"] when it is
    not, so there a verified record never has the method ["none"].  In the
    legacy shape the method that the entry reports is carried through as
    it stands, ["none"] standing in when the entry reports nothing, and
    the coverage plays no part in it: the method of a record differs from
    ["none"] exactly when the entry reports one that does. *)
Theorem verification_method_of_each_record
  (top : list (string * pyval)) (r : results) :
  parse_chainver_output (PDict top) = Ok r ->
  (truthy (field_or "results" (PList []) top) = true ->
   Forall (fun p =>
             verification_method p = PStr (if verified p then "signature" else "none")
             /\ (verified p = true -> verification_method p <> PStr "none"))
          (packages r))
  /\ (truthy (field_or "results" (PList []) top) = false ->
      exists entries,
        py_iter (field_or "nestedResults" (PList []) top) = Ok entries
        /\ Forall2 (fun e p => exists d,
                      e = PDict d
                      /\ verification_method p
                         = field_or "verificationMethod" (PStr "none") d
                      /\ (verification_method p <> PStr "none"
                          <-> exists m, alist_get "verificationMethod" d = Some m
                                        /\ m <> PStr "none"))
                   entries (packages r)).
Proof.
  intros H.
  destruct (parse_chainver_output_ok _ _ H)
    as (top' & items & Etop & _ & _ & [(Ht & Hi & Hall)|(Ht & Hi & Hall)]);
    injection Etop as <-; (split; [|]); intros Ht'; try congruence.
  - eapply Forall2_right; [exact Hall|].
    intros e p Hp. apply parse_artifact_ok in Hp as (d & s & _ & _ & _ & _ & _ & _ & Hm & _).
    split; [exact Hm|]. intros Hv. rewrite Hm, Hv. discriminate.
  - exists items. split; [exact Hi|].
    eapply Forall2_weaken; [exact Hall|].
    intros e p Hp. apply parse_nested_ok in Hp as (d & -> & _ & _ & _ & Hm & _).
    exists d. split; [reflexivity|]. split; [exact Hm|].
    rewrite Hm. unfold field_or.
    destruct (alist_get "verificationMethod" d) as [m|].
    + split; [intros Hne; now exists m | intros (m' & Hm' & Hne); congruence].
    + split; [intros Hne; now contradiction Hne | intros (m' & Hm' & _); discriminate].
Qed.

Lemma verification_method_of_each_record_witness :
  parse_chainver_output (PDict sample_legacy_items)
  = Ok (mk_results 1 2
          [mk_package (PStr "flask") "3.1.2" true
             (PStr "rekor.sigstore.dev logIndex: 42") (PStr "sigstore")
             (Some "https://search.sigstore.dev/?logIndex=42");
           mk_package (PStr "site-packages/werkzeug") "" false (PStr "") (PStr "none") None]
          (PInt 0) (PInt 0) (PStr ""))
  /\ (truthy (field_or "results" (PList []) sample_legacy_items) = false ->
      exists entries,
        py_iter (field_or "nestedResults" (PList []) sample_legacy_items) = Ok entries
        /\ Forall2 (fun e p => exists d,
                      e = PDict d
                      /\ verification_method p
                         = field_or "verificationMethod" (PStr "none") d
                      /\ (verification_method p <> PStr "none"
                          <-> exists m, alist_get "verificationMethod" d = Some m
                                        /\ m <> PStr "none"))
                   entries
                   [mk_package (PStr "flask") "3.1.2" true
                      (PStr "rekor.sigstore.dev logIndex: 42") (PStr "sigstore")
                      (Some "https://search.sigstore.dev/?logIndex=42");
                    mk_package (PStr "site-packages/werkzeug") "" false (PStr "")
                      (PStr "none") None]).
Proof.
  split; [reflexivity|].
  exact (proj2 (verification_method_of_each_record sample_legacy_items _ eq_refl)).
Defined.

(** C7 as stated fails in the legacy shape: the entry is fully covered and
    reports its method explicitly, as ["none"]; the record is verified and
    its method is ["none"]. *)
Lemma verified_with_method_none :
  exists d p,
    covered_without_method = PDict [("nestedResults", PList [PDict d])]
    /\ alist_get "verificationMethod" d = Some (PStr "none")
    /\ parse_chainver_output covered_without_method
       = Ok (mk_results 1 1 [p] (PInt 0) (PInt 0) (PStr ""))
    /\ verified p = true
    /\ verification_method p = PStr "none".
Proof. eexists. eexists. repeat split. Qed.

Lemma Forall2_forallb {A B : Type} (R : A -> B -> Prop) (wf : A -> bool)
  (l : list A) (ps : list B) :
  Forall2 R l ps -> forallb wf l = true ->
  Forall2 (fun e p => wf e = true /\ R e p) l ps.
Proof.
  induction 1 as [|e p l ps Hr _ IH]; cbn [forallb]; intros Hwf; constructor.
  - apply andb_prop in Hwf as [He _]. now split.
  - apply IH. now apply andb_prop in Hwf as [_ Hl].
Qed.

(** The cut at [==] is a cut of the text, at the first [==] in it. *)
Lemma str_partition_cut (s a b : string) :
  str_partition "==" s = Some (a, b) ->
  s = (a ++ "==" ++ b)%string /\ str_contains "==" (a ++ "=")%string = false.
Proof.
  revert a. induction s as [|c r IH]; intros a.
  - cbn. discriminate.
  - rewrite str_partition_cons.
    destruct (strip_prefix "==" (String c r)) as [after|] eqn:Hhead.
    + intros H. injection H as <- <-. apply strip_prefix_app in Hhead.
      split; [exact Hhead | reflexivity].
    + destruct (str_partition "==" r) as [[a' b']|] eqn:Hrest; [|discriminate].
      intros H. injection H as <- <-.
      destruct (IH a' eq_refl) as [Hr Hfirst]. split; [now rewrite Hr|].
      cbn [String.append str_contains]. rewrite Hfirst.
      destruct (startswith "==" (String c (a' ++ "="))) eqn:Hs; [|reflexivity].
      exfalso. unfold startswith in Hs. rewrite Hr in Hhead.
      cbn [strip_prefix] in Hs, Hhead.
      destruct (Ascii.eqb "=" c); [|discriminate Hs].
      destruct a' as [|x a']; cbn [String.append strip_prefix] in Hs, Hhead.
      * discriminate Hhead.
      * destruct (Ascii.eqb "=" x); [discriminate Hhead | discriminate Hs].
Qed.

(** What the cut of a [coordinates] text gives. *)
Lemma coordinates_name_version_cases (d : list (string * pyval)) (c : string)
  (nm : pyval) (ver : string) :
  coordinates_name_version (PDict d) (PStr c) = Ok (nm, ver) ->
  (str_contains "==" c = true ->
   exists a, c = (a ++ "==" ++ ver)%string
             /\ str_contains "==" (a ++ "=")%string = false /\ nm = PStr a)
  /\ (forall a b, c = (a ++ "==" ++ b)%string ->
                  str_contains "==" (a ++ "=")%string = false ->
                  nm = PStr a /\ ver = b)
  /\ (str_contains "==" c = false ->
      nm = field_or "path" (PStr "Unknown") d /\ ver = "").
Proof.
  intros Hnv. split; [|split].
  - intros Hs. unfold coordinates_name_version in Hnv. cbn [py_in bind] in Hnv.
    rewrite Hs in Hnv.
    destruct (str_partition "==" c) as [[a b]|] eqn:Hpart; [|discriminate].
    injection Hnv as <- <-. apply str_partition_cut in Hpart as [Hc Hfirst].
    exists a. now repeat split.
  - intros a b -> Hfirst. unfold coordinates_name_version in Hnv.
    cbn [py_in bind] in Hnv.
    pose proof (str_partition_first a b Hfirst) as Hpart.
    destruct (str_contains "==" (a ++ "==" ++ b)) eqn:Hs.
    + rewrite Hpart in Hnv. now injection Hnv.
    + apply str_partition_none in Hs. congruence.
  - intros Hs. unfold coordinates_name_version in Hnv.
    cbn [py_in bind] in Hnv. rewrite Hs, dict_get_dict in Hnv. cbn [bind] in Hnv.
    now injection Hnv.
Qed.

(** C8.  For every well-formed verifier output in the legacy shape the
    normalizer returns, and the name and version of each record come from
    the [coordinates] text of its entry: a text with [==] is cut at the
    first [==] into the name before it and the version after it, so that
    [flask==3.1.2] gives the name [flask] and the version [3.1.2]; for a
    text without [==] the name is the [path] of the entry (["Unknown"]
    when it has none) and the version is empty. *)
Theorem legacy_coordinates_split (chainver_data : pyval) :
  wf_verifier_output chainver_data = true ->
  exists top r,
    chainver_data = PDict top
    /\ parse_chainver_output chainver_data = Ok r
    /\ (items_of "results" top = [] ->
        Forall2 (fun e p => exists d c,
                   e = PDict d
                   /\ field_or "coordinates" (PStr "") d = PStr c
                   /\ (str_contains "==" c = true ->
                       exists a, c = (a ++ "==" ++ version p)%string
                                 /\ str_contains "==" (a ++ "=")%string = false
                                 /\ name p = PStr a)
                   /\ (forall a b, c = (a ++ "==" ++ b)%string ->
                                   str_contains "==" (a ++ "=")%string = false ->
                                   name p = PStr a /\ version p = b)
                   /\ (c = "flask==3.1.2" -> name p = PStr "flask" /\ version p = "3.1.2")
                   /\ (str_contains "==" c = false ->
                       name p = field_or "path" (PStr "Unknown") d /\ version p = ""))
                (items_of "nestedResults" top) (packages r)).
Proof.
  intros Hwf.
  destruct (wf_verifier_output_total _ Hwf) as (top & r & -> & Hrun).
  exists top, r. split; [reflexivity|]. split; [exact Hrun|].
  cbn [wf_verifier_output] in Hwf. apply andb_prop in Hwf as [Hr Hn].
  apply entries_or_absent_items in Hr as [_ Er].
  apply entries_or_absent_items in Hn as [Hentries En].
  intros Hempty.
  destruct (parse_chainver_output_ok _ _ Hrun)
    as (top' & items & Etop & _ & _ & [(Ht & Hi & Hall)|(Ht & Hi & Hall)]);
    injection Etop as <-.
  { rewrite Er, Hempty in Ht. discriminate Ht. }
  rewrite En in Hi. cbn [py_iter] in Hi. injection Hi as <-.
  eapply Forall2_weaken; [exact (Forall2_forallb _ _ _ _ Hall Hentries)|].
  intros e p [Hwfe Hp]. apply parse_nested_ok in Hp as (d & -> & Hnv & _).
  assert (Hc : exists c, field_or "coordinates" (PStr "") d = PStr c).
  { cbn [wf_nested] in Hwfe. apply andb_prop in Hwfe as [Hco _].
    unfold text_or_absent in Hco. unfold field_or.
    destruct (alist_get "coordinates" d) as [[]|]; try discriminate; eauto. }
  destruct Hc as (c & Hc). rewrite Hc in Hnv.
  destruct (coordinates_name_version_cases _ _ _ _ Hnv) as (Hsome & Hcut & Hnone).
  exists d, c. split; [reflexivity|]. split; [exact Hc|]. split; [exact Hsome|].
  split; [exact Hcut|]. split; [|exact Hnone].
  intros ->. apply (Hcut "flask" "3.1.2"); reflexivity.
Qed.

Lemma legacy_coordinates_split_witness :
  wf_verifier_output sample_legacy = true
  /\ exists r,
       parse_chainver_output sample_legacy = Ok r
       /\ map name (packages r) = [PStr "flask"; PStr "site-packages/werkzeug"]
       /\ map version (packages r) = ["3.1.2"; ""].
Proof.
  split; [reflexivity|].
  destruct (legacy_coordinates_split sample_legacy eq_refl)
    as (top & r & Htop & Hrun & Hall).
  exists r. split; [exact Hrun|].
  injection Htop as <-. specialize (Hall eq_refl).
  cbn in Hrun. injection Hrun as <-. split; reflexivity.
Defined.

(** C9.  In either shape a record that carries a URL is verified: a record
    that is not verified never carries one, whatever its details say. *)
Theorem rekor_url_implies_verified (chainver_data : pyval) (r : results) :
  parse_chainver_output chainver_data = Ok r ->
  Forall (fun p => rekor_url p <> None -> verified p = true) (packages r).
Proof.
  intros H. eapply Forall_impl; [|exact (packages_rekor_url _ _ H)].
  intros p Hp Hurl. cbv beta in Hp.
  destruct (rekor_url p) as [url|] eqn:E; [|now contradiction Hurl].
  eapply extract_rekor_url_gate. exact Hp.
Qed.

Lemma rekor_url_implies_verified_witness :
  parse_chainver_output unverified_with_url
  = Ok (mk_results 0 1
          [mk_package (PStr "click") "8.3.0" false (PStr rekor_details) (PStr "none") None]
          (PInt 0) (PInt 0) (PStr ""))
  /\ Forall (fun p => rekor_url p <> None -> verified p = true)
       [mk_package (PStr "click") "8.3.0" false (PStr rekor_details) (PStr "none") None].
Proof.
  split; [reflexivity|].
  exact (rekor_url_implies_verified unverified_with_url _ eq_refl).
Defined.

(** C10.  Whenever the normalizer returns, its counters agree with its
    list: [total_count] is the number of records, [verified_count] the
    number of verified records, and the second is at most the first. *)
Theorem normalizer_counts_consistent (chainver_data : pyval) (r : results) :
  parse_chainver_output chainver_data = Ok r ->
  total_count r = Z.of_nat (List.length (packages r))
  /\ verified_count r = Z.of_nat (List.length (filter verified (packages r)))
  /\ verified_count r <= total_count r.
Proof.
  intros H.
  destruct (parse_chainver_output_ok _ _ H)
    as (top & items & _ & Htc & Hvc & Hshape).
  assert (Hlen : List.length items = List.length (packages r)).
  { destruct Hshape as [(_ & _ & Hall)|(_ & _ & Hall)];
      eapply Forall2_length; exact Hall. }
  rewrite Htc, Hvc, Hlen. repeat split. apply count_verified_le.
Qed.

Lemma normalizer_counts_consistent_witness :
  let r := mk_results 1 2
             [mk_package (PStr "flask") "3.1.2" true
                (PStr "rekor.sigstore.dev logIndex: 42") (PStr "sigstore")
                (Some "https://search.sigstore.dev/?logIndex=42");
              mk_package (PStr "site-packages/werkzeug") "" false (PStr "")
                (PStr "none") None]
             (PInt 0) (PInt 0) (PStr "") in
  parse_chainver_output sample_legacy = Ok r
  /\ total_count r = Z.of_nat (List.length (packages r))
  /\ verified_count r = Z.of_nat (List.length (filter verified (packages r)))
  /\ verified_count r <= total_count r.
Proof.
  intros r. split; [reflexivity|].
  exact (normalizer_counts_consistent sample_legacy r eq_refl).
Defined.

(* ================================================================= *)
(** ** Claim about the archive inspector *)

(** C5, as the code has it.  For an archive whose members are [a/b.txt],
    [a/c/] and [d.txt] the tree has a directory [a] holding the leaf
    [b.txt] and the empty directory [c], and beside it the leaf [d.txt];
    [total_files] is 3 and [total_size] is the sum of the recorded sizes of
    all three members, the directory member included.  It is the size of
    [b.txt] plus the size of [d.txt] exactly when the directory member is
    recorded with size 0. *)
Theorem manifest_of_three_entries (store : wheel_store)
  (package_name package_version wheel_path : string) (others : list string)
  (sb cb sc cc sd cd : Z) :
  glob store (wheel_pattern package_name package_version) = wheel_path :: others ->
  open_zip store wheel_path
  = Ok [mk_zip_info "a/b.txt" sb cb; mk_zip_info "a/c/" sc cc; mk_zip_info "d.txt" sd cd] ->
  exists m,
    get_wheel_contents store package_name package_version = Ok (Contents m)
    /\ tree m
       = [("a", mk_node "dir" None None
                  (Some [("b.txt", mk_node "file" (Some sb) (Some "a/b.txt") None);
                         ("c", mk_node "dir" None None (Some []))]));
          ("d.txt", mk_node "file" (Some sd) (Some "d.txt") None)]
    /\ total_files m = 3
    /\ total_size m = sb + sc + sd
    /\ (total_size m = sb + sd <-> sc = 0).
Proof.
  intros Hglob Hzip. unfold get_wheel_contents. rewrite Hglob, Hzip.
  cbn. eexists. split; [reflexivity|]. cbn. repeat split; lia.
Qed.

Lemma manifest_of_three_entries_witness :
  glob (one_wheel_store three_members) (wheel_pattern "demo" "1.0")
  = ["/app/wheels/demo-1.0-py3-none-any.whl"]
  /\ open_zip (one_wheel_store three_members) "/app/wheels/demo-1.0-py3-none-any.whl"
     = Ok three_members
  /\ exists m,
       get_wheel_contents (one_wheel_store three_members) "demo" "1.0" = Ok (Contents m)
       /\ tree m
          = [("a", mk_node "dir" None None
                     (Some [("b.txt", mk_node "file" (Some 120) (Some "a/b.txt") None);
                            ("c", mk_node "dir" None None (Some []))]));
             ("d.txt", mk_node "file" (Some 30) (Some "d.txt") None)]
       /\ total_files m = 3
       /\ total_size m = 120 + 0 + 30
       /\ (total_size m = 120 + 30 <-> 0 = 0).
Proof.
  split; [reflexivity|]. split; [reflexivity|].
  exact (manifest_of_three_entries (one_wheel_store three_members) "demo" "1.0"
           "/app/wheels/demo-1.0-py3-none-any.whl" [] 120 80 0 0 30 30 eq_refl eq_refl).
Defined.

(** C5 as stated fails: the archive has the three members of the claim,
    the directory member being recorded with size 5.  The tree is the one
    of the claim and [total_files] is 3, but [total_size] is 155 and not
    the 150 that [b.txt] and [d.txt] add up to: the loop adds the size of
    every member and asks of none whether it is a directory. *)
Lemma directory_member_adds_its_size :
  map filename three_members_sized = ["a/b.txt"; "a/c/"; "d.txt"]
  /\ exists m,
       get_wheel_contents (one_wheel_store three_members_sized) "demo" "1.0"
       = Ok (Contents m)
       /\ tree m
          = [("a", mk_node "dir" None None
                     (Some [("b.txt", mk_node "file" (Some 100) (Some "a/b.txt") None);
                            ("c", mk_node "dir" None None (Some []))]));
             ("d.txt", mk_node "file" (Some 50) (Some "d.txt") None)]
       /\ total_files m = 3
       /\ total_size m = 155
       /\ total_size m <> 100 + 50.
Proof.
  split; [reflexivity|]. eexists. split; [reflexivity|].
  repeat split. discriminate.
Qed.

(* ================================================================= *)
(** ** Claim about the gated handlers *)

(** C6.  While [authenticated] is false, a request for a verification run,
    normal or verbose, is answered at once with status 401 and the
    "not authenticated" error; the world is left as it was, so no child
    process is started, nothing is queued and no log is written. *)
Theorem unauthenticated_run_is_refused
  (utf8_decode : string -> result string) (json_loads : string -> result pyval)
  (env : verifier_env) (w : world) :
  authenticated (auth_state w) = false ->
  chainver_api utf8_decode json_loads env w
  = (Ok (json_response (BodyError not_authenticated_msg) 401), w)
  /\ chainver_verbose_api utf8_decode env w
     = (Ok (json_response (BodyError not_authenticated_msg) 401), w)
  /\ filter started_process (trace (snd (chainver_api utf8_decode json_loads env w)))
     = filter started_process (trace w)
  /\ filter started_process (trace (snd (chainver_verbose_api utf8_decode env w)))
     = filter started_process (trace w).
Proof.
  intros H. unfold chainver_api, chainver_verbose_api. rewrite H. cbn [negb].
  repeat split.
Qed.

Lemma unauthenticated_run_is_refused_witness :
  authenticated (auth_state fresh_world) = false
  /\ chainver_api ref_utf8_decode ref_json_loads sample_run fresh_world
     = (Ok (json_response (BodyError not_authenticated_msg) 401), fresh_world)
  /\ chainver_verbose_api ref_utf8_decode sample_run fresh_world
     = (Ok (json_response (BodyError not_authenticated_msg) 401), fresh_world)
  /\ filter started_process
       (trace (snd (chainver_api ref_utf8_decode ref_json_loads sample_run fresh_world)))
     = filter started_process (trace fresh_world)
  /\ filter started_process
       (trace (snd (chainver_verbose_api ref_utf8_decode sample_run fresh_world)))
     = filter started_process (trace fresh_world).
Proof.
  split; [reflexivity|].
  exact (unauthenticated_run_is_refused ref_utf8_decode ref_json_loads
           sample_run fresh_world eq_refl).
Defined.

(** The gate is what keeps the processes from starting: the same request,
    once authenticated, starts the verifier and [date]. *)
Example authenticated_run_starts_processes :
  filter started_process
    (trace (snd (chainver_api ref_utf8_decode ref_json_loads sample_run signed_in_world)))
  = [EvExec ["chainver"; "-o"; "json"; "--detailed";
             "/app/wheels/click-8.3.0-py3-none-any.whl";
             "/app/wheels/flask-3.1.2-py3-none-any.whl"] None;
     EvExec ["date"] None]
  /\ exists resp, fst (chainver_api ref_utf8_decode ref_json_loads sample_run
                         signed_in_world) = Ok resp
                  /\ status resp = 200.
Proof. split; [reflexivity|]. eexists. split; reflexivity. Qed.

(* ================================================================= *)
(** ** Claim about the tag resolver *)

(** What the resolver gives back, read off its code.  An exception of class
    [Exception] from a step, and an output of [git rev-list] that is empty
    once stripped, give the original [object_id], provided the warning
    can be printed.  Any other output is returned stripped, whatever it
    is: exit codes are not read and the text is not checked to be a commit
    id.  What reaches the caller is an exception outside [Exception] from
    a step, or whatever the [print] of the warning raises. *)
Lemma resolve_tag_to_commit_outcome
  (utf8_decode : string -> result string) (env : git_env)
  (repo_url tag_name object_id : string) (w : world) :
  (forall e, steps_outcome utf8_decode env = Raise e -> is_Exception e = true ->
     git_print env = Ok tt ->
     fst (resolve_tag_to_commit utf8_decode env repo_url tag_name object_id w)
     = Ok object_id)
  /\ (forall e e', steps_outcome utf8_decode env = Raise e -> is_Exception e = true ->
        git_print env = Raise e' ->
        fst (resolve_tag_to_commit utf8_decode env repo_url tag_name object_id w)
        = Raise e')
  /\ (forall text, steps_outcome utf8_decode env = Ok text -> str_strip text = "" ->
        fst (resolve_tag_to_commit utf8_decode env repo_url tag_name object_id w)
        = Ok object_id)
  /\ (forall text, steps_outcome utf8_decode env = Ok text -> str_strip text <> "" ->
        fst (resolve_tag_to_commit utf8_decode env repo_url tag_name object_id w)
        = Ok (str_strip text))
  /\ (forall e, steps_outcome utf8_decode env = Raise e -> is_Exception e = false ->
        fst (resolve_tag_to_commit utf8_decode env repo_url tag_name object_id w)
        = Raise e).
Proof.
  unfold steps_outcome, resolve_tag_to_commit, git_steps, exec, mbind, lift, ret.
  destruct (git_mkdtemp env) as [dir|e0]; cbn [bind fst snd];
    [destruct (git_clone env) as [c|e0]; cbn [bind fst snd];
     [destruct (git_fetch env) as [f|e0]; cbn [bind fst snd];
      [destruct (git_rev_list env) as [out|e0]; cbn [bind fst snd];
       [destruct (utf8_decode (stdout out)) as [text|e0]; cbn [bind fst snd]|]|]|]|].
  1: { (* every step returned *)
    split; [intros e He; discriminate He|].
    split; [intros e e' He; discriminate He|].
    split; [intros t Ht Hs; injection Ht as <-; now rewrite Hs|].
    split.
    - intros t Ht Hs. injection Ht as <-.
      destruct (String.eqb_spec (str_strip text) ""); [contradiction | reflexivity].
    - intros e He. discriminate He. }
  (* a step raised [e0] *)
  all: split; [intros e He Hx Hp; injection He as <-; now rewrite Hx, Hp|].
  all: split; [intros e e' He Hx Hp; injection He as <-; now rewrite Hx, Hp|].
  all: split; [intros t Ht; discriminate Ht|].
  all: split; [intros t Ht; discriminate Ht|].
  all: intros e He Hx; injection He as <-; now rewrite Hx.
Qed.


(** The resolver at work: a tag that resolves; a clone that times out,
    where the object id is returned after the warning; the same on a
    standard output that refuses the warning, where the error of [print]
    reaches the caller; and a cancellation, which passes through.  In each
    case the temporary directory is removed. *)
Example resolve_tag_to_commit_runs :
  fst (resolve_tag_to_commit ref_utf8_decode git_success
         click_repo "8.3.0" click_tag_object fresh_world) = Ok click_commit
  /\ resolve_tag_to_commit ref_utf8_decode git_timeout
       click_repo "8.3.0" click_tag_object fresh_world
     = (Ok click_tag_object,
        mk_world (auth_state fresh_world) (chainver_logs fresh_world)
          [EvMkdtemp "git_resolve_";
           EvExec ["git"; "clone"; "--filter=blob:none"; "--no-checkout";
                   click_repo; "/tmp/git_resolve_k3"] None;
           EvWarn "8.3.0" TimeoutError;
           EvRmtree "/tmp/git_resolve_k3"])
  /\ resolve_tag_to_commit ref_utf8_decode git_mute
       click_repo "8.3.0" click_tag_object fresh_world
     = (Raise UnicodeEncodeError,
        mk_world (auth_state fresh_world) (chainver_logs fresh_world)
          [EvMkdtemp "git_resolve_";
           EvExec ["git"; "clone"; "--filter=blob:none"; "--no-checkout";
                   click_repo; "/tmp/git_resolve_k3"] None;
           EvRmtree "/tmp/git_resolve_k3"])
  /\ fst (resolve_tag_to_commit ref_utf8_decode
            (mk_git_env (Ok "/tmp/git_resolve_k3") (Raise CancelledError)
                        (quiet "") (quiet "") true (Ok tt))
            click_repo "8.3.0" click_tag_object fresh_world)
     = Raise CancelledError.
Proof. repeat split. Qed.

(* ================================================================= *)
(** ** Claim about the attestation decoder *)

Section Decoder.

Variable b64decode : string -> result string.
Variable utf8_decode : string -> result string.
Variable json_loads : string -> result pyval.

Lemma items_of_in (k : string) (d : list (string * pyval)) (x : pyval) :
  In x (items_of k d) ->
  field_or k (PList []) d = PList (items_of k d).
Proof.
  unfold items_of, field_or.
  destruct (alist_get k d) as [[]|]; simpl; try contradiction. reflexivity.
Qed.

(** An attestation that is decoded without error had its statement decoded
    without error. *)
Lemma parse_attestation_decodes (attestation info payload : pyval) :
  parse_attestation b64decode utf8_decode json_loads attestation = Ok info ->
  In payload (statement_of attestation) ->
  exists statement,
    decode_payload b64decode utf8_decode json_loads payload = Ok statement.
Proof.
  unfold parse_attestation, statement_of. intros H Hin.
  destruct attestation as [| | | | | |a]; try contradiction.
  destruct (alist_get "envelope" a) as [[| | | | | |env]|] eqn:Eenv; try contradiction.
  destruct (alist_get "statement" env) as [p|] eqn:Est; [|contradiction].
  destruct Hin as [<-|[]].
  inv_bind H. inv_bind H. rewrite dict_get_dict in E0. injection E0 as <-.
  inv_bind H. unfold field_or in E0. rewrite Eenv in E0.
  unfold decode_statement in E0. cbn [py_in bind py_getitem] in E0.
  rewrite Est in E0. cbn [bind] in E0.
  apply bind_ok in E0 as (statement & Hdec & _). exists statement. exact Hdec.
Qed.

Lemma parse_bundle_decodes (bundle info payload : pyval) :
  parse_bundle b64decode utf8_decode json_loads bundle = Ok info ->
  In payload (statements_of_bundle bundle) ->
  exists statement,
    decode_payload b64decode utf8_decode json_loads payload = Ok statement.
Proof.
  unfold parse_bundle, statements_of_bundle. intros H Hin.
  destruct bundle as [| | | | | |b]; try contradiction.
  apply in_flat_map in Hin as (attestation & Hatt & Hin).
  inv_bind H. inv_bind H. rewrite dict_get_dict in E0. injection E0 as <-.
  rewrite (items_of_in _ _ _ Hatt) in H. cbn [py_iter bind] in H.
  inv_bind H.
  destruct (for_each_ok_each _ _ _ _ E0 _ Hatt) as (s0 & s1 & Hstep).
  unfold append_attestation in Hstep. inv_bind Hstep.
  eapply parse_attestation_decodes; eassumption.
Qed.

(** A document that is decoded without error had every statement in it
    decoded without error. *)
Lemma parse_provenance_data_decodes (provenance_data r payload : pyval) :
  parse_provenance_data b64decode utf8_decode json_loads provenance_data = Ok r ->
  In payload (statements_of provenance_data) ->
  exists statement,
    decode_payload b64decode utf8_decode json_loads payload = Ok statement.
Proof.
  unfold parse_provenance_data, statements_of. intros H Hin.
  destruct provenance_data as [| | | | | |top]; try contradiction.
  apply in_flat_map in Hin as (bundle & Hb & Hin).
  inv_bind H. inv_bind H. rewrite dict_get_dict in E0. injection E0 as <-.
  rewrite (items_of_in _ _ _ Hb) in H. cbn [py_iter bind] in H.
  inv_bind H.
  destruct (for_each_ok_each _ _ _ _ E0 _ Hb) as (s0 & s1 & Hstep).
  unfold append_bundle in Hstep. inv_bind Hstep.
  eapply parse_bundle_decodes; eassumption.
Qed.

(** A loop over two lists one after the other. *)
Lemma for_each_app {A S : Type} (body : S -> A -> result S) (l1 l2 : list A) :
  forall st,
    for_each body (l1 ++ l2) st = (st' <- for_each body l1 st ;; for_each body l2 st').
Proof.
  induction l1 as [|x l1 IH]; intros st; cbn [app for_each bind]; [reflexivity|].
  destruct (body st x) as [st1|e]; cbn [bind]; [apply IH | reflexivity].
Qed.

(** The error of the statement that is reached is the error of the run. *)
Lemma reached_statement_raises (provenance_data payload : pyval) (e : pyexc) :
  statement_is_reached b64decode utf8_decode json_loads provenance_data payload ->
  decode_payload b64decode utf8_decode json_loads payload = Raise e ->
  parse_provenance_data b64decode utf8_decode json_loads provenance_data = Raise e.
Proof.
  intros (top & earlier_bundles & b & later_bundles & done & earlier & a & later
          & parsed & env & -> & Hbundles & Hdone & Hatts & Hparsed & Henv & Hst) Hbad.
  unfold parse_provenance_data. rewrite !dict_get_dict. cbn [bind].
  rewrite Hbundles. cbn [py_iter bind]. rewrite for_each_app, Hdone.
  cbn [bind for_each]. unfold append_bundle at 1, parse_bundle.
  rewrite !dict_get_dict. cbn [bind]. rewrite Hatts. cbn [py_iter bind].
  rewrite for_each_app, Hparsed. cbn [bind for_each].
  unfold append_attestation at 1, parse_attestation. rewrite !dict_get_dict.
  cbn [bind].
  assert (Hfield : field_or "envelope" (PDict []) a = PDict env)
    by (unfold field_or; now rewrite Henv).
  rewrite Hfield. unfold decode_statement. cbn [py_in py_getitem bind]. rewrite Hst. cbn [bind].
  now rewrite Hbad.
Qed.

(** C2, as the code has it.  When the base64 payload or the inner JSON
    statement of one attestation of the document cannot be decoded,
    [parse_provenance_data] raises and returns nothing: the failure of the
    one item ends the processing of the whole document, no attestation
    beside it is returned, nothing is skipped and nothing is counted.  The
    exception raised is the decoding error itself whenever the decoder gets
    as far as that statement, that is, whenever the bundles and
    attestations before it parse. *)
Theorem malformed_statement_aborts (provenance_data payload : pyval) (e : pyexc) :
  In payload (statements_of provenance_data) ->
  decode_payload b64decode utf8_decode json_loads payload = Raise e ->
  (exists e',
     parse_provenance_data b64decode utf8_decode json_loads provenance_data = Raise e')
  /\ (statement_is_reached b64decode utf8_decode json_loads provenance_data payload ->
      parse_provenance_data b64decode utf8_decode json_loads provenance_data = Raise e).
Proof.
  intros Hin Hbad. split.
  - destruct (parse_provenance_data b64decode utf8_decode json_loads provenance_data)
      as [r|e'] eqn:Hrun; [|exists e'; reflexivity].
    destruct (parse_provenance_data_decodes _ _ _ Hrun Hin) as [statement Hgood].
    rewrite Hgood in Hbad. discriminate Hbad.
  - intros Hreached. now apply reached_statement_raises with (payload := payload).
Qed.

End Decoder.

Lemma malformed_statement_aborts_witness :
  In (PStr bad_statement)
     (statements_of (bundle_of [attestation_with good_statement;
                                attestation_with bad_statement]))
  /\ decode_payload ref_b64decode ref_utf8_decode ref_json_loads (PStr bad_statement)
     = Raise BinasciiError
  /\ statement_is_reached ref_b64decode ref_utf8_decode ref_json_loads
       (bundle_of [attestation_with good_statement; attestation_with bad_statement])
       (PStr bad_statement)
  /\ parse_provenance_data ref_b64decode ref_utf8_decode ref_json_loads
       (bundle_of [attestation_with good_statement; attestation_with bad_statement])
     = Raise BinasciiError.
Proof.
  assert (Hreached : statement_is_reached ref_b64decode ref_utf8_decode ref_json_loads
                       (bundle_of [attestation_with good_statement;
                                   attestation_with bad_statement])
                       (PStr bad_statement)).
  { eexists _, [], _, [], [], [attestation_with good_statement], _, [], _, _.
    repeat split; reflexivity. }
  split; [right; left; reflexivity|]. split; [reflexivity|]. split; [exact Hreached|].
  apply (proj2 (malformed_statement_aborts ref_b64decode ref_utf8_decode ref_json_loads
                  (bundle_of [attestation_with good_statement;
                              attestation_with bad_statement])
                  (PStr bad_statement) BinasciiError
                  (or_intror (or_introl eq_refl)) eq_refl)).
  exact Hreached.
Defined.

(** A bundle that is no object, standing before the malformed statement,
    raises first: the statement is not reached, and the error of the run
    is that of the earlier item. *)
Example earlier_failure_comes_first :
  parse_provenance_data ref_b64decode ref_utf8_decode ref_json_loads
    (PDict [("attestation_bundles",
             PList [PStr "stray";
                    PDict [("attestations", PList [attestation_with bad_statement])]])])
  = Raise AttributeError.
Proof. reflexivity. Qed.

(** C2 as stated fails: of two attestations in a bundle the first decodes
    and the second is not base64; alone the first is returned, together
    with the second nothing is returned, and the result never has a count
    of skipped items. *)
Lemma one_bad_attestation_fails_the_bundle :
  decode_payload ref_b64decode ref_utf8_decode ref_json_loads (PStr good_statement)
  = Ok (PDict [("subject", PList [])])
  /\ decode_payload ref_b64decode ref_utf8_decode ref_json_loads (PStr bad_statement)
     = Raise BinasciiError
  /\ parse_provenance_data ref_b64decode ref_utf8_decode ref_json_loads
       (bundle_of [attestation_with good_statement])
     = Ok (PDict [("version", PInt 1);
                  ("bundles",
                   PList [PDict [("publisher", PDict [("kind", PStr "GitHub")]);
                                 ("attestations",
                                  PList [PDict [("version", PInt 1);
                                                ("subject", PList []);
                                                ("build_type", PStr "");
                                                ("external_parameters", PDict []);
                                                ("internal_parameters", PDict []);
                                                ("resolved_dependencies", PList []);
                                                ("builder", PDict []);
                                                ("metadata", PDict [])]])]])])
  /\ parse_provenance_data ref_b64decode ref_utf8_decode ref_json_loads
       (bundle_of [attestation_with good_statement; attestation_with bad_statement])
     = Raise BinasciiError
  /\ parse_provenance_data ref_b64decode ref_utf8_decode ref_json_loads
       (bundle_of [attestation_with bad_statement; attestation_with good_statement])
     = Raise BinasciiError.
Proof. repeat split. Qed.

(* ================================================================= *)
(** * Further properties of the code *)

(** ** The file tree *)

Lemma alist_get_set_same {V : Type} (k : string) (v : V) (d : list (string * V)) :
  alist_get k (alist_set k v d) = Some v.
Proof.
  induction d as [|[k' v'] d IH]; simpl.
  - now rewrite String.eqb_refl.
  - destruct (String.eqb k' k) eqn:E; simpl.
    + now rewrite String.eqb_refl.
    + now rewrite E.
Qed.

Lemma alist_get_set_other {V : Type} (k k' : string) (v : V) (d : list (string * V)) :
  k <> k' -> alist_get k' (alist_set k v d) = alist_get k' d.
Proof.
  intros Hne. induction d as [|[k0 v0] d IH]; simpl.
  - destruct (String.eqb_spec k k'); [contradiction | reflexivity].
  - destruct (String.eqb_spec k0 k) as [->|Hk]; simpl.
    + destruct (String.eqb_spec k k'); [contradiction | reflexivity].
    + destruct (String.eqb k0 k'); [reflexivity | exact IH].
Qed.

Lemma tree_lookup_nil (p : list string) : tree_lookup p [] = None.
Proof. destruct p as [|x [|y p]]; reflexivity. Qed.

Lemma insert_path_last (item : file_entry) (part : string) (t : file_tree) :
  insert_path item [part] t
  = if String.eqb part "" then t else alist_set part (leaf_node item) t.
Proof. reflexivity. Qed.

Lemma insert_path_step (item : file_entry) (part next : string)
  (rest : list string) (t : file_tree) :
  insert_path item (part :: next :: rest) t
  = match enter_dir part t with
    | mk_node ty s p ch =>
        alist_set part
          (mk_node ty s p
             (Some (insert_path item (next :: rest)
                      match ch with Some c => c | None => [] end))) t
    end.
Proof. reflexivity. Qed.

Lemma tree_lookup_step (part next : string) (rest : list string) (t : file_tree) :
  tree_lookup (part :: next :: rest) t
  = match alist_get part t with
    | Some (mk_node _ _ _ (Some below)) => tree_lookup (next :: rest) below
    | _ => None
    end.
Proof. reflexivity. Qed.

(** Insert, then look up: the entry just inserted is found at its path as
    the leaf made of it, whatever the tree held there before. *)
Lemma lookup_insert_path (item : file_entry) (parts : list string) :
  forall t, parts <> [] -> last parts "" <> "" ->
            tree_lookup parts (insert_path item parts t) = Some (leaf_node item).
Proof.
  induction parts as [|part rest IH]; intros t Hne Hlast; [contradiction|].
  destruct rest as [|next rest].
  - simpl in Hlast. rewrite insert_path_last.
    destruct (String.eqb_spec part ""); [contradiction|].
    apply alist_get_set_same.
  - rewrite insert_path_step. destruct (enter_dir part t) as [ty s p ch].
    rewrite tree_lookup_step, alist_get_set_same.
    apply IH; [discriminate | exact Hlast].
Qed.

(** An insertion leaves alone every path that is apart from its own. *)
Lemma lookup_insert_path_apart (item : file_entry) (q : list string) :
  forall p t, apart p q = true ->
              tree_lookup p (insert_path item q t) = tree_lookup p t.
Proof.
  induction q as [|part qrest IH]; intros p t Hap; [reflexivity|].
  unfold apart in Hap. apply andb_prop in Hap as [Hpq Hqp].
  destruct p as [|x prest]; [discriminate Hpq|].
  cbn [is_prefix] in Hpq, Hqp.
  destruct (String.eqb_spec x part) as [->|Hx].
  - rewrite String.eqb_refl in Hqp. cbn [andb] in Hpq, Hqp.
    destruct qrest as [|next qrest]; [destruct prest; discriminate|].
    destruct prest as [|y prest]; [discriminate|].
    rewrite insert_path_step. destruct (enter_dir part t) as [ty s pa ch] eqn:Hent.
    rewrite !tree_lookup_step, alist_get_set_same.
    rewrite IH by (unfold apart; now rewrite Hpq, Hqp).
    unfold enter_dir in Hent.
    destruct (alist_get part t) as [[ty' s' pa' [below|]]|];
      injection Hent as <- <- <- <-; try reflexivity; apply tree_lookup_nil.
  - assert (Hget : forall nd, alist_get x (alist_set part nd t) = alist_get x t).
    { intros nd. apply alist_get_set_other. congruence. }
    destruct qrest as [|next qrest].
    + rewrite insert_path_last. destruct (String.eqb part ""); [reflexivity|].
      destruct prest as [|y prest]; [apply Hget|].
      now rewrite !tree_lookup_step, Hget.
    + rewrite insert_path_step. destruct (enter_dir part t) as [ty s pa ch].
      destruct prest as [|y prest]; [apply Hget|].
      now rewrite !tree_lookup_step, Hget.
Qed.

Lemma build_file_tree_app (l1 l2 : list file_entry) :
  build_file_tree (l1 ++ l2)
  = fold_left (fun t item => insert_path item (parts_of item) t) l2 (build_file_tree l1).
Proof. unfold build_file_tree. apply fold_left_app. Qed.

Lemma lookup_fold_apart (p : list string) (later : list file_entry) :
  forall t, forallb (fun other => apart p (parts_of other)) later = true ->
            tree_lookup p (fold_left (fun t item => insert_path item (parts_of item) t)
                                     later t)
            = tree_lookup p t.
Proof.
  induction later as [|o later IH]; intros t H; [reflexivity|].
  simpl in H. apply andb_prop in H as [Ho Hl]. simpl.
  rewrite (IH _ Hl). now apply lookup_insert_path_apart.
Qed.

(** X1.  Every member of an archive whose name does not end in a slash is
    found in the tree at its path, as the leaf made of it, provided no later
    member has a path that leads through it or that it leads through. *)
Theorem build_file_tree_finds_member
  (earlier later : list file_entry) (item : file_entry) :
  last (parts_of item) "" <> "" ->
  forallb (fun other => apart (parts_of item) (parts_of other)) later = true ->
  tree_lookup (parts_of item) (build_file_tree (earlier ++ item :: later))
  = Some (leaf_node item).
Proof.
  intros Hlast Hlater.
  change (item :: later) with ([item] ++ later).
  rewrite app_assoc, build_file_tree_app, (lookup_fold_apart _ _ _ Hlater).
  rewrite build_file_tree_app. cbn [fold_left].
  apply lookup_insert_path; [|exact Hlast].
  unfold parts_of. destruct (path item) as [|c s]; [discriminate|].
  simpl. destruct (Ascii.eqb c "/"); [discriminate|].
  destruct (str_split "/" s); discriminate.
Qed.

Lemma build_file_tree_finds_member_witness :
  last (parts_of (entry "pkg/core/util.py" 200)) "" <> ""
  /\ forallb (fun other => apart (parts_of (entry "pkg/core/util.py" 200)) (parts_of other))
             [entry "pkg/data/" 0; entry "README" 5] = true
  /\ tree_lookup ["pkg"; "core"; "util.py"]
       (build_file_tree ([entry "pkg/__init__.py" 10]
                         ++ entry "pkg/core/util.py" 200
                            :: [entry "pkg/data/" 0; entry "README" 5]))
     = Some (mk_node "file" (Some 200) (Some "pkg/core/util.py") None).
Proof.
  split; [discriminate|]. split; [reflexivity|].
  exact (build_file_tree_finds_member [entry "pkg/__init__.py" 10]
           [entry "pkg/data/" 0; entry "README" 5] (entry "pkg/core/util.py" 200)
           ltac:(discriminate) eq_refl).
Defined.

(** Without the proviso the member can be lost: a later member named like
    one of its directories replaces that directory and all below it. *)
Example later_member_replaces_directory :
  tree_lookup ["pkg"; "core"; "util.py"]
    (build_file_tree [entry "pkg/core/util.py" 200; entry "pkg/core" 7]) = None
  /\ tree_lookup ["pkg"; "core"]
       (build_file_tree [entry "pkg/core/util.py" 200; entry "pkg/core" 7])
     = Some (mk_node "file" (Some 7) (Some "pkg/core") None).
Proof. split; reflexivity. Qed.

Lemma same_label_refl (n : tree_node) : same_label n n.
Proof. destruct n; simpl; auto. Qed.

Lemma enter_dir_label (part : string) (t : file_tree) (n : tree_node) :
  alist_get part t = Some n -> same_label n (enter_dir part t).
Proof.
  intros H. unfold enter_dir. rewrite H. destruct n as [ty s p [c|]]; simpl; auto.
Qed.

(** A member that names a directory removes nothing and relabels nothing. *)
Lemma directory_member_keeps_nodes (item : file_entry) (dirs : list string) :
  forall p t n,
    tree_lookup p t = Some n ->
    exists n', tree_lookup p (insert_path item (dirs ++ [""]) t) = Some n'
               /\ same_label n n'.
Proof.
  induction dirs as [|part ds IH]; intros p t n Hp.
  - exists n. split; [exact Hp | apply same_label_refl].
  - assert (Hstep : exists next rest, (ds ++ [""])%list = next :: rest).
    { destruct ds; simpl; eauto. }
    destruct Hstep as (next & rest & Hds).
    change ((part :: ds) ++ [""])%list with (part :: (ds ++ [""]))%list.
    rewrite Hds, insert_path_step, <- Hds.
    destruct (enter_dir part t) as [ty s pa ch] eqn:Hent.
    destruct p as [|x [|y prest]]; [discriminate Hp| |].
    + cbn [tree_lookup] in Hp |- *.
      destruct (String.eqb_spec x part) as [->|Hx].
      * rewrite alist_get_set_same. eexists. split; [reflexivity|].
        pose proof (enter_dir_label _ _ _ Hp) as Hl. rewrite Hent in Hl.
        destruct n; exact Hl.
      * rewrite alist_get_set_other by congruence. exists n.
        split; [exact Hp | apply same_label_refl].
    + rewrite tree_lookup_step in Hp |- *.
      destruct (String.eqb_spec x part) as [->|Hx].
      * rewrite alist_get_set_same.
        destruct (alist_get part t) as [[ty' s' pa' [below|]]|] eqn:Hget;
          try discriminate Hp.
        unfold enter_dir in Hent. rewrite Hget in Hent.
        injection Hent as <- <- <- <-. apply IH. exact Hp.
      * rewrite alist_get_set_other by congruence. exists n.
        split; [exact Hp | apply same_label_refl].
Qed.

Lemma directory_member_makes_directory (item : file_entry) (dirs : list string) :
  forall t, dirs <> [] ->
    exists n, tree_lookup dirs (insert_path item (dirs ++ [""]) t) = Some n
              /\ is_directory n.
Proof.
  induction dirs as [|part ds IH]; intros t Hne; [contradiction|].
  assert (Hstep : exists next rest, (ds ++ [""])%list = next :: rest).
  { destruct ds; simpl; eauto. }
  destruct Hstep as (next & rest & Hds).
  change ((part :: ds) ++ [""])%list with (part :: (ds ++ [""]))%list.
  rewrite Hds, insert_path_step, <- Hds.
  destruct (enter_dir part t) as [ty s pa ch] eqn:Hent.
  destruct ds as [|d ds].
  - cbn [tree_lookup]. rewrite alist_get_set_same. eexists. split; [reflexivity|exact I].
  - rewrite tree_lookup_step, alist_get_set_same. apply IH. discriminate.
Qed.

(** X2.  A member whose name ends in a slash puts a directory node at its
    path, and costs nothing: every node that the tree had is still found
    at its path, with its type, size and path as before. *)
Theorem directory_member_is_harmless
  (item : file_entry) (dirs : list string) (t : file_tree) :
  parts_of item = (dirs ++ [""])%list ->
  dirs <> [] ->
  (exists n, tree_lookup dirs (insert_path item (parts_of item) t) = Some n
             /\ is_directory n)
  /\ forall p n, tree_lookup p t = Some n ->
       exists n', tree_lookup p (insert_path item (parts_of item) t) = Some n'
                  /\ same_label n n'.
Proof.
  intros -> Hne. split.
  - now apply directory_member_makes_directory.
  - intros p n. apply directory_member_keeps_nodes.
Qed.

Lemma directory_member_is_harmless_witness :
  parts_of (entry "pkg/core/" 0) = (["pkg"; "core"] ++ [""])%list
  /\ ["pkg"; "core"] <> []
  /\ (exists n,
        tree_lookup ["pkg"; "core"]
          (insert_path (entry "pkg/core/" 0) (parts_of (entry "pkg/core/" 0))
             (build_file_tree [entry "pkg/core/util.py" 200])) = Some n
        /\ is_directory n)
  /\ forall p n,
       tree_lookup p (build_file_tree [entry "pkg/core/util.py" 200]) = Some n ->
       exists n',
         tree_lookup p
           (insert_path (entry "pkg/core/" 0) (parts_of (entry "pkg/core/" 0))
              (build_file_tree [entry "pkg/core/util.py" 200])) = Some n'
         /\ same_label n n'.
Proof.
  split; [reflexivity|]. split; [discriminate|].
  exact (directory_member_is_harmless (entry "pkg/core/" 0) ["pkg"; "core"]
           (build_file_tree [entry "pkg/core/util.py" 200]) eq_refl
           ltac:(discriminate)).
Defined.

(** ** The archive inspector *)

Lemma getinfo_some (nm : string) (members : list zip_info) (info : zip_info) :
  getinfo nm members = Some info -> In info members /\ filename info = nm.
Proof.
  induction members as [|m members IH]; simpl; [discriminate|].
  destruct (getinfo nm members) as [later|].
  - intros H. injection H as ->. destruct (IH eq_refl) as [Hin Hfn].
    split; [now right | exact Hfn].
  - destruct (String.eqb_spec (filename m) nm) as [Hfn|]; [|discriminate].
    intros H. injection H as <-. split; [now left | exact Hfn].
Qed.

Lemma getinfo_none (nm : string) (members : list zip_info) :
  getinfo nm members = None -> ~ In nm (map filename members).
Proof.
  induction members as [|m members IH]; simpl; [intros _ []|].
  destruct (getinfo nm members) as [later|]; [discriminate|].
  destruct (String.eqb_spec (filename m) nm) as [|Hne]; [discriminate|].
  intros _ [H|H]; [contradiction | now apply IH].
Qed.

(** [getinfo] knows every name that [namelist] gives. *)
Lemma getinfo_found (nm : string) (members : list zip_info) :
  In nm (map filename members) ->
  exists info, getinfo nm members = Some info /\ In info members /\ filename info = nm.
Proof.
  intros Hin. destruct (getinfo nm members) as [info|] eqn:Hget.
  - exists info. split; [reflexivity | now apply getinfo_some].
  - now apply getinfo_none in Hget.
Qed.

Lemma sum_sizes_app (l1 l2 : list file_entry) :
  sum_sizes (l1 ++ l2) = sum_sizes l1 + sum_sizes l2.
Proof.
  induction l1 as [|f l1 IH]; simpl; [reflexivity|]. unfold sum_sizes in *. simpl.
  rewrite IH. lia.
Qed.

(** The loop over the names: one entry per name, in order, each made of the
    archive's record for that name. *)
Lemma collect_file_info_ok (members : list zip_info) (names : list string) :
  forall acc total,
    (forall nm, In nm names -> In nm (map filename members)) ->
    exists fresh,
      collect_file_info members names acc total
      = Ok (acc ++ fresh, total + sum_sizes fresh)
      /\ map path fresh = names
      /\ Forall (fun f => is_dir f = endswith "/" (path f)
                          /\ exists info, In info members
                                          /\ filename info = path f
                                          /\ size f = file_size info
                                          /\ compressed_size f = compress_size info)
                fresh.
Proof.
  induction names as [|nm names IH]; intros acc total Hin; simpl.
  - exists []. rewrite app_nil_r. repeat split; [f_equal; f_equal; simpl; lia | constructor].
  - destruct (getinfo_found nm members (Hin nm (or_introl eq_refl)))
      as (info & Hget & Hmem & Hfn).
    rewrite Hget.
    destruct (IH (acc ++ [mk_file_entry nm (file_size info) (compress_size info)
                                        (endswith "/" nm)])
                 (total + file_size info)
                 (fun n Hn => Hin n (or_intror Hn)))
      as (fresh & Hrun & Hnames & Hall).
    exists (mk_file_entry nm (file_size info) (compress_size info) (endswith "/" nm)
            :: fresh).
    rewrite Hrun. repeat split.
    + f_equal. f_equal; [now rewrite <- app_assoc|]. unfold sum_sizes. simpl.
      fold (sum_sizes fresh). lia.
    + simpl. now rewrite Hnames.
    + constructor; [|exact Hall]. simpl. split; [reflexivity|].
      exists info. repeat split; [exact Hmem | exact Hfn].
Qed.

(** X3.  An archive that opens always gives a manifest, and the manifest
    adds up: one entry per member, in the order and under the names of the
    archive; [total_files] is their number, [total_size] the sum of their
    sizes; an entry is a directory exactly when its name ends in a slash;
    the tree is built from these entries. *)
Theorem manifest_adds_up (store : wheel_store)
  (package_name package_version wheel_path : string) (others : list string)
  (members : list zip_info) :
  glob store (wheel_pattern package_name package_version) = wheel_path :: others ->
  open_zip store wheel_path = Ok members ->
  exists m,
    get_wheel_contents store package_name package_version = Ok (Contents m)
    /\ wheel_file m = path_name wheel_path
    /\ map path (files m) = map filename members
    /\ total_files m = Z.of_nat (List.length (files m))
    /\ total_size m = sum_sizes (files m)
    /\ Forall (fun f => is_dir f = endswith "/" (path f)) (files m)
    /\ tree m = build_file_tree (files m).
Proof.
  intros Hglob Hzip. unfold get_wheel_contents. rewrite Hglob, Hzip. cbn [bind].
  destruct (collect_file_info_ok members (map filename members) [] 0 (fun _ H => H))
    as (fresh & Hrun & Hnames & Hall).
  rewrite Hrun. cbn [bind fst snd app]. eexists. split; [reflexivity|].
  cbn [wheel_file files total_files total_size tree]. repeat split.
  - exact Hnames.
  - now rewrite <- Hnames, !length_map.
  - eapply Forall_impl; [|exact Hall]. intros f [Hd _]. exact Hd.
Qed.

Lemma manifest_adds_up_witness :
  glob (one_wheel_store pkg_members) (wheel_pattern "demo" "1.0")
  = ["/app/wheels/demo-1.0-py3-none-any.whl"]
  /\ open_zip (one_wheel_store pkg_members) "/app/wheels/demo-1.0-py3-none-any.whl"
     = Ok pkg_members
  /\ exists m,
       get_wheel_contents (one_wheel_store pkg_members) "demo" "1.0" = Ok (Contents m)
       /\ wheel_file m = path_name "/app/wheels/demo-1.0-py3-none-any.whl"
       /\ map path (files m) = map filename pkg_members
       /\ total_files m = Z.of_nat (List.length (files m))
       /\ total_size m = sum_sizes (files m)
       /\ Forall (fun f => is_dir f = endswith "/" (path f)) (files m)
       /\ tree m = build_file_tree (files m).
Proof.
  split; [reflexivity|]. split; [reflexivity|].
  exact (manifest_adds_up (one_wheel_store pkg_members) "demo" "1.0"
           "/app/wheels/demo-1.0-py3-none-any.whl" [] pkg_members eq_refl eq_refl).
Defined.

(** X4.  How the inspector fails: with no matching wheel it answers "not
    found" and opens nothing; when the archive does not open, the exception
    becomes the error of the answer; and no exception of class [Exception]
    ever leaves it. *)
Theorem get_wheel_contents_failures (store : wheel_store)
  (package_name package_version : string) :
  (glob store (wheel_pattern package_name package_version) = [] ->
   get_wheel_contents store package_name package_version
   = Ok (ContentsNotFound package_name package_version))
  /\ (forall wheel_path others e,
        glob store (wheel_pattern package_name package_version) = wheel_path :: others ->
        open_zip store wheel_path = Raise e -> is_Exception e = true ->
        get_wheel_contents store package_name package_version = Ok (ContentsError e))
  /\ (forall e, get_wheel_contents store package_name package_version = Raise e ->
                is_Exception e = false).
Proof.
  unfold get_wheel_contents. repeat split.
  - intros ->. reflexivity.
  - intros wheel_path others e -> -> He. cbn [bind]. now rewrite He.
  - intros e.
    destruct (glob store (wheel_pattern package_name package_version))
      as [|wheel_path others]; [discriminate|].
    destruct (open_zip store wheel_path) as [members|e0]; cbn [bind].
    + destruct (collect_file_info members (map filename members) [] 0) as [info|e1];
        cbn [bind]; [discriminate|].
      destruct (is_Exception e1) eqn:He1; [discriminate|].
      intros H; injection H as <-. exact He1.
    + destruct (is_Exception e0) eqn:He0; [discriminate|].
      intros H; injection H as <-. exact He0.
Qed.

Example get_wheel_contents_failures_run :
  get_wheel_contents empty_store "demo" "1.0" = Ok (ContentsNotFound "demo" "1.0")
  /\ get_wheel_contents broken_store "demo" "1.0" = Ok (ContentsError BadZipFile).
Proof. split; reflexivity. Qed.

(** ** The normalizer *)

Lemma str_app_empty (a : string) : (a ++ "")%string = a.
Proof. induction a as [|c a IH]; simpl; [reflexivity | now rewrite IH]. Qed.

Lemma str_length_app (a b : string) :
  String.length (a ++ b) = (String.length a + String.length b)%nat.
Proof. induction a as [|c a IH]; simpl; [reflexivity | now rewrite IH]. Qed.

Lemma substring_head (a b : string) : substring 0 (String.length a) (a ++ b) = a.
Proof.
  induction a as [|c a IH]; simpl.
  - destruct b; reflexivity.
  - now rewrite IH.
Qed.

Lemma str_rev_onto_app (a b acc : string) :
  str_rev_onto (a ++ b) acc = str_rev_onto b (str_rev_onto a acc).
Proof. revert acc. induction a as [|c a IH]; intros acc; simpl; [reflexivity | apply IH]. Qed.

Lemma str_rev_onto_acc (a acc : string) :
  str_rev_onto a acc = (str_rev_onto a "" ++ acc)%string.
Proof.
  revert acc. induction a as [|c a IH]; intros acc; simpl; [reflexivity|].
  rewrite (IH (String c acc)), (IH (String c "")), str_app_assoc. reflexivity.
Qed.

Lemma endswith_app (stem suf : string) : endswith suf (stem ++ suf) = true.
Proof.
  unfold endswith, startswith, str_rev.
  rewrite str_rev_onto_app, (str_rev_onto_acc suf (str_rev_onto stem "")).
  now rewrite (proj2 (strip_prefix_app _ _ (str_rev_onto stem "")) eq_refl).
Qed.

Lemma drop_last_app (stem suf : string) :
  drop_last (String.length suf) (stem ++ suf) = stem.
Proof.
  unfold drop_last. rewrite str_length_app.
  replace (String.length stem + String.length suf - String.length suf)%nat
    with (String.length stem) by lia.
  apply substring_head.
Qed.

Lemma str_split_no_dash (a : string) :
  no_dash a = true -> str_split "-" a = [a].
Proof.
  induction a as [|c a IH]; [reflexivity|].
  unfold no_dash. cbn [str_forallb str_split]. intros H.
  apply andb_prop in H as [Hc Ha].
  destruct (Ascii.eqb c "-"); [discriminate|]. fold (no_dash a) in Ha.
  now rewrite (IH Ha).
Qed.

Lemma str_split_at_dash (a r : string) :
  no_dash a = true -> str_split "-" (a ++ String "-" r) = a :: str_split "-" r.
Proof.
  induction a as [|c a IH]; [reflexivity|].
  unfold no_dash. cbn [str_forallb str_split String.append]. intros H.
  apply andb_prop in H as [Hc Ha].
  destruct (Ascii.eqb c "-"); [discriminate|]. fold (no_dash a) in Ha.
  now rewrite (IH Ha).
Qed.

(** X5.  Name and version from a wheel file name.  A name [a-b.whl] or
    [a-b-more.whl], with no hyphen in [a] or [b], gives name [a] and
    version [b].  A name without hyphen keeps its suffix: [a.whl] gives the
    name [a.whl].  A name that does not end in [.whl] is taken whole, and
    in these two cases the version is empty. *)
Theorem wheel_name_version_cases :
  (forall a b more,
     no_dash a = true -> no_dash b = true ->
     (more = "" \/ exists r, more = String "-" r) ->
     wheel_name_version (a ++ "-" ++ b ++ more ++ ".whl") = (a, b))
  /\ (forall a, no_dash a = true ->
                wheel_name_version (a ++ ".whl") = ((a ++ ".whl")%string, ""))
  /\ (forall filename, endswith ".whl" filename = false ->
                       wheel_name_version filename = (filename, "")).
Proof.
  split; [|split].
  - intros a b more Ha Hb Hmore. unfold wheel_name_version.
    replace (a ++ "-" ++ b ++ more ++ ".whl")%string
      with ((a ++ "-" ++ b ++ more) ++ ".whl")%string
      by now rewrite !str_app_assoc.
    rewrite endswith_app. change 4%nat with (String.length ".whl").
    rewrite drop_last_app.
    change (a ++ "-" ++ b ++ more)%string with (a ++ String "-" (b ++ more))%string.
    rewrite (str_split_at_dash _ _ Ha).
    destruct Hmore as [->|[r ->]].
    + rewrite str_app_empty, (str_split_no_dash _ Hb). reflexivity.
    + rewrite (str_split_at_dash _ _ Hb). reflexivity.
  - intros a Ha. unfold wheel_name_version.
    rewrite endswith_app. change 4%nat with (String.length ".whl").
    rewrite drop_last_app, (str_split_no_dash _ Ha). reflexivity.
  - intros filename H. unfold wheel_name_version. now rewrite H.
Qed.

Lemma wheel_name_version_cases_witness :
  no_dash "aiohttp" = true /\ no_dash "3.13.0" = true
  /\ wheel_name_version ("aiohttp" ++ "-" ++ "3.13.0"
                         ++ "-cp312-cp312-linux_x86_64" ++ ".whl")
     = ("aiohttp", "3.13.0").
Proof.
  split; [reflexivity|]. split; [reflexivity|].
  exact (proj1 wheel_name_version_cases "aiohttp" "3.13.0" "-cp312-cp312-linux_x86_64"
           eq_refl eq_refl (or_intror (ex_intro _ "cp312-cp312-linux_x86_64" eq_refl))).
Defined.

Lemma Forall2_in_left {A B : Type} (R : A -> B -> Prop) (l : list A) (ps : list B)
  (a : A) :
  Forall2 R l ps -> In a l -> exists b, In b ps /\ R a b.
Proof.
  induction 1 as [|x y l ps Hxy _ IH]; simpl; [contradiction|].
  intros [<-|Hin].
  - exists y. split; [now left | exact Hxy].
  - destruct (IH Hin) as (b & Hb & Hab). exists b. split; [now right | exact Hab].
Qed.

(** What the loops visit, against the arrays of the input. *)
Lemma visited_results (top : list (string * pyval)) (items : list pyval) :
  truthy (field_or "results" (PList []) top) = true ->
  py_iter (field_or "results" (PList []) top) = Ok items ->
  Forall (fun e => exists p, parse_artifact e = Ok p) items ->
  items = items_of "results" top /\ items <> [].
Proof.
  unfold field_or, items_of.
  destruct (alist_get "results" top) as [[| | | |s|l|d]|]; simpl; try discriminate.
  - destruct s as [|c s]; [discriminate|]. intros _ H Hall. injection H as <-.
    inversion Hall as [|? ? [p Hp] _]. discriminate Hp.
  - intros Ht H _. injection H as <-. split; [reflexivity|].
    destruct l; [discriminate Ht | discriminate].
  - destruct d as [|[k v] d]; [discriminate|]. intros _ H Hall. injection H as <-.
    inversion Hall as [|? ? [p Hp] _]. discriminate Hp.
Qed.

Lemma visited_nested (top : list (string * pyval)) (items : list pyval) :
  py_iter (field_or "nestedResults" (PList []) top) = Ok items ->
  Forall (fun e => exists p, parse_nested e = Ok p) items ->
  items = items_of "nestedResults" top.
Proof.
  unfold field_or, items_of.
  destruct (alist_get "nestedResults" top) as [[| | | |s|l|d]|]; simpl; try discriminate.
  - destruct s as [|c s]; [intros H _; now injection H|].
    intros H Hall. injection H as <-.
    inversion Hall as [|? ? [p Hp] _]. discriminate Hp.
  - intros H _. now injection H.
  - destruct d as [|[k v] d]; [intros H _; now injection H|].
    intros H Hall. injection H as <-.
    inversion Hall as [|? ? [p Hp] _]. discriminate Hp.
  - intros H _. now injection H.
Qed.

Lemma falsy_results_items (top : list (string * pyval)) :
  truthy (field_or "results" (PList []) top) = false -> items_of "results" top = [].
Proof.
  unfold field_or, items_of.
  destruct (alist_get "results" top) as [[| | | | |l|]|]; try reflexivity.
  destruct l; [reflexivity | discriminate].
Qed.

Lemma Forall2_left_ok {A B : Type} (f : A -> result B) (l : list A) (ps : list B) :
  Forall2 (fun e p => f e = Ok p) l ps -> Forall (fun e => exists p, f e = Ok p) l.
Proof. induction 1; constructor; eauto. Qed.

(** A run that returns has parsed every entry of the array it reads. *)
Lemma returning_run_parsed_all (top : list (string * pyval)) (r : results) :
  parse_chainver_output (PDict top) = Ok r ->
  (items_of "results" top <> []
   /\ Forall2 (fun e p => parse_artifact e = Ok p) (items_of "results" top) (packages r))
  \/ (items_of "results" top = []
      /\ Forall2 (fun e p => parse_nested e = Ok p)
                 (items_of "nestedResults" top) (packages r)).
Proof.
  intros H.
  destruct (parse_chainver_output_ok _ _ H)
    as (top' & items & Etop & _ & _ & [(Ht & Hi & Hall)|(Ht & Hi & Hall)]);
    injection Etop as <-.
  - destruct (visited_results _ _ Ht Hi (Forall2_left_ok _ _ _ Hall)) as [<- Hne].
    left. split; assumption.
  - rewrite <- (visited_nested _ _ Hi (Forall2_left_ok _ _ _ Hall)).
    right. split; [now apply falsy_results_items | assumption].
Qed.

(** X6.  All or nothing: the normalizer never returns a partial list.  One
    entry of [results] that cannot be parsed (it is no object, or its
    artifact is no text) makes the whole call raise; so does one entry of
    [nestedResults] when that is the array read. *)
Theorem one_bad_entry_fails_the_run (top : list (string * pyval)) (e : pyval)
  (err : pyexc) :
  (In e (items_of "results" top) -> parse_artifact e = Raise err ->
   exists err', parse_chainver_output (PDict top) = Raise err')
  /\ (items_of "results" top = [] ->
      In e (items_of "nestedResults" top) -> parse_nested e = Raise err ->
      exists err', parse_chainver_output (PDict top) = Raise err').
Proof.
  split.
  - intros Hin Hbad.
    destruct (parse_chainver_output (PDict top)) as [r|err'] eqn:Hrun; [|eauto].
    destruct (returning_run_parsed_all _ _ Hrun) as [[_ Hall]|[Hnone _]].
    + destruct (Forall2_in_left _ _ _ _ Hall Hin) as (p & _ & Hp). congruence.
    + rewrite Hnone in Hin. contradiction.
  - intros Hnone Hin Hbad.
    destruct (parse_chainver_output (PDict top)) as [r|err'] eqn:Hrun; [|eauto].
    destruct (returning_run_parsed_all _ _ Hrun) as [[Hne _]|[_ Hall]].
    + contradiction.
    + destruct (Forall2_in_left _ _ _ _ Hall Hin) as (p & _ & Hp). congruence.
Qed.

Lemma one_bad_entry_fails_the_run_witness :
  In (PStr "click-8.3.0-py3-none-any.whl") (items_of "results" run_with_stray_entry)
  /\ parse_artifact (PStr "click-8.3.0-py3-none-any.whl") = Raise AttributeError
  /\ exists err', parse_chainver_output (PDict run_with_stray_entry) = Raise err'.
Proof.
  split; [right; left; reflexivity|]. split; [reflexivity|].
  exact (proj1 (one_bad_entry_fails_the_run run_with_stray_entry
                  (PStr "click-8.3.0-py3-none-any.whl") AttributeError)
               (or_intror (or_introl eq_refl)) eq_refl).
Defined.

(** Input that is no object at all raises as well. *)
Example not_an_object_raises :
  parse_chainver_output (PList []) = Raise AttributeError
  /\ parse_chainver_output PNone = Raise AttributeError
  /\ parse_chainver_output (PDict [("results", PInt 3)]) = Raise TypeError
  /\ parse_chainver_output (PDict [("nestedResults", PNone)]) = Raise TypeError.
Proof. repeat split. Qed.

Lemma for_each_loop_body_keeps (parse_entry : pyval -> result package) (l : list pyval) :
  forall res res',
    for_each (loop_body parse_entry) l res = Ok res' ->
    overall_coverage res' = overall_coverage res
    /\ artifact_coverage res' = artifact_coverage res
    /\ run_details res' = run_details res.
Proof.
  induction l as [|e l IH]; simpl; intros res res' H.
  - injection H as <-. repeat split.
  - inv_bind H. unfold loop_body in E. inv_bind E. injection E as <-.
    destruct (IH _ _ H) as (Ho & Ha & Hd). rewrite Ho, Ha, Hd. repeat split.
Qed.

(** X7.  The two top-level coverage numbers and the details of a run are
    read off the input and are the same in both shapes: the per-artifact
    coverage, 0 when missing; the overall coverage, the per-artifact one
    standing in when it is missing; the details, empty when missing. *)
Theorem top_level_coverage (top : list (string * pyval)) (r : results) :
  parse_chainver_output (PDict top) = Ok r ->
  artifact_coverage r = field_or "artifactVerificationCoverage" (PInt 0) top
  /\ overall_coverage r
     = field_or "overallVerificationCoverage"
         (field_or "artifactVerificationCoverage" (PInt 0) top) top
  /\ run_details r = field_or "details" (PStr "") top.
Proof.
  unfold parse_chainver_output. intros H.
  repeat (rewrite dict_get_dict in H; cbn [bind] in H).
  destruct (truthy (field_or "results" (PList []) top)).
  - inv_bind H. inv_bind H. apply for_each_loop_body_keeps in H as (Ho & Ha & Hd).
    rewrite Ho, Ha, Hd. repeat split.
  - repeat (rewrite dict_get_dict in H; cbn [bind] in H).
    inv_bind H. inv_bind H. apply for_each_loop_body_keeps in H as (Ho & Ha & Hd).
    rewrite Ho, Ha, Hd. repeat split.
Qed.

Lemma top_level_coverage_witness :
  let top := [("artifactVerificationCoverage", PInt 75);
              ("results",
               PList [sample_artifact "/app/wheels/flask-3.1.2-py3-none-any.whl" 100
                                      rekor_details])] in
  (exists r, parse_chainver_output (PDict top) = Ok r)
  /\ forall r, parse_chainver_output (PDict top) = Ok r ->
       artifact_coverage r = PInt 75 /\ overall_coverage r = PInt 75
       /\ run_details r = PStr "".
Proof.
  intros top. split; [eexists; reflexivity|].
  intros r Hr. exact (top_level_coverage top r Hr).
Defined.

(** X8.  The URL of a record is never made up.  It is either a piece of
    the details, as it stands there: the address of the log followed by
    digits; or the search address followed by digits that stand in the
    details right after [logIndex] and a run of separators ([=], [:] and
    white space), the details then holding no address of the log.  In both
    cases there is at least one digit and the digits are all that stand
    there: what follows them is no digit. *)
Theorem rekor_url_comes_from_details (chainver_data : pyval) (r : results) :
  parse_chainver_output chainver_data = Ok r ->
  Forall (fun p =>
    forall url, rekor_url p = Some url ->
      exists s before after,
        details p = PStr s
        /\ (forall c rest, after = String c rest -> is_digit c = false)
        /\ ((exists ds,
               s = (before ++ url ++ after)%string
               /\ url = (rekor_entry_prefix ++ ds)%string
               /\ ds <> "" /\ str_forallb is_digit ds = true)
            \/ exists seps idx,
                 url = (search_url_prefix ++ idx)%string
                 /\ s = (before ++ "logIndex" ++ seps ++ idx ++ after)%string
                 /\ seps <> "" /\ str_forallb is_index_sep seps = true
                 /\ idx <> "" /\ str_forallb is_digit idx = true
                 /\ re_search match_rekor_url s = None))
    (packages r).
Proof.
  intros H. eapply Forall_impl; [|exact (packages_rekor_url _ _ H)].
  intros p Hp url Hurl. cbv beta in Hp. rewrite Hurl in Hp.
  unfold extract_rekor_url in Hp.
  destruct (verified p); [|discriminate Hp].
  inv_bind Hp. destruct v; [|discriminate Hp].
  destruct (details p) as [| | | |s| |]; try discriminate Hp.
  destruct (re_search match_rekor_url s) as [u|] eqn:Hfull.
  - assert (u = url) by congruence. subst u.
    destruct (re_search_some _ _ _ Hfull) as (before & after & Hs & Hm & _).
    destruct (match_rekor_url_some _ _ Hm) as (ds & rest & Ha & Hu & Hne & Hd & Hend).
    exists s, before, rest. split; [reflexivity|]. split; [exact Hend|]. left.
    exists ds. repeat split; try assumption. now rewrite Hs, Ha.
  - destruct (re_search match_log_index s) as [idx|] eqn:Hidx; [|discriminate Hp].
    assert (Hu : url = (search_url_prefix ++ idx)%string) by congruence.
    destruct (re_search_some _ _ _ Hidx) as (before & after & Hs & Hm & _).
    destruct (match_log_index_some _ _ Hm)
      as (seps & rest & Ha & Hsne & Hseps & Hine & Hd & Hend).
    exists s, before, rest. split; [reflexivity|]. split; [exact Hend|]. right.
    exists seps, idx. repeat split; try assumption. now rewrite Hs, Ha.
Qed.

Lemma rekor_url_comes_from_details_witness :
  let r := mk_results 1 2
             [mk_package (PStr "flask") "3.1.2" true
                (PStr "rekor.sigstore.dev logIndex: 42") (PStr "sigstore")
                (Some "https://search.sigstore.dev/?logIndex=42");
              mk_package (PStr "site-packages/werkzeug") "" false (PStr "")
                (PStr "none") None]
             (PInt 0) (PInt 0) (PStr "") in
  parse_chainver_output sample_legacy = Ok r
  /\ Forall (fun p =>
       forall url, rekor_url p = Some url ->
         exists s before after,
           details p = PStr s
           /\ (forall c rest, after = String c rest -> is_digit c = false)
           /\ ((exists ds,
                  s = (before ++ url ++ after)%string
                  /\ url = (rekor_entry_prefix ++ ds)%string
                  /\ ds <> "" /\ str_forallb is_digit ds = true)
               \/ exists seps idx,
                    url = (search_url_prefix ++ idx)%string
                    /\ s = (before ++ "logIndex" ++ seps ++ idx ++ after)%string
                    /\ seps <> "" /\ str_forallb is_index_sep seps = true
                    /\ idx <> "" /\ str_forallb is_digit idx = true
                    /\ re_search match_rekor_url s = None))
       (packages r).
Proof.
  intros r. split; [reflexivity|].
  exact (rekor_url_comes_from_details sample_legacy r eq_refl).
Defined.

(** Digits that stand after [logIndex] and something else than separators
    are not taken: the record of this verified entry has no URL. *)
Example index_after_other_text_is_not_taken :
  extract_rekor_url true (PStr "rekor.sigstore.dev logIndex=abc 42") = Ok None.
Proof. reflexivity. Qed.

(** ** The tag resolver *)

Lemma trace_log_event (ev : event) (w : world) :
  trace (log_event ev w) = trace w ++ [ev].
Proof. reflexivity. Qed.

(** X9.  The temporary directory never outlives the call.  Once it has been
    made, and as long as it still exists at the end, removing it is the last
    thing the resolver does, whether it returns the commit, falls back to
    the object id, is cancelled, or fails to print its warning.  The
    authentication state and the logs are not touched. *)
Theorem temp_dir_always_removed
  (utf8_decode : string -> result string) (env : git_env)
  (repo_url tag_name object_id temp_dir : string) (w : world) :
  git_mkdtemp env = Ok temp_dir -> temp_dir <> "" -> git_dir_exists env = true ->
  let w' := snd (resolve_tag_to_commit utf8_decode env repo_url tag_name object_id w) in
  (exists done, trace w' = trace w ++ done ++ [EvRmtree temp_dir])
  /\ auth_state w' = auth_state w
  /\ chainver_logs w' = chainver_logs w.
Proof.
  intros Hdir Hne Hex. unfold resolve_tag_to_commit, cleanup. rewrite Hdir, Hex.
  destruct (String.eqb_spec temp_dir ""); [contradiction|]. cbn [negb andb].
  unfold git_steps, exec, mbind, lift, ret.
  destruct (git_clone env) as [c|e]; [destruct (git_fetch env) as [f|e];
    [destruct (git_rev_list env) as [out|e];
      [destruct (utf8_decode (stdout out)) as [text|e]|]|]|];
    try (destruct (is_Exception e); try destruct (git_print env) as [[]|?]);
    cbn [fst snd trace auth_state chainver_logs log_event];
    (split; [|split; reflexivity]);
    rewrite <- ?app_assoc; cbn [app];
    match goal with
    | |- exists done, _ ++ ?l = _ => exists (removelast l); reflexivity
    end.
Qed.

Lemma temp_dir_always_removed_witness :
  git_mkdtemp git_cancelled = Ok "/tmp/git_resolve_k3"
  /\ "/tmp/git_resolve_k3" <> ""
  /\ git_dir_exists git_cancelled = true
  /\ fst (resolve_tag_to_commit ref_utf8_decode git_cancelled
            click_repo "8.3.0" click_tag_object fresh_world) = Raise CancelledError
  /\ let w' := snd (resolve_tag_to_commit ref_utf8_decode git_cancelled
                      click_repo "8.3.0" click_tag_object fresh_world) in
     (exists done, trace w' = trace fresh_world ++ done ++ [EvRmtree "/tmp/git_resolve_k3"])
     /\ auth_state w' = auth_state fresh_world
     /\ chainver_logs w' = chainver_logs fresh_world.
Proof.
  split; [reflexivity|]. split; [discriminate|]. split; [reflexivity|].
  split; [reflexivity|].
  exact (temp_dir_always_removed ref_utf8_decode git_cancelled
           click_repo "8.3.0" click_tag_object "/tmp/git_resolve_k3" fresh_world
           eq_refl ltac:(discriminate) eq_refl).
Defined.

(** X10.  The processes of a resolution are the clone, the fetch of the one
    tag and the listing of its commit, started in this order, the last two
    inside the temporary directory.  The fetch is started only when the
    clone has returned and the listing only when the fetch has, so at most
    three processes are started, and none when the temporary directory
    cannot be made. *)
Theorem resolver_starts_git_in_order
  (utf8_decode : string -> result string) (env : git_env)
  (repo_url tag_name object_id : string) (w : world) :
  exists done,
    trace (snd (resolve_tag_to_commit utf8_decode env repo_url tag_name object_id w))
    = trace w ++ done
    /\ match git_mkdtemp env with
       | Raise _ => filter started_process done = []
       | Ok temp_dir =>
           exists n, filter started_process done
                     = firstn n (git_commands repo_url tag_name temp_dir)
                     /\ (1 <= n <= 3)%nat
                     /\ ((2 <= n)%nat <-> exists c, git_clone env = Ok c)
                     /\ (n = 3%nat <-> exists c f, git_clone env = Ok c
                                                  /\ git_fetch env = Ok f)
       end.
Proof.
  unfold resolve_tag_to_commit, cleanup, git_steps, exec, mbind, lift, ret.
  destruct (git_mkdtemp env) as [dir|e0].
  - destruct (git_clone env) as [c|e]; [destruct (git_fetch env) as [f|e];
      [destruct (git_rev_list env) as [out|e];
        [destruct (utf8_decode (stdout out)) as [text|e]|]|]|];
      try (destruct (is_Exception e); try destruct (git_print env) as [[]|?]);
      destruct (negb (String.eqb dir "") && git_dir_exists env);
      cbn [fst snd trace log_event]; rewrite <- ?app_assoc; cbn [app];
      eexists; (split; [reflexivity|]); cbn [filter started_process].
    all: first
      [ exists 3%nat; split; [reflexivity|]; split; [lia|]; split;
        (split; [intros _; repeat eexists | intros _; lia])
      | exists 2%nat; split; [reflexivity|]; split; [lia|]; split;
        [ split; [intros _; repeat eexists | intros _; lia]
        | split; [discriminate | intros (? & ? & _ & Hf); discriminate Hf] ]
      | exists 1%nat; split; [reflexivity|]; split; [lia|]; split;
        [ split; [lia | intros (? & Hc); discriminate Hc]
        | split; [discriminate | intros (? & ? & Hc & _); discriminate Hc] ] ].
  - destruct (is_Exception e0); try destruct (git_print env) as [[]|?];
      cbn [fst snd trace log_event];
      rewrite <- ?app_assoc; cbn [app]; eexists; split; reflexivity.
Qed.

(** ** The verification run and its handlers *)

Lemma insert_sorted_not_nil (p : string) (l : list string) : insert_sorted p l <> [].
Proof. destruct l as [|q l]; simpl; [discriminate|]. destruct (String.leb p q); discriminate. Qed.

Lemma sorted_not_nil (l : list string) : l <> [] -> sorted l <> [].
Proof. destruct l as [|p l]; [contradiction|]. intros _. apply insert_sorted_not_nil. Qed.

Lemma try_except_contains {A : Type} (body : M A) (handler : pyexc -> M A)
  (w : world) (e : pyexc) :
  (forall e' w', exists a, fst (handler e' w') = Ok a) ->
  fst (try_except body handler w) = Raise e -> is_Exception e = false.
Proof.
  intros Hh. unfold try_except. destruct (body w) as [[a|e0] w']; [discriminate|].
  destruct (is_Exception e0) eqn:He0.
  - destruct (Hh e0 w') as [a Ha]. rewrite Ha. discriminate.
  - cbn [fst]. intros H. injection H as <-. exact He0.
Qed.

(** X11.  A verification run keeps its errors to itself.  No exception of
    class [Exception] leaves [get_chainver_results]: a verifier that cannot
    be started or that runs into its timeout becomes the error of the
    answer.  With no wheel in the directory the answer is the "no wheel
    files" error and nothing is started or written. *)
Theorem verification_run_contains_errors
  (utf8_decode : string -> result string) (json_loads : string -> result pyval)
  (env : verifier_env) (w : world) :
  (forall e, fst (get_chainver_results utf8_decode json_loads env w) = Raise e ->
             is_Exception e = false)
  /\ (env_wheels env = [] ->
      get_chainver_results utf8_decode json_loads env w
      = (Ok (RunFailed "No wheel files found in /app/wheels/" None), w))
  /\ (forall e, env_wheels env <> [] -> env_chainver env = Raise e ->
                is_Exception e = true ->
                fst (get_chainver_results utf8_decode json_loads env w)
                = Ok (RunRaised e)).
Proof.
  split; [|split].
  - intros e. apply try_except_contains. intros e' w'. eexists. reflexivity.
  - intros Hw. unfold get_chainver_results. rewrite Hw. reflexivity.
  - intros e Hw Hrun He. unfold get_chainver_results, try_except.
    destruct (sorted (env_wheels env)) as [|p l] eqn:Hs;
      [now apply sorted_not_nil in Hs|].
    unfold mbind, exec. rewrite Hrun, He. reflexivity.
Qed.

Lemma verification_run_contains_errors_witness :
  env_wheels no_wheels_run = []
  /\ get_chainver_results ref_utf8_decode ref_json_loads no_wheels_run signed_in_world
     = (Ok (RunFailed "No wheel files found in /app/wheels/" None), signed_in_world).
Proof.
  split; [reflexivity|].
  exact (proj1 (proj2 (verification_run_contains_errors ref_utf8_decode ref_json_loads
                         no_wheels_run signed_in_world)) eq_refl).
Defined.

(** X12.  Whatever the verifier answers is kept.  When the verifier and
    [date] have run and their output decodes, the log holds the verifier's
    output, standard output then standard error with an empty line between,
    and the stripped date of the run; and exactly these two processes were
    started, the verifier on the sorted wheels.  This holds for every exit
    code and whether or not the output is a report that can be parsed. *)
Theorem completed_run_is_logged
  (utf8_decode : string -> result string) (json_loads : string -> result pyval)
  (env : verifier_env) (w : world) (out date_out : proc_output)
  (out_text err_text date_text : string) :
  env_wheels env <> [] ->
  env_chainver env = Ok out -> env_date env = Ok date_out ->
  utf8_decode (stdout out) = Ok out_text ->
  utf8_decode (stderr out) = Ok err_text ->
  utf8_decode (stdout date_out) = Ok date_text ->
  let w' := snd (get_chainver_results utf8_decode json_loads env w) in
  alist_get "normal_output" (chainver_logs w')
  = Some (PStr (out_text ++ newline ++ newline ++ err_text))
  /\ alist_get "last_run" (chainver_logs w') = Some (PStr (str_strip date_text))
  /\ trace w'
     = trace w ++ [EvExec (chainver_cmd ["-o"; "json"; "--detailed"] env
                                        (sorted (env_wheels env))) None;
                   EvExec ["date"] None].
Proof.
  intros Hw Hrun Hdate Ho He Hd. unfold get_chainver_results, try_except.
  destruct (sorted (env_wheels env)) as [|p l] eqn:Hs;
    [now apply sorted_not_nil in Hs|].
  unfold mbind, exec, lift, ret. rewrite Hrun, Hdate, Ho, He, Hd.
  assert (Hlogs : forall base : list (string * pyval),
            alist_get "normal_output"
              (alist_set "last_run" (PStr (str_strip date_text))
                 (alist_set "normal_output"
                    (PStr (out_text ++ newline ++ newline ++ err_text)) base))
            = Some (PStr (out_text ++ newline ++ newline ++ err_text))
            /\ alist_get "last_run"
                 (alist_set "last_run" (PStr (str_strip date_text))
                    (alist_set "normal_output"
                       (PStr (out_text ++ newline ++ newline ++ err_text)) base))
               = Some (PStr (str_strip date_text))).
  { intros base. split; [|apply alist_get_set_same].
    rewrite alist_get_set_other by discriminate. apply alist_get_set_same. }
  destruct ((returncode out =? 0) && negb (String.eqb (stdout out) ""));
    [destruct (json_loads out_text) as [data|e1];
       [destruct (parse_chainver_output data) as [r|e2]|]|];
    try (destruct (is_Exception e1)); try (destruct (is_Exception e2));
    cbn [fst snd chainver_logs trace set_log log_event];
    (split; [apply Hlogs | split; [apply Hlogs|]]);
    rewrite <- ?app_assoc; reflexivity.
Qed.

Lemma completed_run_is_logged_witness :
  let w' := snd (get_chainver_results ref_utf8_decode ref_json_loads failing_run
                   signed_in_world) in
  fst (get_chainver_results ref_utf8_decode ref_json_loads failing_run signed_in_world)
  = Ok (RunFailed "Unable to run chainver" (Some "chainver: not signed in"))
  /\ alist_get "normal_output" (chainver_logs w')
     = Some (PStr ("" ++ newline ++ newline ++ "chainver: not signed in"))
  /\ alist_get "last_run" (chainver_logs w')
     = Some (PStr (str_strip ("Tue Nov  3 10:00:00 UTC 2026" ++ newline)))
  /\ trace w'
     = trace signed_in_world
       ++ [EvExec (chainver_cmd ["-o"; "json"; "--detailed"] failing_run
                                (sorted (env_wheels failing_run))) None;
           EvExec ["date"] None].
Proof.
  intros w'. split; [reflexivity|].
  exact (completed_run_is_logged ref_utf8_decode ref_json_loads failing_run
           signed_in_world (mk_proc_output 1 "" "chainver: not signed in")
           (mk_proc_output 0 ("Tue Nov  3 10:00:00 UTC 2026" ++ newline) "")
           "" "chainver: not signed in" ("Tue Nov  3 10:00:00 UTC 2026" ++ newline)%string
           ltac:(discriminate) eq_refl eq_refl eq_refl eq_refl eq_refl).
Defined.

(** X13.  Results are never shown for a run that failed.  When the handler
    answers with a parsed report, the caller was authenticated, the
    verifier had ended with exit code 0 and had printed something, what it
    printed was decoded and read as JSON, and the report is what the
    normalizer made of it. *)
Theorem report_comes_from_a_successful_run
  (utf8_decode : string -> result string) (json_loads : string -> result pyval)
  (env : verifier_env) (w : world) (resp : response) (r : results) :
  fst (chainver_api utf8_decode json_loads env w) = Ok resp ->
  resp_body resp = BodyRun (RunResults r) ->
  authenticated (auth_state w) = true
  /\ status resp = 200
  /\ exists out text data,
       env_chainver env = Ok out
       /\ returncode out = 0 /\ stdout out <> ""
       /\ utf8_decode (stdout out) = Ok text
       /\ json_loads text = Ok data
       /\ parse_chainver_output data = Ok r.
Proof.
  unfold chainver_api. intros Hrun Hbody.
  destruct (authenticated (auth_state w)); cbn [negb] in Hrun;
    [|injection Hrun as <-; discriminate Hbody].
  split; [reflexivity|].
  unfold get_chainver_results, try_except, mbind, exec, lift, ret in Hrun.
  destruct (sorted (env_wheels env)) as [|p l];
    [injection Hrun as <-; discriminate Hbody|].
  destruct (env_chainver env) as [out|e0] eqn:Hout0;
    [|destruct (is_Exception e0); [injection Hrun as <-|]; discriminate].
  destruct (env_date env) as [d|e0];
    [|destruct (is_Exception e0); [injection Hrun as <-|]; discriminate].
  destruct (utf8_decode (stdout out)) as [text|e0] eqn:Htext;
    [|destruct (is_Exception e0); [injection Hrun as <-|]; discriminate].
  destruct (utf8_decode (stderr out)) as [etext|e0];
    [|destruct (is_Exception e0); [injection Hrun as <-|]; discriminate].
  destruct (utf8_decode (stdout d)) as [dtext|e0];
    [|destruct (is_Exception e0); [injection Hrun as <-|]; discriminate].
  destruct ((returncode out =? 0) && negb (String.eqb (stdout out) "")) eqn:Hok;
    [|injection Hrun as <-; discriminate Hbody].
  destruct (json_loads text) as [data|e0] eqn:Hdata;
    [|destruct (is_Exception e0); [injection Hrun as <-|]; discriminate].
  destruct (parse_chainver_output data) as [r'|e0] eqn:Hparse;
    [|destruct (is_Exception e0); [injection Hrun as <-|]; discriminate].
  injection Hrun as <-. cbn [resp_body status] in Hbody |- *.
  injection Hbody as ->. split; [reflexivity|].
  apply andb_prop in Hok as [Hrc Hout].
  exists out, text, data. repeat split; try reflexivity; try assumption.
  - now apply Z.eqb_eq.
  - intros E. rewrite E in Hout. discriminate Hout.
Qed.

Lemma report_comes_from_a_successful_run_witness :
  let resp := json_response (BodyRun (RunResults (mk_results 0 0 [] (PInt 0) (PInt 0)
                                                    (PStr "")))) 200 in
  fst (chainver_api ref_utf8_decode ref_json_loads sample_run signed_in_world) = Ok resp
  /\ authenticated (auth_state signed_in_world) = true
  /\ status resp = 200
  /\ exists out text data,
       env_chainver sample_run = Ok out
       /\ returncode out = 0 /\ stdout out <> ""
       /\ ref_utf8_decode (stdout out) = Ok text
       /\ ref_json_loads text = Ok data
       /\ parse_chainver_output data = Ok (mk_results 0 0 [] (PInt 0) (PInt 0) (PStr "")).
Proof.
  intros resp. split; [reflexivity|].
  exact (report_comes_from_a_successful_run ref_utf8_decode ref_json_loads sample_run
           signed_in_world resp _ eq_refl eq_refl).
Defined.

Section Frames.

Context {A B : Type} (keys : list string).

Lemma writes_only_ret (a : A) : writes_only keys (ret a).
Proof. intros w. split; [reflexivity | intros; reflexivity]. Qed.

Lemma writes_only_lift (r : result A) : writes_only keys (lift r).
Proof. intros w. split; [reflexivity | intros; reflexivity]. Qed.

Lemma writes_only_read (f : world -> A) : writes_only keys (fun w => (Ok (f w), w)).
Proof. intros w. split; [reflexivity | intros; reflexivity]. Qed.

Lemma writes_only_exec (argv : list string) (cwd : option string)
  (outcome : result proc_output) : writes_only keys (exec argv cwd outcome).
Proof. intros w. split; [reflexivity | intros; reflexivity]. Qed.

Lemma writes_only_set_log (k : string) (v : pyval) :
  In k keys -> writes_only keys (fun w => (Ok tt, set_log k v w)).
Proof.
  intros Hk w. split; [reflexivity|]. intros k' Hk'. cbn [snd set_log chainver_logs].
  apply alist_get_set_other. intros ->. contradiction.
Qed.

Lemma writes_only_mbind (m : M A) (k : A -> M B) :
  writes_only keys m -> (forall a, writes_only keys (k a)) ->
  writes_only keys (mbind m k).
Proof.
  intros Hm Hk w. unfold mbind. specialize (Hm w).
  destruct (m w) as [[a|e] w1]; cbn [snd] in Hm |- *; [|exact Hm].
  destruct Hm as [Ha Hl]. destruct (Hk a w1) as [Ha' Hl'].
  split; [congruence|]. intros k' Hk'. rewrite (Hl' k' Hk'). now apply Hl.
Qed.

Lemma writes_only_try_except (body : M A) (handler : pyexc -> M A) :
  writes_only keys body -> (forall e, writes_only keys (handler e)) ->
  writes_only keys (try_except body handler).
Proof.
  intros Hb Hh w. unfold try_except. specialize (Hb w).
  destruct (body w) as [[a|e] w1]; cbn [snd] in Hb |- *; [exact Hb|].
  destruct (is_Exception e); [|exact Hb].
  destruct Hb as [Ha Hl]. destruct (Hh e w1) as [Ha' Hl'].
  split; [congruence|]. intros k' Hk'. rewrite (Hl' k' Hk'). now apply Hl.
Qed.

End Frames.

(** Apply the rules above along the structure of a coroutine. *)
Ltac frame_steps :=
  repeat first
    [ apply writes_only_ret
    | apply writes_only_lift
    | apply writes_only_exec
    | apply writes_only_read
    | apply writes_only_set_log; simpl; tauto
    | apply writes_only_mbind; [|intros ?]
    | apply writes_only_try_except; [|intros ?]
    | match goal with
      | |- writes_only _ (match ?l with [] => _ | _ :: _ => _ end) => destruct l
      | |- writes_only _ (if ?c then _ else _) => destruct c
      end ].

(** X14.  The two runs keep to their own part of the log.  A normal run
    writes under [normal_output] and [last_run] and nowhere else, a verbose
    run under [verbose_output] and [verbose_last_run] and nowhere else, and
    neither changes the authentication state; this holds for every outcome
    of the run, failures included. *)
Theorem runs_write_their_own_keys
  (utf8_decode : string -> result string) (json_loads : string -> result pyval)
  (env : verifier_env) :
  writes_only ["normal_output"; "last_run"]
    (get_chainver_results utf8_decode json_loads env)
  /\ writes_only ["normal_output"; "last_run"] (chainver_api utf8_decode json_loads env)
  /\ writes_only ["verbose_output"; "verbose_last_run"]
       (chainver_verbose_api utf8_decode env).
Proof.
  assert (Hrun : writes_only ["normal_output"; "last_run"]
                   (get_chainver_results utf8_decode json_loads env)).
  { unfold get_chainver_results. frame_steps. }
  split; [exact Hrun|]. split.
  - intros w. unfold chainver_api.
    destruct (negb (authenticated (auth_state w)));
      [split; [reflexivity | intros; reflexivity]|].
    apply (writes_only_mbind _ _ _ Hrun (fun run => writes_only_ret _ _) w).
  - intros w. unfold chainver_verbose_api.
    destruct (negb (authenticated (auth_state w)));
      [split; [reflexivity | intros; reflexivity]|].
    revert w. frame_steps.
Qed.

(** A verbose run after a normal one leaves the normal log as it was. *)
Example verbose_run_keeps_normal_log :
  let w' := snd (chainver_verbose_api ref_utf8_decode failing_run world_after_run) in
  alist_get "normal_output" (chainver_logs w') = Some (PStr "{}")
  /\ alist_get "last_run" (chainver_logs w')
     = Some (PStr "Mon Nov  2 09:00:00 UTC 2026")
  /\ alist_get "verbose_output" (chainver_logs w')
     = Some (PStr ("" ++ newline ++ newline ++ "chainver: not signed in")).
Proof. repeat split. Qed.

(** X15.  The verbose handler, once authenticated, answers every case and
    lets no exception of class [Exception] out: 404 when there is no
    wheel, with nothing started; 500 with the exception when the verifier
    or the [date] command cannot be run or times out; and 200 exactly when
    both commands have run and their three outputs decode, whatever the
    exit code of the verifier, the answer then carrying the output of the
    verifier and the date of the run. *)
Theorem verbose_run_answers
  (utf8_decode : string -> result string) (env : verifier_env) (w : world) :
  authenticated (auth_state w) = true ->
  (forall e, fst (chainver_verbose_api utf8_decode env w) = Raise e ->
             is_Exception e = false)
  /\ (env_wheels env = [] ->
      chainver_verbose_api utf8_decode env w
      = (Ok (json_response (BodyError "No wheel files found") 404), w))
  /\ (forall e, env_wheels env <> [] -> env_chainver env = Raise e ->
                is_Exception e = true ->
                fst (chainver_verbose_api utf8_decode env w)
                = Ok (json_response (BodyRaised e) 500))
  /\ (forall out e, env_wheels env <> [] -> env_chainver env = Ok out ->
                    env_date env = Raise e -> is_Exception e = true ->
                    fst (chainver_verbose_api utf8_decode env w)
                    = Ok (json_response (BodyRaised e) 500))
  /\ (forall out date_out out_text err_text date_text,
        env_wheels env <> [] ->
        env_chainver env = Ok out -> env_date env = Ok date_out ->
        utf8_decode (stdout out) = Ok out_text ->
        utf8_decode (stderr out) = Ok err_text ->
        utf8_decode (stdout date_out) = Ok date_text ->
        fst (chainver_verbose_api utf8_decode env w)
        = Ok (json_response
                (BodyVerbose (Some (PStr (out_text ++ newline ++ newline ++ err_text)))
                             (Some (PStr (str_strip date_text)))) 200))
  /\ (forall resp,
        fst (chainver_verbose_api utf8_decode env w) = Ok resp -> status resp = 200 ->
        exists out date_out out_text err_text date_text,
          env_wheels env <> []
          /\ env_chainver env = Ok out /\ env_date env = Ok date_out
          /\ utf8_decode (stdout out) = Ok out_text
          /\ utf8_decode (stderr out) = Ok err_text
          /\ utf8_decode (stdout date_out) = Ok date_text).
Proof.
  intros Hauth. unfold chainver_verbose_api. rewrite Hauth. cbn [negb].
  split; [|split; [|split; [|split; [|split]]]].
  - intros e. apply try_except_contains. intros e' w'. eexists. reflexivity.
  - intros Hw. rewrite Hw. reflexivity.
  - intros e Hw Hrun He. unfold try_except.
    destruct (sorted (env_wheels env)) as [|p l] eqn:Hs;
      [now apply sorted_not_nil in Hs|].
    unfold mbind, exec. rewrite Hrun, He. reflexivity.
  - intros out e Hw Hrun Hdate He. unfold try_except.
    destruct (sorted (env_wheels env)) as [|p l] eqn:Hs;
      [now apply sorted_not_nil in Hs|].
    unfold mbind, exec. rewrite Hrun, Hdate, He. reflexivity.
  - intros out date_out out_text err_text date_text Hw Hrun Hdate Ho He Hd.
    unfold try_except.
    destruct (sorted (env_wheels env)) as [|p l] eqn:Hs;
      [now apply sorted_not_nil in Hs|].
    unfold mbind, exec, lift. rewrite Hrun, Hdate, Ho, He, Hd.
    cbn [fst snd set_log chainver_logs log_event]. f_equal. f_equal.
    rewrite alist_get_set_same.
    rewrite alist_get_set_other by discriminate.
    now rewrite alist_get_set_same.
  - intros resp. unfold try_except.
    destruct (env_wheels env) as [|p0 l0] eqn:Hw.
    { cbn. intros H. injection H as <-. discriminate. }
    destruct (sorted (p0 :: l0)) as [|p l] eqn:Hs;
      [apply sorted_not_nil in Hs; [contradiction | discriminate]|].
    unfold mbind, exec, lift, ret.
    destruct (env_chainver env) as [out|e].
    2:{ destruct (is_Exception e); cbn; [|discriminate].
        intros H. injection H as <-. discriminate. }
    destruct (env_date env) as [date_out|e].
    2:{ destruct (is_Exception e); cbn; [|discriminate].
        intros H. injection H as <-. discriminate. }
    destruct (utf8_decode (stdout out)) as [out_text|e] eqn:Ho.
    2:{ destruct (is_Exception e); cbn; [|discriminate].
        intros H. injection H as <-. discriminate. }
    destruct (utf8_decode (stderr out)) as [err_text|e] eqn:He.
    2:{ destruct (is_Exception e); cbn; [|discriminate].
        intros H. injection H as <-. discriminate. }
    destruct (utf8_decode (stdout date_out)) as [date_text|e] eqn:Hd.
    2:{ destruct (is_Exception e); cbn; [|discriminate].
        intros H. injection H as <-. discriminate. }
    intros _ _. exists out, date_out, out_text, err_text, date_text.
    repeat split; try assumption. discriminate.
Qed.

Lemma verbose_run_answers_witness :
  authenticated (auth_state signed_in_world) = true
  /\ env_wheels failing_run <> []
  /\ fst (chainver_verbose_api ref_utf8_decode failing_run signed_in_world)
     = Ok (json_response
             (BodyVerbose
                (Some (PStr ("" ++ newline ++ newline ++ "chainver: not signed in")))
                (Some (PStr (str_strip ("Tue Nov  3 10:00:00 UTC 2026" ++ newline)))))
             200).
Proof.
  split; [reflexivity|]. split; [discriminate|].
  exact (proj1 (proj2 (proj2 (proj2 (proj2 (verbose_run_answers ref_utf8_decode
                                              failing_run signed_in_world eq_refl)))))
           (mk_proc_output 1 "" "chainver: not signed in")
           (mk_proc_output 0 ("Tue Nov  3 10:00:00 UTC 2026" ++ newline) "")
           "" "chainver: not signed in" ("Tue Nov  3 10:00:00 UTC 2026" ++ newline)%string
           ltac:(discriminate) eq_refl eq_refl eq_refl eq_refl eq_refl).
Defined.

(** The verifier has run and the [date] command cannot be started: the
    answer is a 500, and nothing is written to the log. *)
Example verbose_run_without_date :
  chainver_verbose_api ref_utf8_decode
    (mk_verifier_env "" ["/app/wheels/click-8.3.0-py3-none-any.whl"]
                     (quiet "ok") (Raise FileNotFoundError))
    signed_in_world
  = (Ok (json_response (BodyRaised FileNotFoundError) 500),
     mk_world (auth_state signed_in_world) (chainver_logs signed_in_world)
       [EvExec ["chainver"; "-v"; "--detailed";
                "/app/wheels/click-8.3.0-py3-none-any.whl"] None;
        EvExec ["date"] None]).
Proof. reflexivity. Qed.

(** ** The attestation decoder *)

Lemma for_each_append {A B : Type} (f : A -> result B) (l : list A) :
  forall acc res,
    for_each (fun done x => y <- f x ;; Ok (done ++ [y])) l acc = Ok res ->
    exists ys, res = acc ++ ys /\ Forall2 (fun x y => f x = Ok y) l ys.
Proof.
  induction l as [|x l IH]; simpl; intros acc res H.
  - injection H as <-. exists []. split; [now rewrite app_nil_r | constructor].
  - inv_bind H. inv_bind E. injection E as <-.
    destruct (IH _ _ H) as (ys & -> & Hall).
    exists (v0 :: ys). split; [now rewrite <- app_assoc | now constructor].
Qed.

Section DecoderShape.

Variable b64decode : string -> result string.
Variable utf8_decode : string -> result string.
Variable json_loads : string -> result pyval.

Lemma decode_statement_keeps_version (envelope v : pyval)
  (fields out : list (string * pyval)) :
  decode_statement b64decode utf8_decode json_loads envelope (("version", v) :: fields)
  = Ok out ->
  exists fields', out = ("version", v) :: fields'.
Proof.
  unfold decode_statement. intros H. inv_bind H.
  destruct v0; [|injection H as <-; eauto].
  repeat inv_bind H. injection H as <-. simpl. eauto.
Qed.

Lemma read_verification_keeps_version (attestation v : pyval)
  (fields out : list (string * pyval)) :
  read_verification attestation (("version", v) :: fields) = Ok out ->
  exists fields', out = ("version", v) :: fields'.
Proof.
  unfold read_verification. intros H. inv_bind H.
  destruct (truthy v0); [|injection H as <-; eauto].
  do 5 inv_bind H.
  destruct (truthy v5).
  - repeat inv_bind H. injection H as <-. simpl. eauto.
  - injection H as <-. simpl. eauto.
Qed.

Lemma parse_attestation_shape (attestation info : pyval) :
  parse_attestation b64decode utf8_decode json_loads attestation = Ok info ->
  exists a fields,
    attestation = PDict a
    /\ info = PDict (("version", field_or "version" (PInt 1) a) :: fields).
Proof.
  unfold parse_attestation. intros H.
  inv_bind H. apply dict_get_ok in E as (a & -> & ->).
  inv_bind H. inv_bind H. inv_bind H. injection H as <-.
  apply decode_statement_keeps_version in E0 as [f1 ->].
  apply read_verification_keeps_version in E1 as [f2 ->].
  exists a, f2. split; reflexivity.
Qed.

(** X16.  The decoder keeps the shape of the document.  When it returns,
    the result has the version of the document (1 when missing) and one
    record per bundle, in order; the record of a bundle has the publisher
    of the bundle as it stands (an empty object when missing) and one
    record per attestation, in order, each beginning with the version of
    its attestation (1 when missing). *)
Theorem decoder_keeps_shape (top : list (string * pyval)) (out : pyval) :
  parse_provenance_data b64decode utf8_decode json_loads (PDict top) = Ok out ->
  exists bundles infos,
    py_iter (field_or "attestation_bundles" (PList []) top) = Ok bundles
    /\ out = PDict [("version", field_or "version" (PInt 1) top);
                    ("bundles", PList infos)]
    /\ Forall2
         (fun bundle info =>
            exists b attestations att_infos,
              bundle = PDict b
              /\ py_iter (field_or "attestations" (PList []) b) = Ok attestations
              /\ info = PDict [("publisher", field_or "publisher" (PDict []) b);
                               ("attestations", PList att_infos)]
              /\ Forall2
                   (fun attestation att_info =>
                      exists a fields,
                        attestation = PDict a
                        /\ att_info
                           = PDict (("version", field_or "version" (PInt 1) a)
                                    :: fields))
                   attestations att_infos)
         bundles infos.
Proof.
  unfold parse_provenance_data. intros H.
  repeat (rewrite dict_get_dict in H; cbn [bind] in H).
  inv_bind H. inv_bind H. injection H as <-.
  apply for_each_append in E0 as (infos & -> & Hall).
  exists v, infos. split; [exact E|]. split; [reflexivity|].
  eapply Forall2_weaken; [exact Hall|].
  intros bundle info Hb. unfold parse_bundle in Hb.
  inv_bind Hb. apply dict_get_ok in E0 as (b & -> & ->).
  repeat (rewrite dict_get_dict in Hb; cbn [bind] in Hb).
  inv_bind Hb. inv_bind Hb. injection Hb as <-.
  apply for_each_append in E1 as (att_infos & -> & Hatt).
  exists b, v0, att_infos. split; [reflexivity|]. split; [exact E0|].
  split; [reflexivity|].
  eapply Forall2_weaken; [exact Hatt|].
  intros attestation att_info. apply parse_attestation_shape.
Qed.

End DecoderShape.

Lemma decoder_keeps_shape_witness :
  (exists out, parse_provenance_data ref_b64decode ref_utf8_decode ref_json_loads
                 (PDict two_bundles) = Ok out)
  /\ forall out,
       parse_provenance_data ref_b64decode ref_utf8_decode ref_json_loads
         (PDict two_bundles) = Ok out ->
       exists bundles infos,
         py_iter (field_or "attestation_bundles" (PList []) two_bundles) = Ok bundles
         /\ out = PDict [("version", field_or "version" (PInt 1) two_bundles);
                         ("bundles", PList infos)]
         /\ Forall2
              (fun bundle info =>
                 exists b attestations att_infos,
                   bundle = PDict b
                   /\ py_iter (field_or "attestations" (PList []) b) = Ok attestations
                   /\ info = PDict [("publisher", field_or "publisher" (PDict []) b);
                                    ("attestations", PList att_infos)]
                   /\ Forall2
                        (fun attestation att_info =>
                           exists a fields,
                             attestation = PDict a
                             /\ att_info
                                = PDict (("version", field_or "version" (PInt 1) a)
                                         :: fields))
                        attestations att_infos)
              bundles infos.
Proof.
  split; [eexists; reflexivity|].
  intros out. exact (decoder_keeps_shape ref_b64decode ref_utf8_decode ref_json_loads
                       two_bundles out).
Defined.

(** The sample document, decoded: the second attestation has no envelope
    and its record has the version only; the second bundle has no publisher
    and its record has the empty one. *)
Example two_bundles_decoded :
  parse_provenance_data ref_b64decode ref_utf8_decode ref_json_loads (PDict two_bundles)
  = Ok (PDict
          [("version", PInt 1);
           ("bundles",
            PList [PDict [("publisher", PDict [("kind", PStr "GitHub");
                                               ("repository", PStr "pallets/flask")]);
                          ("attestations",
                           PList [PDict [("version", PInt 1);
                                         ("subject", PList []);
                                         ("build_type", PStr "");
                                         ("external_parameters", PDict []);
                                         ("internal_parameters", PDict []);
                                         ("resolved_dependencies", PList []);
                                         ("builder", PDict []);
                                         ("metadata", PDict [])];
                                  PDict [("version", PInt 2)]])];
                   PDict [("publisher", PDict []); ("attestations", PList [])]])]).
Proof. reflexivity. Qed.

(** ** The wheel digest *)

Lemma str_take_drop (n : nat) (s : string) : (str_take n s ++ str_drop n s)%string = s.
Proof.
  revert s. induction n as [|n IH]; intros [|c s]; simpl; try reflexivity.
  now rewrite IH.
Qed.

Lemma str_take_empty (n : nat) (s : string) :
  (0 < n)%nat -> str_take n s = "" -> s = "".
Proof. destruct n; [lia|]. destruct s; [reflexivity | discriminate]. Qed.

Lemma str_drop_shorter (n : nat) (s : string) :
  (0 < n)%nat -> s <> "" -> (String.length (str_drop n s) < String.length s)%nat.
Proof.
  intros Hn Hs. destruct n; [lia|]. destruct s as [|c s]; [contradiction|]. simpl.
  clear Hn Hs. revert s. induction n as [|n IH]; intros s; [simpl; lia|].
  destruct s as [|c' s]; simpl; [lia|]. specialize (IH s). lia.
Qed.

(** Fed in blocks of any positive size, the hash object ends up with the
    whole file, in order. *)
Lemma feed_blocks_all (block_size : nat) :
  (0 < block_size)%nat ->
  forall fuel unread fed,
    (String.length unread < fuel)%nat ->
    feed_blocks fuel block_size unread fed = (fed ++ unread)%string.
Proof.
  intros Hn. induction fuel as [|fuel IH]; intros unread fed Hf; [lia|].
  cbn [feed_blocks].
  destruct (str_take block_size unread) as [|c blk] eqn:Ht.
  - apply (str_take_empty _ _ Hn) in Ht. subst unread. now rewrite str_app_empty.
  - assert (Hne : unread <> "") by (intros ->; destruct block_size; discriminate Ht).
    pose proof (str_drop_shorter _ _ Hn Hne) as Hlen.
    rewrite IH by lia.
    rewrite str_app_assoc, <- Ht, str_take_drop. reflexivity.
Qed.

(** X17.  The digest of a wheel is the SHA-256 of the whole file, and the
    transparency-log address is made of that same digest: reading the file
    in blocks of 4096 bytes, or of any other positive size, feeds the hash
    the bytes of the file, all of them, once and in order. *)
Theorem wheel_digest_is_of_whole_file
  (sha256_hex : string -> string) (read_bytes : string -> result string)
  (store : wheel_store) (package_name package_version wheel_path : string)
  (others : list string) (data : string) :
  glob store (wheel_pattern package_name package_version) = wheel_path :: others ->
  read_bytes wheel_path = Ok data ->
  get_wheel_hash sha256_hex read_bytes store package_name package_version
  = Ok (Some (mk_wheel_hash (sha256_hex data) (hash_search_prefix ++ sha256_hex data)))
  /\ forall block_size, (0 < block_size)%nat ->
       feed_blocks (S (String.length data)) block_size data "" = data.
Proof.
  intros Hglob Hread. unfold get_wheel_hash. rewrite Hglob, Hread.
  rewrite (feed_blocks_all 4096 ltac:(lia)) by lia. split; [reflexivity|].
  intros n Hn. now rewrite (feed_blocks_all n Hn) by lia.
Qed.

Lemma wheel_digest_is_of_whole_file_witness :
  glob (one_wheel_store []) (wheel_pattern "demo" "1.0")
  = ["/app/wheels/demo-1.0-py3-none-any.whl"]
  /\ read_abc "/app/wheels/demo-1.0-py3-none-any.whl" = Ok "abc"
  /\ Sha256.hexdigest "abc"
     = "ba7816bf8f01cfea414140de5dae2223b00361a396177a9cb410ff61f20015ad"
  /\ get_wheel_hash Sha256.hexdigest read_abc (one_wheel_store []) "demo" "1.0"
     = Ok (Some (mk_wheel_hash (Sha256.hexdigest "abc")
                               (hash_search_prefix ++ Sha256.hexdigest "abc"))).
Proof.
  split; [reflexivity|]. split; [reflexivity|]. split; [vm_compute; reflexivity|].
  exact (proj1 (wheel_digest_is_of_whole_file Sha256.hexdigest read_abc
                  (one_wheel_store []) "demo" "1.0"
                  "/app/wheels/demo-1.0-py3-none-any.whl" [] "abc" eq_refl eq_refl)).
Defined.

(** Without a wheel, or with one that cannot be read, there is no digest
    and the handler answers 404; an exception outside [Exception] passes. *)
Example no_digest_without_file :
  get_rekor_hash_handler Sha256.hexdigest read_abc empty_store "demo" "1.0"
  = Ok (None, 404)
  /\ get_rekor_hash_handler Sha256.hexdigest (fun _ => Raise OSError)
       (one_wheel_store []) "demo" "1.0" = Ok (None, 404)
  /\ get_rekor_hash_handler Sha256.hexdigest (fun _ => Raise KeyboardInterrupt)
       (one_wheel_store []) "demo" "1.0" = Raise KeyboardInterrupt.
Proof. repeat split. Qed.

(** ** Credentials from [.netrc] *)

Lemma lines_after_in (i : nat) (lines : list string) (l : string) :
  In l (lines_after i lines) ->
  exists j, (i < j <= i + 4)%nat /\ nth_error lines j = Some l.
Proof.
  unfold lines_after. intros Hin.
  apply In_nth_error in Hin as [k Hk].
  assert (Hlt : (k < 4)%nat).
  { destruct (Nat.lt_ge_cases k 4) as [|Hge]; [assumption|].
    rewrite nth_error_firstn in Hk.
    destruct (Nat.ltb_spec k 4); [lia | discriminate Hk]. }
  rewrite nth_error_firstn in Hk.
  destruct (Nat.ltb_spec k 4); [|lia].
  rewrite nth_error_skipn in Hk.
  exists (S i + k)%nat. split; [lia | exact Hk].
Qed.

Lemma split_once_two (s k v : string) : split_once s = [k; v] -> v <> "".
Proof.
  unfold split_once. destruct s as [|c s]; [discriminate|].
  destruct (drop_while is_space
              (drop_while (fun c0 => negb (is_space c0)) (String c s)));
    [discriminate|].
  intros H. injection H as _ <-. discriminate.
Qed.

Section Netrc.

Variable lines : list string.

Lemma read_field_sound (i : nat) (marker_line : string) (ls : list string) :
  nth_error lines i = Some marker_line ->
  str_contains machine_marker marker_line = true ->
  forall creds,
    (forall l, In l ls -> exists j, (i < j <= i + 4)%nat /\ nth_error lines j = Some l) ->
    sound_credentials lines creds -> sound_credentials lines (fold_left read_field ls creds).
Proof.
  intros Hi Hm. induction ls as [|l ls IH]; intros creds Hls Hc; [exact Hc|].
  simpl. apply IH; [intros l' Hl'; apply Hls; now right|].
  destruct (Hls l (or_introl eq_refl)) as (j & Hj & Hnth).
  unfold read_field.
  destruct (split_once (str_strip l)) as [|k [|v [|x rest]]] eqn:Hsplit; try exact Hc.
  destruct Hc as [Hu Hp].
  assert (Hhere : stands_after_marker lines k v).
  { exists i, j, marker_line, l. repeat split; try assumption; try lia.
    eapply split_once_two; eassumption. }
  destruct (String.eqb_spec k "login") as [->|_].
  - split; cbn [fst snd]; [|exact Hp]. intros u H. injection H as <-. exact Hhere.
  - destruct (String.eqb_spec k "password") as [->|_]; [|split; assumption].
    split; cbn [fst snd]; [exact Hu|]. intros p H. injection H as <-. exact Hhere.
Qed.

Lemma scan_netrc_sound (rest : list string) :
  forall i creds,
    (forall k line, nth_error rest k = Some line -> nth_error lines (i + k) = Some line) ->
    sound_credentials lines creds -> sound_credentials lines (scan_netrc lines i rest creds).
Proof.
  induction rest as [|line rest IH]; intros i creds Hpos Hc; [exact Hc|].
  simpl. apply IH.
  - intros k l Hk. replace (S i + k)%nat with (i + S k)%nat by lia.
    now apply Hpos.
  - destruct (str_contains machine_marker line) eqn:Hm; [|exact Hc].
    apply (read_field_sound i line).
    + rewrite <- (Nat.add_0_r i). now apply Hpos.
    + exact Hm.
    + intros l. apply lines_after_in.
    + exact Hc.
Qed.

End Netrc.

(** X18.  Where the credentials come from.  A login or password that the
    scan of [.netrc] gives is not empty and stands, after the word [login]
    or [password] and white space, on one of the four lines that follow a
    line containing [machine libraries.cgr.dev].  What stands on the line of
    the marker itself is not read: a file of a single line gives nothing. *)
Theorem netrc_credentials_provenance (lines : list string) :
  (forall u, fst (netrc_credentials lines) = Some u ->
             stands_after_marker lines "login" u)
  /\ (forall p, snd (netrc_credentials lines) = Some p ->
                stands_after_marker lines "password" p)
  /\ (forall line, lines = [line] -> netrc_credentials lines = (None, None)).
Proof.
  split; [|split].
  - apply (scan_netrc_sound lines lines 0 (None, None)); [intros; assumption|].
    split; intros ? H; discriminate H.
  - apply (scan_netrc_sound lines lines 0 (None, None)); [intros; assumption|].
    split; intros ? H; discriminate H.
  - intros line ->. unfold netrc_credentials. simpl.
    destruct (str_contains machine_marker line); reflexivity.
Qed.

Lemma netrc_credentials_provenance_witness :
  netrc_credentials usual_netrc = (Some "robot@example.org", Some "s3cret")
  /\ stands_after_marker usual_netrc "login" "robot@example.org"
  /\ stands_after_marker usual_netrc "password" "s3cret".
Proof.
  split; [reflexivity|]. split.
  - exact (proj1 (netrc_credentials_provenance usual_netrc) _ eq_refl).
  - exact (proj1 (proj2 (netrc_credentials_provenance usual_netrc)) _ eq_refl).
Defined.

(** Three files: the usual one; one with everything on the line of the
    marker, which gives nothing; and one where the four lines reach into
    the entry of another machine, whose login and password are taken. *)
Example netrc_credentials_runs :
  netrc_credentials usual_netrc = (Some "robot@example.org", Some "s3cret")
  /\ netrc_credentials ["machine libraries.cgr.dev login robot password s3cret"]
     = (None, None)
  /\ netrc_credentials ["machine libraries.cgr.dev"; "login robot";
                        "machine example.org"; "login guest"; "password open"]
     = (Some "guest", Some "open").
Proof. repeat split. Qed.

(** ** The issuer of a bundle *)

Lemma lower_char_twice (c : ascii) : lower_char (lower_char c) = lower_char c.
Proof. destruct c as [[] [] [] [] [] [] [] []]; reflexivity. Qed.

Lemma str_lower_twice (s : string) : str_lower (str_lower s) = str_lower s.
Proof. induction s as [|c s IH]; simpl; [reflexivity|]. now rewrite lower_char_twice, IH. Qed.

Lemma classify_bundle_wf (st : bool * pyval) (bundle : pyval) :
  wf_bundle bundle = true ->
  classify_bundle st bundle
  = Ok (fst st || bundle_trusted bundle, last_publisher [bundle] (snd st)).
Proof.
  destruct st as [flag found]. destruct bundle as [| | | | |?|b]; try discriminate.
  unfold wf_bundle, classify_bundle, bundle_trusted, last_publisher, text_or_absent.
  cbn [py_in py_getitem bind fold_left fst snd].
  destruct (alist_get "publisher" b) as [publisher|]; cbn [bind];
    [|intros _; now rewrite orb_false_r].
  destruct publisher as [| | | | |?|p]; try discriminate.
  cbn [py_in py_getitem bind].
  destruct (alist_get "issuer" p) as [issuer|]; cbn [bind];
    [|intros _; now rewrite orb_false_r].
  destruct issuer as [| | | |issuer|?|?]; try discriminate. intros _.
  destruct flag; [reflexivity|]. cbn [fst py_lower bind orb]. unfold trusted_issuer.
  destruct (str_contains "chainguard" (str_lower issuer)); reflexivity.
Qed.

Lemma for_each_classify_wf (bundles : list pyval) :
  forall st, forallb wf_bundle bundles = true ->
    for_each classify_bundle bundles st
    = Ok (fst st || existsb bundle_trusted bundles, last_publisher bundles (snd st)).
Proof.
  induction bundles as [|bundle bundles IH]; intros st Hwf.
  - destruct st as [flag found]. cbn. now rewrite orb_false_r.
  - cbn [forallb] in Hwf. apply andb_prop in Hwf as [Hb Hrest].
    cbn [for_each]. rewrite (classify_bundle_wf st bundle Hb). cbn [bind].
    rewrite (IH _ Hrest). cbn [fst snd existsb]. now rewrite orb_assoc.
Qed.

(** X19.  How the issuer decides.  On bundles that are objects whose
    publisher, when present, is an object with a textual issuer,
    [is_chainguard] says that SOME bundle has an issuer containing
    [chainguard] or [enforce.dev], whatever the case of its letters, while
    [publisher] is the one of the LAST bundle that has a publisher: the two
    need not speak of the same bundle. *)
Theorem issuer_classification (top : list (string * pyval)) (bundles : list pyval) :
  alist_get "attestation_bundles" top = Some (PList bundles) ->
  forallb wf_bundle bundles = true ->
  classify_publisher (PDict top)
  = Ok (existsb bundle_trusted bundles, last_publisher bundles (PDict []))
  /\ (forall issuer, trusted_issuer (str_lower issuer) = trusted_issuer issuer).
Proof.
  intros Hget Hwf. split.
  - unfold classify_publisher. cbn [py_in py_getitem bind]. rewrite Hget.
    cbn [bind py_iter]. now rewrite (for_each_classify_wf bundles (false, PDict []) Hwf).
  - intros issuer. unfold trusted_issuer. now rewrite str_lower_twice.
Qed.

Lemma issuer_classification_witness :
  classify_publisher (PDict [("version", PInt 1);
                             ("attestation_bundles", PList three_issuers)])
  = Ok (true, PDict [("kind", PStr "GitHub");
                     ("issuer", PStr "https://token.actions.githubusercontent.com")]).
Proof.
  exact (proj1 (issuer_classification
                  [("version", PInt 1); ("attestation_bundles", PList three_issuers)]
                  three_issuers eq_refl eq_refl)).
Defined.

(** ** Fetching a provenance document *)

Lemma mbind_ok {A B : Type} (m : M A) (k : A -> M B) (w w' : world) (b : B) :
  mbind m k w = (Ok b, w') ->
  exists a w1, m w = (Ok a, w1) /\ k a w1 = (Ok b, w').
Proof.
  unfold mbind. destruct (m w) as [[a|e] w1]; [|discriminate].
  intros H. now exists a, w1.
Qed.

Section FetchingFacts.

Variable b64decode : string -> result string.
Variable utf8_decode : string -> result string.
Variable json_loads : string -> result pyval.
Variable env : fetch_env.
Variables package_name package_version : string.

Lemma fetch_provenance_fetched (w w' : world) (wheel_filename url : string)
  (data : pyval) :
  fetch_provenance utf8_decode json_loads env package_name package_version w
  = (Ok (Fetched wheel_filename url data), w') ->
  fetched_from utf8_decode json_loads env package_name package_version w w'
               wheel_filename url data.
Proof.
  unfold fetch_provenance, fetched_from.
  destruct (glob _ _) as [|wheel_path others]; [discriminate|].
  intros H. apply mbind_ok in H as (creds & w1 & Hcreds & H).
  unfold lift in Hcreds.
  destruct (fe_netrc env) as [[lines|e]|] eqn:Hnetrc; cbn [bind] in Hcreds;
    try discriminate.
  2:{ injection Hcreds as <- <-. discriminate H. }
  injection Hcreds as <- <-.
  destruct (netrc_credentials lines) as [[username|] [password|]] eqn:Hscan;
    try discriminate.
  apply mbind_ok in H as (out & w2 & Hexec & H). unfold exec in Hexec.
  injection Hexec as Hcurl <-.
  destruct (negb (returncode out =? 0) || String.eqb (stdout out) "") eqn:Hgate;
    [discriminate|].
  apply orb_false_elim in Hgate as [Hrc Hout].
  apply mbind_ok in H as (text & w3 & Htext & H). unfold lift in Htext.
  injection Htext as Htext <-.
  destruct (json_loads text) as [data'|e] eqn:Hjson.
  2:{ destruct (is_json_error e); discriminate. }
  injection H as <- <- <- <-.
  exists wheel_path, others, lines, username, password, out, text.
  repeat split; try assumption; try reflexivity.
  - apply negb_false_iff in Hrc. now apply Z.eqb_eq.
  - intros E. rewrite E in Hout. discriminate.
Qed.

(** The fetch starts curl or nothing, and writes nothing else. *)
Lemma fetch_provenance_world (w : world) :
  let w' := snd (fetch_provenance utf8_decode json_loads env package_name
                   package_version w) in
  w' = w
  \/ exists lines username password wheel_path others,
       fe_netrc env = Some (Ok lines)
       /\ netrc_credentials lines = (Some username, Some password)
       /\ glob (fe_wheels env)
               (wheel_pattern (str_replace "-" "_" package_name) package_version)
          = wheel_path :: others
       /\ w' = log_event (curl_command username password
                            (provenance_url_of package_name package_version
                               (path_name wheel_path))) w.
Proof.
  unfold fetch_provenance.
  destruct (glob _ _) as [|wheel_path others] eqn:Hglob; [now left|].
  unfold mbind at 1, lift at 1.
  destruct (fe_netrc env) as [[lines|e]|] eqn:Hnetrc; cbn [bind]; try now left.
  destruct (netrc_credentials lines) as [[username|] [password|]] eqn:Hscan;
    try now left.
  right. exists lines, username, password, wheel_path, others.
  repeat split; try reflexivity; try assumption.
  unfold mbind, exec, lift, ret.
  destruct (fe_curl env) as [out|e]; [|reflexivity].
  destruct (negb (returncode out =? 0) || String.eqb (stdout out) ""); [reflexivity|].
  destruct (utf8_decode (stdout out)) as [text|e]; [|reflexivity].
  destruct (json_loads text) as [data|e]; [reflexivity|].
  destruct (is_json_error e); reflexivity.
Qed.

(** What follows the fetch in either handler is computation only. *)
Lemma pep740_world (w : world) :
  snd (get_pep740_attestations_handler utf8_decode json_loads env package_name
         package_version w)
  = snd (fetch_provenance utf8_decode json_loads env package_name package_version w).
Proof.
  unfold get_pep740_attestations_handler, try_except, mbind at 1.
  destruct (fetch_provenance _ _ _ _ _ w) as [[stage|e] w1]; cbn [snd].
  - destruct stage; try reflexivity.
    unfold mbind, lift, ret.
    destruct (classify_publisher data) as [verdict|e]; cbn [snd].
    2:{ destruct (is_Exception e); reflexivity. }
    destruct (dict_get data "attestation_bundles" (PList [])) as [listed|e]; cbn [snd].
    2:{ destruct (is_Exception e); reflexivity. }
    destruct (py_len listed) as [n|e]; cbn [snd]; [reflexivity|].
    destruct (is_Exception e); reflexivity.
  - destruct (is_Exception e); reflexivity.
Qed.

Lemma parsed_world (w : world) :
  snd (get_parsed_provenance_handler b64decode utf8_decode json_loads env package_name
         package_version w)
  = snd (fetch_provenance utf8_decode json_loads env package_name package_version w).
Proof.
  unfold get_parsed_provenance_handler, try_except, mbind at 1.
  destruct (fetch_provenance _ _ _ _ _ w) as [[stage|e] w1]; cbn [snd].
  - destruct stage; try reflexivity.
    unfold mbind, lift, ret.
    destruct (parse_provenance_data b64decode utf8_decode json_loads data)
      as [parsed|e]; cbn [snd].
    2:{ destruct (is_Exception e); reflexivity. }
    destruct (py_setitem parsed "provenance_url" (PStr provenance_url))
      as [parsed1|e]; cbn [snd].
    2:{ destruct (is_Exception e); reflexivity. }
    destruct (py_setitem parsed1 "wheel_filename" (PStr wheel_filename))
      as [parsed2|e]; cbn [snd]; [reflexivity|].
    destruct (is_Exception e); reflexivity.
  - destruct (is_Exception e); reflexivity.
Qed.

End FetchingFacts.

Lemma fetch_provenance_complete (utf8_decode : string -> result string)
  (json_loads : string -> result pyval) (env : fetch_env)
  (package_name package_version : string) (w w' : world)
  (wheel_filename url : string) (data : pyval) :
  fetched_from utf8_decode json_loads env package_name package_version w w'
               wheel_filename url data ->
  fetch_provenance utf8_decode json_loads env package_name package_version w
  = (Ok (Fetched wheel_filename url data), w').
Proof.
  intros (wheel_path & others & lines & username & password & out & text
          & Hglob & -> & -> & Hnetrc & Hscan & Hcurl & Hrc & Hout & Htext & Hjson & ->).
  unfold fetch_provenance. rewrite Hglob.
  unfold mbind, lift, exec, ret. rewrite Hnetrc. cbn [bind]. rewrite Hscan, Hcurl, Hrc.
  cbn [Z.eqb negb orb].
  destruct (String.eqb_spec (stdout out) "") as [E|_]; [contradiction|].
  now rewrite Htext, Hjson.
Qed.

(** X20.  Attestations are reported only after a complete fetch.  When
    [get_pep740_attestations_handler] answers [has_attestations: true],
    there was a wheel of the distribution (hyphens of the name read as
    underscores), its file name stands in the address, [.netrc] gave a login
    and a password, curl was started once with them and that address, ended
    with exit code 0 and output that decodes and parses; the verdict is the
    classification of that document and the count is the length of its
    [attestation_bundles]. *)
Theorem attestations_come_from_a_fetch
  (utf8_decode : string -> result string) (json_loads : string -> result pyval)
  (env : fetch_env) (package_name package_version : string) (w : world)
  (is_chainguard : bool) (publisher : pyval) (url wheel_filename : string) (count : Z) :
  fst (get_pep740_attestations_handler utf8_decode json_loads env package_name
         package_version w)
  = Ok (HasAttestations is_chainguard publisher url wheel_filename count) ->
  exists data listed,
    fetched_from utf8_decode json_loads env package_name package_version w
      (snd (get_pep740_attestations_handler utf8_decode json_loads env package_name
              package_version w))
      wheel_filename url data
    /\ classify_publisher data = Ok (is_chainguard, publisher)
    /\ dict_get data "attestation_bundles" (PList []) = Ok listed
    /\ py_len listed = Ok count.
Proof.
  rewrite pep740_world.
  unfold get_pep740_attestations_handler, try_except, mbind at 1.
  destruct (fetch_provenance _ _ _ _ _ w) as [[stage|e] w1] eqn:Hfetch; cbn [snd].
  2:{ destruct (is_Exception e); discriminate. }
  destruct stage as [| | | |wf u data]; try discriminate.
  unfold mbind, lift, ret.
  destruct (classify_publisher data) as [[flag found]|e] eqn:Hclass.
  2:{ destruct (is_Exception e); discriminate. }
  destruct (dict_get data "attestation_bundles" (PList [])) as [listed|e] eqn:Hget.
  2:{ destruct (is_Exception e); discriminate. }
  destruct (py_len listed) as [n|e] eqn:Hlen.
  2:{ destruct (is_Exception e); discriminate. }
  cbn [fst snd]. intros H. injection H as <- <- <- <- <-.
  exists data, listed. split; [|auto].
  now apply fetch_provenance_fetched.
Qed.

Lemma attestations_come_from_a_fetch_witness :
  let env := fetch_with (quiet (document_text good_statement)) in
  let url := provenance_url_of "typing-extensions" "4.15.0"
               "typing_extensions-4.15.0-py3-none-any.whl" in
  exists data listed,
    fetched_from ref_utf8_decode ref_json_loads env "typing-extensions" "4.15.0"
      fresh_world
      (snd (get_pep740_attestations_handler ref_utf8_decode ref_json_loads env
              "typing-extensions" "4.15.0" fresh_world))
      "typing_extensions-4.15.0-py3-none-any.whl" url data
    /\ classify_publisher data
       = Ok (true, PDict [("issuer", PStr "https://issuer.enforce.dev")])
    /\ dict_get data "attestation_bundles" (PList []) = Ok listed
    /\ py_len listed = Ok 1.
Proof.
  intros env url.
  exact (attestations_come_from_a_fetch ref_utf8_decode ref_json_loads env
           "typing-extensions" "4.15.0" fresh_world true
           (PDict [("issuer", PStr "https://issuer.enforce.dev")]) url
           "typing_extensions-4.15.0-py3-none-any.whl" 1 eq_refl).
Defined.

(** X21.  The two provenance handlers act alike and keep their errors.  No
    exception of class [Exception] leaves either of them; they leave the
    same world behind; and that world is the one they found, or the one
    they found with a single curl started, on the credentials of [.netrc]
    and the address of the first matching wheel.  The log and the
    authentication state are not written. *)
Theorem provenance_handlers_act_alike
  (b64decode utf8_decode : string -> result string) (json_loads : string -> result pyval)
  (env : fetch_env) (package_name package_version : string) (w : world) :
  let after_pep740 :=
    snd (get_pep740_attestations_handler utf8_decode json_loads env package_name
           package_version w) in
  let after_parsed :=
    snd (get_parsed_provenance_handler b64decode utf8_decode json_loads env package_name
           package_version w) in
  (forall e, fst (get_pep740_attestations_handler utf8_decode json_loads env
                    package_name package_version w) = Raise e ->
             is_Exception e = false)
  /\ (forall e, fst (get_parsed_provenance_handler b64decode utf8_decode json_loads env
                       package_name package_version w) = Raise e ->
                is_Exception e = false)
  /\ after_pep740 = after_parsed
  /\ (after_parsed = w
      \/ exists lines username password wheel_path others,
           fe_netrc env = Some (Ok lines)
           /\ netrc_credentials lines = (Some username, Some password)
           /\ glob (fe_wheels env)
                   (wheel_pattern (str_replace "-" "_" package_name) package_version)
              = wheel_path :: others
           /\ after_parsed
              = log_event (curl_command username password
                             (provenance_url_of package_name package_version
                                (path_name wheel_path))) w).
Proof.
  intros after_pep740 after_parsed. subst after_pep740 after_parsed.
  split; [|split; [|split]].
  - intros e. apply try_except_contains. intros e' w'. eexists. reflexivity.
  - intros e. apply try_except_contains. intros e' w'. eexists. reflexivity.
  - now rewrite pep740_world, parsed_world.
  - rewrite parsed_world. apply fetch_provenance_world.
Qed.

(** X22.  A statement that cannot be decoded costs the whole answer.  When
    the document was fetched and one statement in it, anywhere, cannot be
    decoded, [get_parsed_provenance_handler] gives no part of the document:
    whatever it answers has status 500 and carries an error. *)
Theorem malformed_statement_is_a_500
  (b64decode utf8_decode : string -> result string) (json_loads : string -> result pyval)
  (env : fetch_env) (package_name package_version : string) (w w' : world)
  (wheel_filename url : string) (data payload : pyval) (e : pyexc) :
  fetched_from utf8_decode json_loads env package_name package_version w w'
               wheel_filename url data ->
  In payload (statements_of data) ->
  decode_payload b64decode utf8_decode json_loads payload = Raise e ->
  forall resp,
    fst (get_parsed_provenance_handler b64decode utf8_decode json_loads env package_name
           package_version w) = Ok resp ->
    provenance_status resp = 500
    /\ exists e', provenance_body_of resp
                  = ProvenanceError (if is_timeout e' then ErrTimeout else ErrRaised e').
Proof.
  intros Hfetch Hin Hbad resp.
  apply fetch_provenance_complete in Hfetch.
  unfold get_parsed_provenance_handler, try_except, mbind at 1. rewrite Hfetch.
  unfold mbind at 1, lift at 1.
  destruct (parse_provenance_data b64decode utf8_decode json_loads data)
    as [parsed|e0] eqn:Hparse.
  - destruct (parse_provenance_data_decodes _ _ _ _ _ _ Hparse Hin) as [statement Hok].
    rewrite Hok in Hbad. discriminate Hbad.
  - destruct (is_Exception e0); [|discriminate].
    unfold ret. cbn [fst]. intros H. injection H as <-.
    cbn [provenance_status provenance_body_of]. split; [reflexivity|]. now exists e0.
Qed.

Lemma malformed_statement_is_a_500_witness :
  let env := fetch_with (quiet (document_text bad_statement)) in
  let resp := mk_provenance_response (ProvenanceError (ErrRaised BinasciiError)) 500 in
  fst (get_parsed_provenance_handler ref_b64decode ref_utf8_decode ref_json_loads env
         "typing-extensions" "4.15.0" fresh_world) = Ok resp
  /\ provenance_status resp = 500
  /\ exists e', provenance_body_of resp
                = ProvenanceError (if is_timeout e' then ErrTimeout else ErrRaised e').
Proof.
  intros env resp. split; [reflexivity|].
  refine (malformed_statement_is_a_500 ref_b64decode ref_utf8_decode ref_json_loads env
            "typing-extensions" "4.15.0" fresh_world
            (log_event (curl_command "robot@example.org" "s3cret"
                          (provenance_url_of "typing-extensions" "4.15.0"
                             "typing_extensions-4.15.0-py3-none-any.whl")) fresh_world)
            "typing_extensions-4.15.0-py3-none-any.whl"
            (provenance_url_of "typing-extensions" "4.15.0"
               "typing_extensions-4.15.0-py3-none-any.whl")
            (PDict [("version", PInt 1);
                    ("attestation_bundles",
                     PList [PDict [("publisher",
                                    PDict [("issuer", PStr "https://issuer.enforce.dev")]);
                                   ("attestations",
                                    PList [PDict [("envelope",
                                                   PDict [("statement",
                                                           PStr bad_statement)])]])]])])
            (PStr bad_statement) BinasciiError _ _ eq_refl resp eq_refl).
  - exists "/app/wheels/typing_extensions-4.15.0-py3-none-any.whl", [], usual_netrc,
      "robot@example.org", "s3cret", (mk_proc_output 0 (document_text bad_statement) ""),
      (document_text bad_statement).
    repeat split; try reflexivity. discriminate.
  - left. reflexivity.
Defined.

(** X23.  The statuses of [get_parsed_provenance_handler].  It answers 404
    exactly when no wheel matches, 401 only when a wheel matches and
    [.netrc] gives no login or no password, in both cases having started
    nothing; and 200 only after a complete fetch, with the decoded document
    (its version and its bundles) followed by the address under
    [provenance_url] and the file name under [wheel_filename].  Every other
    answer is a 500. *)
Theorem parsed_provenance_statuses
  (b64decode utf8_decode : string -> result string) (json_loads : string -> result pyval)
  (env : fetch_env) (package_name package_version : string) (w : world)
  (resp : provenance_response) :
  let wheels := glob (fe_wheels env)
                     (wheel_pattern (str_replace "-" "_" package_name) package_version) in
  let w' := snd (get_parsed_provenance_handler b64decode utf8_decode json_loads env
                   package_name package_version w) in
  fst (get_parsed_provenance_handler b64decode utf8_decode json_loads env package_name
         package_version w) = Ok resp ->
  (provenance_status resp = 404 <-> wheels = [])
  /\ (provenance_status resp = 404 \/ provenance_status resp = 401 -> w' = w)
  /\ (provenance_status resp = 401 ->
      provenance_body_of resp = ProvenanceError ErrNoCredentials)
  /\ (provenance_status resp = 200 ->
      exists data doc_version bundles,
        fetched_from utf8_decode json_loads env package_name package_version w w'
          (path_name (hd "" wheels))
          (provenance_url_of package_name package_version (path_name (hd "" wheels)))
          data
        /\ parse_provenance_data b64decode utf8_decode json_loads data
           = Ok (PDict [("version", doc_version); ("bundles", bundles)])
        /\ provenance_body_of resp
           = ProvenanceParsed
               (PDict [("version", doc_version); ("bundles", bundles);
                       ("provenance_url",
                        PStr (provenance_url_of package_name package_version
                                (path_name (hd "" wheels))));
                       ("wheel_filename", PStr (path_name (hd "" wheels)))]))
  /\ (provenance_status resp = 404 \/ provenance_status resp = 401
      \/ provenance_status resp = 200 \/ provenance_status resp = 500).
Proof.
  intros wheels w'. subst w'. rewrite parsed_world.
  unfold get_parsed_provenance_handler, try_except, mbind at 1.
  destruct (fetch_provenance utf8_decode json_loads env package_name package_version w)
    as [[stage|e] w1] eqn:Hfetch; cbn [snd].
  2:{ destruct (is_Exception e); [|discriminate]. unfold ret. cbn [fst].
      intros H. injection H as <-. cbn [provenance_status provenance_body_of].
      assert (Hw : wheels <> []).
      { subst wheels. intros E. unfold fetch_provenance in Hfetch. rewrite E in Hfetch.
        discriminate Hfetch. }
      repeat split; try discriminate; try tauto; intros [H|H]; discriminate H. }
  assert (Hstage : stage = WheelMissing <-> wheels = []).
  { subst wheels. unfold fetch_provenance in Hfetch.
    destruct (glob _ _) as [|wheel_path others].
    - injection Hfetch as <- <-. tauto.
    - split; [|discriminate]. intros ->.
      unfold mbind, lift, exec, ret in Hfetch.
      destruct (fe_netrc env) as [[lines|e]|]; cbn [bind] in Hfetch; try discriminate.
      destruct (netrc_credentials lines) as [[username|] [password|]];
        try discriminate.
      destruct (fe_curl env) as [out|e]; [|discriminate].
      destruct (negb (returncode out =? 0) || String.eqb (stdout out) "");
        [discriminate|].
      destruct (utf8_decode (stdout out)) as [text|e]; [|discriminate].
      destruct (json_loads text) as [data|e]; [discriminate|].
      destruct (is_json_error e); discriminate. }
  assert (Hquiet : stage = WheelMissing \/ stage = NoCredentials -> w1 = w).
  { pose proof (fetch_provenance_world utf8_decode json_loads env package_name
                  package_version w) as Hw.
    cbn zeta in Hw. rewrite Hfetch in Hw. cbn [snd] in Hw.
    destruct Hw as [Hw|(lines & username & password & wheel_path & others
                        & Hnetrc & Hscan & Hglob & Hw)]; [intros _; exact Hw|].
    intros Hs. exfalso. unfold fetch_provenance in Hfetch. rewrite Hglob in Hfetch.
    unfold mbind, lift, exec, ret in Hfetch. rewrite Hnetrc in Hfetch.
    cbn [bind] in Hfetch. rewrite Hscan in Hfetch.
    destruct (fe_curl env) as [out|e]; [|discriminate].
    destruct (negb (returncode out =? 0) || String.eqb (stdout out) "").
    { injection Hfetch as <- _. destruct Hs; discriminate. }
    destruct (utf8_decode (stdout out)) as [text|e]; [|discriminate].
    destruct (json_loads text) as [data|e].
    { injection Hfetch as <- _. destruct Hs; discriminate. }
    destruct (is_json_error e); [|discriminate].
    injection Hfetch as <- _. destruct Hs; discriminate. }
  destruct stage as [| | | |wf url data].
  - unfold ret. cbn [fst]. intros H. injection H as <-.
    cbn [provenance_status provenance_body_of].
    repeat split; try discriminate; try tauto; intros; auto.
  - unfold ret. cbn [fst]. intros H. injection H as <-.
    cbn [provenance_status provenance_body_of].
    assert (wheels <> []) by (intros E; apply Hstage in E; discriminate E).
    repeat split; try discriminate; try tauto; intros; auto.
  - unfold ret. cbn [fst]. intros H. injection H as <-.
    cbn [provenance_status provenance_body_of].
    assert (wheels <> []) by (intros E; apply Hstage in E; discriminate E).
    repeat split; try discriminate; try tauto; intros [H'|H']; discriminate H'.
  - unfold ret. cbn [fst]. intros H. injection H as <-.
    cbn [provenance_status provenance_body_of].
    assert (wheels <> []) by (intros E; apply Hstage in E; discriminate E).
    repeat split; try discriminate; try tauto; intros [H'|H']; discriminate H'.
  - assert (Hw : wheels <> []) by (intros E; apply Hstage in E; discriminate E).
    pose proof (fetch_provenance_fetched _ _ _ _ _ _ _ _ _ _ Hfetch) as Hfrom.
    assert (Hnames : wf = path_name (hd "" wheels)
                     /\ url = provenance_url_of package_name package_version
                                (path_name (hd "" wheels))).
    { destruct Hfrom as (wheel_path & others & ? & ? & ? & ? & ? & Hglob & -> & -> & _).
      subst wheels. rewrite Hglob. now split. }
    destruct Hnames as [-> ->].
    unfold mbind, lift, ret.
    destruct (parse_provenance_data b64decode utf8_decode json_loads data)
      as [parsed|e] eqn:Hparse.
    2:{ destruct (is_Exception e); [|discriminate]. cbn [fst].
        intros H. injection H as <-. cbn [provenance_status provenance_body_of].
        repeat split; try discriminate; try tauto; intros [H'|H']; discriminate H'. }
    assert (Hshape : exists doc_version bundles,
               parsed = PDict [("version", doc_version); ("bundles", bundles)]).
    { unfold parse_provenance_data in Hparse.
      inv_bind Hparse. inv_bind Hparse. inv_bind Hparse. inv_bind Hparse.
      injection Hparse as <-. eauto. }
    destruct Hshape as (doc_version & bundles & ->).
    cbn [py_setitem alist_set String.eqb Ascii.eqb Bool.eqb fst]. intros H.
    injection H as <-. cbn [provenance_status provenance_body_of].
    repeat split; try discriminate; try tauto.
    + intros [H'|H']; discriminate H'.
    + intros _. exists data, doc_version, bundles. repeat split; assumption.
Qed.

Lemma parsed_provenance_statuses_witness :
  let env := fetch_with (quiet (document_text good_statement)) in
  exists resp,
    fst (get_parsed_provenance_handler ref_b64decode ref_utf8_decode ref_json_loads env
           "typing-extensions" "4.15.0" fresh_world) = Ok resp
    /\ provenance_status resp = 200
    /\ (provenance_status resp = 404 <->
        glob (fe_wheels env) (wheel_pattern (str_replace "-" "_" "typing-extensions")
                                "4.15.0") = []).
Proof.
  intros env. eexists. split; [reflexivity|]. split; [reflexivity|].
  exact (proj1 (parsed_provenance_statuses ref_b64decode ref_utf8_decode ref_json_loads
                  env "typing-extensions" "4.15.0" fresh_world _ eq_refl)).
Defined.

(** ** Signing in *)

Section SigningInFacts.

Variable utf8_decode : string -> result string.
Variable json_loads : string -> result pyval.
Variable describe : pyexc -> string.
Variable env : login_env.

Lemma check_auth_status_spec (w : world) :
  exists b,
    check_auth_status utf8_decode json_loads env w = (Ok b, log_event status_command w)
    /\ (b = true <-> status_says_yes utf8_decode json_loads env).
Proof.
  unfold check_auth_status, exec, status_says_yes.
  destruct (le_status env) as [out|e].
  2:{ exists false. split; [reflexivity|]. split; [discriminate|].
      intros (? & ? & ? & H & _). discriminate H. }
  destruct (returncode out =? 0) eqn:Hrc.
  2:{ exists false. split; [reflexivity|]. split; [discriminate|].
      intros (out' & ? & ? & H & Hz & _). injection H as <-.
      apply Z.eqb_neq in Hrc. contradiction. }
  apply Z.eqb_eq in Hrc.
  destruct (utf8_decode (stdout out)) as [text|e] eqn:Htext; cbn [bind].
  2:{ exists false. split; [reflexivity|]. split; [discriminate|].
      intros (out' & ? & ? & H & _ & Ht & _). injection H as <-. congruence. }
  destruct (json_loads text) as [status_data|e] eqn:Hjson.
  2:{ exists false. split; [reflexivity|]. split; [discriminate|].
      intros (out' & text' & ? & H & _ & Ht & Hj & _). injection H as <-.
      congruence. }
  exists (truthy status_data). split; [reflexivity|]. split.
  - intros Ht. exists out, text, status_data. now repeat split.
  - intros (out' & text' & data' & H & _ & Ht & Hj & Htrue). injection H as <-.
    congruence.
Qed.

Lemma match_https_url_some (s url : string) :
  match_https_url s = Some url ->
  exists run rest,
    s = (url ++ rest)%string /\ url = ("https://" ++ run)%string /\ run <> ""
    /\ str_forallb (fun c => negb (is_space c)) run = true.
Proof.
  unfold match_https_url.
  destruct (strip_prefix "https://" s) as [rest|] eqn:E; [|discriminate].
  apply strip_prefix_app in E.
  destruct (take_while (fun c => negb (is_space c)) rest) as [|c run] eqn:Hrun;
    [discriminate|].
  intros H. injection H as <-.
  exists (String c run), (drop_while (fun c => negb (is_space c)) rest).
  repeat split; try discriminate.
  - pose proof (take_drop_while (fun c => negb (is_space c)) rest) as Hsplit.
    rewrite Hrun in Hsplit. rewrite E. rewrite Hsplit at 1. reflexivity.
  - rewrite <- Hrun. apply take_while_forallb.
Qed.

(** An address that the loop gives was read from a line of the login
    process that announces it. *)
Lemma read_auth_url_some (lines : list (result string)) (url : string) :
  read_auth_url utf8_decode lines = Ok (Some url) ->
  exists raw line before run rest,
    In (Ok raw) lines /\ utf8_decode raw = Ok line
    /\ str_contains "Visit this URL" line = true
    /\ line = (before ++ url ++ rest)%string
    /\ url = ("https://" ++ run)%string /\ run <> ""
    /\ str_forallb (fun c => negb (is_space c)) run = true.
Proof.
  induction lines as [|[raw|e] lines IH]; cbn [read_auth_url]; try discriminate.
  assert (Hrest : read_auth_url utf8_decode lines = Ok (Some url) ->
                  exists raw0 line before run rest,
                    In (Ok raw0) (Ok raw :: lines) /\ utf8_decode raw0 = Ok line
                    /\ str_contains "Visit this URL" line = true
                    /\ line = (before ++ url ++ rest)%string
                    /\ url = ("https://" ++ run)%string /\ run <> ""
                    /\ str_forallb (fun c => negb (is_space c)) run = true).
  { intros H. destruct (IH H) as (raw0 & line & before & run & rest & Hin & Hrestq).
    exists raw0, line, before, run, rest. split; [now right | exact Hrestq]. }
  destruct (String.eqb raw ""); [discriminate|].
  destruct (utf8_decode raw) as [line|e] eqn:Hline; cbn [bind]; [|discriminate].
  destruct (str_contains "Visit this URL" line) eqn:Hvisit; cbn [andb]; [|exact Hrest].
  destruct (str_contains "https://" line); [|exact Hrest].
  destruct (re_search match_https_url line) as [found|] eqn:Hsearch; [|exact Hrest].
  intros H. injection H as ->.
  apply re_search_some in Hsearch as (before & after & Hsplit & Hmatch & _).
  apply match_https_url_some in Hmatch as (run & rest & Hafter & Hurl & Hrun & Hns).
  exists raw, line, before, run, rest.
  repeat split; try assumption; [now left | now rewrite Hsplit, Hafter].
Qed.

End SigningInFacts.

(** X24.  [check_auth_status] always answers.  Both of its [except:]
    clauses are bare, so it returns a truth value whatever happens: what
    the status command raises, a cancellation included, becomes [False],
    and so does an exit code other than 0.  It starts the status command
    once and writes nothing; and it says yes exactly when the command ended
    with exit code 0 and printed, in valid UTF-8, a JSON value that counts
    as true. *)
Theorem check_auth_status_always_answers
  (utf8_decode : string -> result string) (json_loads : string -> result pyval)
  (env : login_env) (w : world) :
  (exists answer,
     check_auth_status utf8_decode json_loads env w
     = (Ok answer, log_event status_command w)
     /\ (answer = true <-> status_says_yes utf8_decode json_loads env))
  /\ (forall e, le_status env = Raise e ->
                fst (check_auth_status utf8_decode json_loads env w) = Ok false)
  /\ (forall out, le_status env = Ok out -> returncode out <> 0 ->
                  fst (check_auth_status utf8_decode json_loads env w) = Ok false).
Proof.
  destruct (check_auth_status_spec utf8_decode json_loads env w)
    as (answer & Hrun & Hyes).
  split; [now exists answer|].
  assert (Hno : ~ status_says_yes utf8_decode json_loads env -> answer = false).
  { intros Hn. destruct answer; [|reflexivity]. exfalso. apply Hn. now apply Hyes. }
  rewrite Hrun. cbn [fst]. split.
  - intros e He. f_equal. apply Hno. intros (out & ? & ? & H & _). congruence.
  - intros out Hout Hrc. f_equal. apply Hno.
    intros (out' & ? & ? & H & Hz & _). congruence.
Qed.

(** A status command that is cancelled, and one that prints [{}], both
    count as "not signed in"; a list that is not empty counts as signed in,
    whatever it holds. *)
Example check_auth_status_runs :
  fst (check_auth_status ref_utf8_decode ref_json_loads
         (mk_login_env (Raise CancelledError) (Ok 1) [] (Ok tt) (Ok 0) (Ok tt)) fresh_world)
  = Ok false
  /\ fst (check_auth_status ref_utf8_decode ref_json_loads
            (mk_login_env (quiet "{}") (Ok 1) [] (Ok tt) (Ok 0) (Ok tt)) fresh_world)
     = Ok false
  /\ fst (check_auth_status ref_utf8_decode ref_json_loads
            (mk_login_env (quiet "[false]") (Ok 1) [] (Ok tt) (Ok 0) (Ok tt))
            fresh_world)
     = Ok true.
Proof. repeat split. Qed.

(** X25.  How the sign-in ends.  Started as at startup (not signed in, no
    error), [auth_worker] lets no exception of class [Exception] out; it
    leaves [authenticated] true exactly when the status command said yes or
    the login process printed an address, the address was announced, and
    the process ended with exit code 0, and then the address is cleared and
    no error is set; when it returns without having signed in, an error is
    set.  It kills the login process only when that process printed no
    address. *)
Theorem auth_worker_outcome
  (utf8_decode : string -> result string) (json_loads : string -> result pyval)
  (describe : pyexc -> string) (env : login_env) (lw : login_world) :
  authenticated (auth_state (lw_world lw)) = false ->
  error (auth_state (lw_world lw)) = None ->
  let r := auth_worker utf8_decode json_loads describe env lw in
  let a' := auth_state (lw_world (snd r)) in
  (forall e, fst r = Raise e -> is_Exception e = false)
  /\ (authenticated a' = true <->
      status_says_yes utf8_decode json_loads env \/ login_succeeded utf8_decode env)
  /\ (authenticated a' = true -> auth_url a' = None /\ error a' = None)
  /\ (fst r = Ok tt -> authenticated a' = false -> exists msg, error a' = Some msg)
  /\ (lw_killed (snd r) = true ->
      lw_killed lw = true
      \/ (read_auth_url utf8_decode (le_lines env) = Ok None
          /\ error a' = Some "Failed to get authentication URL")).
Proof.
  intros Hfresh Hquiet r a'. subst a' r.
  destruct (check_auth_status_spec utf8_decode json_loads env (lw_world lw))
    as (already & Hcheck & Hyes).
  cbv beta delta [auth_worker ltry_except lbind announce in_world].
  rewrite Hcheck. cbv beta iota.
  destruct already.
  { cbn. repeat split; try discriminate; try tauto; auto. }
  assert (Hno : ~ status_says_yes utf8_decode json_loads env)
    by (intros H; apply Hyes in H; discriminate H).
  unfold login_succeeded.
  destruct (le_login env) as [process|e] eqn:Hlogin.
  2:{ destruct (is_Exception e) eqn:He; cbn; rewrite ?Hfresh, ?Hquiet;
      (repeat split; try discriminate; try tauto; eauto;
       try (intros [H|(? & ? & H & _)]; [contradiction | discriminate H]);
       try (intros e0 H; injection H as <-; exact He)). }
  destruct (read_auth_url utf8_decode (le_lines env)) as [[url|]|e] eqn:Hread.
  - unfold py_print.
    destruct (le_print env) as [[]|e] eqn:Hprint.
    2:{ destruct (is_Exception e) eqn:He; cbn; rewrite ?Hfresh, ?Hquiet;
        (repeat split; try discriminate; try tauto; eauto;
         try (intros [H|(? & ? & _ & _ & H & _)]; [contradiction | discriminate H]);
         try (intros e0 H; injection H as <-; exact He)). }
    unfold set_auth, lret, complete, lbind. cbn [lw_world lw_printed lw_killed].
    destruct (le_wait env) as [code|e] eqn:Hwait.
    + destruct (code =? 0) eqn:Hcode; cbn; rewrite ?Hfresh, ?Hquiet.
      * apply Z.eqb_eq in Hcode. subst code.
        repeat split; try discriminate; try tauto; eauto.
        intros _. right. exists process, url. now repeat split.
      * apply Z.eqb_neq in Hcode.
        repeat split; try discriminate; try tauto; eauto.
        intros [H|(? & ? & _ & _ & _ & H)]; [contradiction | congruence].
    + destruct (is_Exception e) eqn:He; cbn; rewrite ?Hfresh, ?Hquiet;
        (repeat split; try discriminate; try tauto; eauto;
         try (intros [H|(? & ? & _ & _ & _ & H)]; [contradiction | discriminate H]);
         try (intros e0 H; injection H as <-; exact He)).
  - unfold set_auth, kill, lret, lbind. cbn [lw_world lw_printed lw_killed].
    destruct (le_kill env) as [[]|e] eqn:Hkill.
    + cbn; rewrite ?Hfresh, ?Hquiet.
      repeat split; try discriminate; try tauto; eauto.
      intros [H|(? & ? & _ & H & _)]; [contradiction | discriminate H].
    + destruct (is_Exception e) eqn:He; cbn; rewrite ?Hfresh, ?Hquiet;
        (repeat split; try discriminate; try tauto; eauto;
         try (intros [H|(? & ? & _ & H & _)]; [contradiction | discriminate H]);
         try (intros e0 H; injection H as <-; exact He)).
  - destruct (is_Exception e) eqn:He; cbn; rewrite ?Hfresh, ?Hquiet;
      (repeat split; try discriminate; try tauto; eauto;
       try (intros [H|(? & ? & _ & H & _)]; [contradiction | discriminate H]);
       try (intros e0 H; injection H as <-; exact He)).
Qed.

Lemma auth_worker_outcome_witness :
  let r := auth_worker ref_utf8_decode ref_json_loads no_message (login_ending_with 0)
             at_startup in
  authenticated (auth_state (lw_world (snd r))) = true
  /\ auth_url (auth_state (lw_world (snd r))) = None
  /\ error (auth_state (lw_world (snd r))) = None.
Proof.
  intros r. split; [reflexivity|].
  exact (proj1 (proj2 (proj2 (auth_worker_outcome ref_utf8_decode ref_json_loads
                                no_message (login_ending_with 0) at_startup
                                eq_refl eq_refl)))
           eq_refl).
Defined.

(** X26.  The address shown to the user.  An address that the worker
    leaves in [auth_url], none having been there, was read from the login
    process: it stands on a line of its output that contains [Visit this
    URL], begins with [https://], has something behind that and no white
    space in it, and was printed.  It is left there only when the login did
    not end with exit code 0, so that [authenticated] is as before. *)
Theorem shown_address_comes_from_login
  (utf8_decode : string -> result string) (json_loads : string -> result pyval)
  (describe : pyexc -> string) (env : login_env) (lw : login_world) (url : string) :
  auth_url (auth_state (lw_world lw)) = None ->
  let lw' := snd (auth_worker utf8_decode json_loads describe env lw) in
  auth_url (auth_state (lw_world lw')) = Some url ->
  (exists raw line before run rest,
     In (Ok raw) (le_lines env) /\ utf8_decode raw = Ok line
     /\ str_contains "Visit this URL" line = true
     /\ line = (before ++ url ++ rest)%string
     /\ url = ("https://" ++ run)%string /\ run <> ""
     /\ str_forallb (fun c => negb (is_space c)) run = true)
  /\ In ("Authentication URL generated: " ++ url)%string (lw_printed lw')
  /\ le_wait env <> Ok 0
  /\ authenticated (auth_state (lw_world lw')) = authenticated (auth_state (lw_world lw)).
Proof.
  intros Hnone lw'. subst lw'.
  destruct (check_auth_status_spec utf8_decode json_loads env (lw_world lw))
    as (already & Hcheck & _).
  cbv beta delta [auth_worker ltry_except lbind announce in_world].
  rewrite Hcheck. cbv beta iota.
  destruct already; [cbn; rewrite ?Hnone; discriminate|].
  destruct (le_login env) as [process|e] eqn:Hlogin.
  2:{ destruct (is_Exception e); cbn; rewrite ?Hnone; discriminate. }
  destruct (read_auth_url utf8_decode (le_lines env)) as [[found|]|e] eqn:Hread.
  - unfold py_print.
    destruct (le_print env) as [[]|e] eqn:Hprint.
    2:{ destruct (is_Exception e); cbn; rewrite ?Hnone; discriminate. }
    unfold set_auth, lret, complete, lbind. cbn [lw_world lw_printed lw_killed].
    assert (Hprinted : forall l : list string,
               In ("Authentication URL generated: " ++ found)%string
                  (l ++ [("Authentication URL generated: " ++ found)%string]))
      by (intros l; apply in_or_app; right; now left).
    destruct (le_wait env) as [code|e] eqn:Hwait.
    + destruct (code =? 0) eqn:Hcode; cbn; [discriminate|].
      intros H. injection H as <-. apply Z.eqb_neq in Hcode.
      split; [now apply read_auth_url_some|]. split; [apply Hprinted|].
      split; [congruence | reflexivity].
    + destruct (is_Exception e); cbn; intros H; injection H as <-;
        (split; [now apply read_auth_url_some|]; split; [apply Hprinted|];
         split; [discriminate | reflexivity]).
  - unfold set_auth, kill, lret, lbind. cbn [lw_world lw_printed lw_killed].
    destruct (le_kill env) as [[]|e]; [cbn; rewrite ?Hnone; discriminate|].
    destruct (is_Exception e); cbn; rewrite ?Hnone; discriminate.
  - destruct (is_Exception e); cbn; rewrite ?Hnone; discriminate.
Qed.

Lemma shown_address_comes_from_login_witness :
  let lw' := snd (auth_worker ref_utf8_decode ref_json_loads no_message
                    (login_ending_with 1) at_startup) in
  auth_state (lw_world lw')
  = mk_auth false (Some "https://auth.chainguard.dev/activate?code=QWER-1234") None
            (Some "Authentication failed")
  /\ In "Authentication URL generated: https://auth.chainguard.dev/activate?code=QWER-1234"
        (lw_printed lw')
  /\ le_wait (login_ending_with 1) <> Ok 0.
Proof.
  intros lw'. split; [reflexivity|].
  pose proof (shown_address_comes_from_login ref_utf8_decode ref_json_loads no_message
                (login_ending_with 1) at_startup
                "https://auth.chainguard.dev/activate?code=QWER-1234" eq_refl eq_refl)
    as (_ & Hprinted & Hwait & _).
  split; [exact Hprinted | exact Hwait].
Defined.

(** ** Provenance from the SBOM *)

Lemma str_rev_app (a b : string) : str_rev (a ++ b) = (str_rev b ++ str_rev a)%string.
Proof.
  unfold str_rev. rewrite str_rev_onto_app. apply str_rev_onto_acc.
Qed.

Lemma str_rev_twice (s : string) : str_rev (str_rev s) = s.
Proof.
  induction s as [|c s IH]; [reflexivity|].
  change (str_rev (String c s)) with (str_rev_onto s (String c "")).
  rewrite str_rev_onto_acc. fold (str_rev s). rewrite str_rev_app, IH. reflexivity.
Qed.

Lemma str_forallb_app (p : ascii -> bool) (a b : string) :
  str_forallb p (a ++ b) = str_forallb p a && str_forallb p b.
Proof.
  induction a as [|c a IH]; simpl; [reflexivity|]. now rewrite IH, andb_assoc.
Qed.

Lemma str_forallb_rev (p : ascii -> bool) (s : string) :
  str_forallb p (str_rev s) = str_forallb p s.
Proof.
  induction s as [|c s IH]; [reflexivity|].
  change (str_rev (String c s)) with (str_rev_onto s (String c "")).
  rewrite str_rev_onto_acc. fold (str_rev s). rewrite str_forallb_app, IH. simpl.
  rewrite andb_true_r. apply andb_comm.
Qed.

Lemma str_forallb_drop_while (p q : ascii -> bool) (s : string) :
  str_forallb p s = true -> str_forallb p (drop_while q s) = true.
Proof.
  induction s as [|c s IH]; simpl; [auto|]. intros H.
  destruct (q c); [apply IH; now apply andb_prop in H | exact H].
Qed.

Lemma str_forallb_strip (p : ascii -> bool) (s : string) :
  str_forallb p s = true -> str_forallb p (str_strip s) = true.
Proof.
  intros H. unfold str_strip. rewrite str_forallb_rev.
  apply str_forallb_drop_while. rewrite str_forallb_rev.
  now apply str_forallb_drop_while.
Qed.

(** [strip()] leaves no white space at either end. *)
Lemma str_strip_trimmed (s : string) : trimmed (str_strip s).
Proof.
  unfold str_strip.
  set (t := drop_while is_space s).
  set (u := drop_while is_space (str_rev t)).
  split.
  - intros c r Hhead.
    assert (Ht : t = (str_rev u ++ str_rev (take_while is_space (str_rev t)))%string).
    { rewrite <- str_rev_app. subst u. rewrite <- take_drop_while.
      now rewrite str_rev_twice. }
    rewrite Hhead in Ht. apply (drop_while_head is_space s c _ Ht).
  - intros r c Hlast.
    assert (Hu : u = String c (str_rev r)).
    { rewrite <- (str_rev_twice u), Hlast, str_rev_app. reflexivity. }
    apply (drop_while_head is_space (str_rev t) c _ Hu).
Qed.

Lemma str_split_pieces (c : ascii) (s piece : string) :
  In piece (str_split c s) -> str_forallb (fun x => negb (Ascii.eqb x c)) piece = true.
Proof.
  revert piece. induction s as [|x s IH]; intros piece; cbn [str_split].
  - intros [<-|[]]. reflexivity.
  - destruct (Ascii.eqb x c) eqn:Hx.
    + intros [<-|Hin]; [reflexivity | now apply IH].
    + destruct (str_split c s) as [|h t] eqn:Hsplit.
      * intros [<-|[]]. simpl. now rewrite Hx.
      * intros [<-|Hin].
        -- simpl. rewrite Hx. apply IH. now left.
        -- apply IH. now right.
Qed.

Lemma patch_list_clean (text patch : string) :
  In patch (patch_list text) ->
  patch <> "" /\ str_forallb not_comma patch = true /\ trimmed patch.
Proof.
  unfold patch_list. intros H. apply in_flat_map in H as (piece & Hpiece & Hin).
  destruct (String.eqb_spec (str_strip piece) "") as [_|Hne]; [contradiction|].
  destruct Hin as [<-|[]]. split; [exact Hne|]. split.
  - apply str_forallb_strip. apply (str_split_pieces "," text piece Hpiece).
  - apply str_strip_trimmed.
Qed.

Lemma read_creators_keeps (sbom_data : pyval) (prov prov' : sbom_provenance) :
  read_creators sbom_data prov = Ok prov' ->
  patches prov' = patches prov /\ source_repo prov' = source_repo prov
  /\ commit_id prov' = commit_id prov.
Proof.
  unfold read_creators. intros H.
  apply bind_ok in H as (has_info & _ & H).
  apply bind_ok in H as (has_creators & _ & H).
  destruct has_creators; [|injection H as <-; auto].
  apply bind_ok in H as (info & _ & H). apply bind_ok in H as (creators & _ & H).
  apply bind_ok in H as (joined & _ & H). apply bind_ok in H as (info' & _ & H).
  apply bind_ok in H as (made & _ & H). injection H as <-. auto.
Qed.

Lemma match_repo_commit_some (scheme rest repo commit : string) :
  match_repo_commit scheme rest = Some (repo, commit) ->
  exists host after,
    rest = (host ++ "@" ++ commit ++ after)%string
    /\ repo = (scheme ++ host)%string /\ host <> ""
    /\ str_forallb not_at host = true
    /\ String.length commit = 40%nat /\ str_forallb is_hex commit = true.
Proof.
  unfold match_repo_commit.
  destruct (take_while not_at rest) as [|c host] eqn:Hhost; [discriminate|].
  destruct (strip_prefix "@" (drop_while not_at rest)) as [after|] eqn:Hat;
    [|discriminate].
  destruct ((String.length (str_take 40 after) =? 40)%nat
            && str_forallb is_hex (str_take 40 after)) eqn:Hok; [|discriminate].
  intros H.
  assert (Hrepo : repo = (scheme ++ String c host)%string) by congruence.
  assert (Hcommit : commit = str_take 40 after) by congruence.
  clear H. subst repo commit. apply andb_prop in Hok as [Hlen Hhex].
  apply Nat.eqb_eq in Hlen. apply strip_prefix_app in Hat.
  exists (String c host), (str_drop 40 after).
  repeat split; try assumption; try discriminate.
  - rewrite (take_drop_while not_at rest) at 1. rewrite Hhost, Hat.
    now rewrite str_take_drop.
  - rewrite <- Hhost. apply take_while_forallb.
Qed.

Lemma match_git_location_some (s repo commit : string) :
  match_git_location s = Some (repo, commit) ->
  exists host after,
    s = ("git+" ++ repo ++ "@" ++ commit ++ after)%string
    /\ (repo = ("https://" ++ host)%string \/ repo = ("http://" ++ host)%string)
    /\ host <> "" /\ str_forallb not_at host = true
    /\ String.length commit = 40%nat /\ str_forallb is_hex commit = true.
Proof.
  unfold match_git_location.
  destruct (strip_prefix "git+" s) as [r|] eqn:Hgit; [|discriminate].
  apply strip_prefix_app in Hgit. subst s.
  destruct (strip_prefix "https://" r) as [rest|] eqn:Hs.
  - apply strip_prefix_app in Hs. subst r. intros H.
    apply match_repo_commit_some in H
      as (host & after & -> & -> & Hne & Hhost & Hlen & Hhex).
    exists host, after.
    repeat split; try assumption; first [now left | now rewrite !str_app_assoc].
  - destruct (strip_prefix "http://" r) as [rest|] eqn:Hp; [|discriminate].
    apply strip_prefix_app in Hp. subst r. intros H.
    apply match_repo_commit_some in H
      as (host & after & -> & -> & Hne & Hhost & Hlen & Hhex).
    exists host, after.
    repeat split; try assumption; first [now right | now rewrite !str_app_assoc].
Qed.

(** What reading one package does to the provenance. *)
Lemma read_package_spec (package : pyval) (prov prov' : sbom_provenance) :
  read_package package prov = Ok prov' ->
  (patches prov' = patches prov \/ exists text, patches prov' = patch_list text)
  /\ ((source_repo prov' = source_repo prov /\ commit_id prov' = commit_id prov)
      \/ exists d location repo commit,
           package = PDict d
           /\ alist_get "downloadLocation" d = Some (PStr location)
           /\ re_search match_git_location location = Some (repo, commit)
           /\ source_repo prov' = Some repo /\ commit_id prov' = Some commit).
Proof.
  unfold read_package. intros H.
  apply bind_ok in H as (source_info & Hinfo & H).
  apply bind_ok in H as (has_patches & _ & H).
  apply bind_ok in H as (prov1 & Hprov1 & H).
  assert (H1 : (patches prov1 = patches prov \/ exists text, patches prov1 = patch_list text)
               /\ source_repo prov1 = source_repo prov
               /\ commit_id prov1 = commit_id prov).
  { destruct has_patches; [|injection Hprov1 as <-; auto].
    apply bind_ok in Hprov1 as (text & _ & Hprov1). injection Hprov1 as <-.
    cbn. split; [right; now exists text | auto]. }
  destruct H1 as (Hp & Hr & Hc).
  destruct package as [| | | | | |d]; try discriminate.
  apply bind_ok in H as (has_location & _ & H).
  destruct has_location; [|injection H as <-; split; [exact Hp | left; auto]].
  apply bind_ok in H as (download_loc & Hloc & H).
  apply bind_ok in H as (has_git & _ & H).
  destruct has_git; [|injection H as <-; split; [exact Hp | left; auto]].
  destruct download_loc as [| | | |location| |]; try discriminate.
  destruct (re_search match_git_location location) as [[repo commit]|] eqn:Hsearch.
  - injection H as <-. cbn. split; [exact Hp|]. right.
    exists d, location, repo, commit. repeat split; try assumption.
    cbn [py_getitem] in Hloc.
    destruct (alist_get "downloadLocation" d); [now injection Hloc as -> | discriminate].
  - injection H as <-. split; [exact Hp | left; auto].
Qed.

Lemma scan_packages_spec (package_name : string) (packages : list pyval)
  (prov prov' : sbom_provenance) :
  scan_packages package_name packages prov = Ok prov' ->
  (find (is_named package_name) packages = None /\ prov' = prov)
  \/ exists package,
       find (is_named package_name) packages = Some package
       /\ read_package package prov = Ok prov'.
Proof.
  induction packages as [|package packages IH]; cbn [scan_packages find].
  - intros H. injection H as <-. now left.
  - intros H. apply bind_ok in H as (name & Hname & H).
    destruct package as [| | | | | |d]; try discriminate.
    cbn [dict_get] in Hname. injection Hname as <-. cbn [is_named].
    destruct (py_eq_str _ package_name); [right; eauto | now apply IH].
Qed.

(** An iteration that reaches an object goes over a list. *)
Lemma py_iter_finds_object (listed : pyval) (packages : list pyval)
  (package_name : string) (package : pyval) :
  py_iter listed = Ok packages ->
  find (is_named package_name) packages = Some package ->
  listed = PList packages.
Proof.
  intros Hiter Hfind. apply find_some in Hfind as [Hin Hnamed].
  destruct listed as [| | | |s|l|d]; try discriminate; cbn [py_iter] in Hiter;
    injection Hiter as <-; [exfalso | reflexivity | exfalso].
  - unfold chars_of in Hin. apply in_map_iff in Hin as (c & <- & _). discriminate.
  - apply in_map_iff in Hin as (kv & <- & _). discriminate.
Qed.

(** Everything that a returned provenance rests on. *)
Lemma extract_sbom_provenance_some (env : sbom_env) (package_name version : string)
  (p : sbom_provenance) :
  extract_sbom_provenance env package_name version = Ok (Extracted (Some p)) ->
  exists dist_info others sbom_data prov,
    se_glob env (package_name ++ "-*.dist-info")%string = dist_info :: others
    /\ se_exists env (sbom_path_of dist_info) = true
    /\ se_load env (sbom_path_of dist_info) = Ok sbom_data
    /\ patches prov = [] /\ source_repo prov = None /\ commit_id prov = None
    /\ (p = prov
        \/ exists package,
             named_package package_name sbom_data = Some package
             /\ read_package package prov = Ok p).
Proof.
  unfold extract_sbom_provenance.
  destruct (se_glob env _) as [|dist_info others]; [discriminate|].
  destruct (se_exists env (sbom_path_of dist_info)) eqn:Hexists; [|discriminate].
  cbn [negb].
  destruct (se_load env (sbom_path_of dist_info)) as [sbom_data|e] eqn:Hload;
    cbn [bind].
  2:{ destruct (is_Exception e); [destruct (se_print env) as [[]|?]|]; discriminate. }
  match goal with
  | |- match ?body with _ => _ end = _ -> _ =>
      destruct body as [r|e] eqn:Hbody;
        [|destruct (is_Exception e); [destruct (se_print env) as [[]|?]|]; discriminate]
  end.
  intros H. injection H as ->.
  apply bind_ok in Hbody as (prov & Hcreators & Hbody).
  apply read_creators_keeps in Hcreators as (Hp & Hr & Hc). cbn in Hp, Hr, Hc.
  apply bind_ok in Hbody as (has_packages & Hhas & Hbody).
  apply bind_ok in Hbody as (prov' & Hscan & Hbody). injection Hbody as ->.
  exists dist_info, others, sbom_data, prov.
  repeat split; try assumption.
  destruct has_packages; [|injection Hscan as <-; now left].
  apply bind_ok in Hscan as (listed & Hlisted & Hscan).
  apply bind_ok in Hscan as (packages & Hiter & Hscan).
  apply scan_packages_spec in Hscan as [[_ ->]|(package & Hfind & Hread)];
    [now left|].
  right. exists package. split; [|exact Hread].
  rewrite (py_iter_finds_object _ _ _ _ Hiter Hfind) in Hlisted.
  destruct sbom_data as [| | | | | |top]; try discriminate.
  cbn [py_getitem] in Hlisted. cbn [named_package].
  destruct (alist_get "packages" top) as [v|]; [|discriminate].
  injection Hlisted as ->. exact Hfind.
Qed.

(** X27.  The patches of an SBOM are clean.  Every patch that
    [extract_sbom_provenance] lists is a text that is not empty, holds no
    comma and has no white space at either end. *)
Theorem listed_patches_are_clean (env : sbom_env) (package_name version : string)
  (p : sbom_provenance) (patch : string) :
  extract_sbom_provenance env package_name version = Ok (Extracted (Some p)) ->
  In patch (patches p) ->
  patch <> "" /\ str_forallb not_comma patch = true /\ trimmed patch.
Proof.
  intros H Hin.
  apply extract_sbom_provenance_some in H
    as (dist_info & others & sbom_data & prov & _ & _ & _ & Hp & _ & _ & Hfrom).
  destruct Hfrom as [->|(package & _ & Hread)].
  - rewrite Hp in Hin. contradiction.
  - apply read_package_spec in Hread as [[Hsame|(text & Htext)] _].
    + rewrite Hsame, Hp in Hin. contradiction.
    + rewrite Htext in Hin. now apply patch_list_clean in Hin.
Qed.

Lemma listed_patches_are_clean_witness :
  exists p,
    extract_sbom_provenance site_packages "click" "8.3.0" = Ok (Extracted (Some p))
    /\ patches p = ["fix-a.patch"; "fix-b.patch"]
    /\ "fix-b.patch" <> "" /\ str_forallb not_comma "fix-b.patch" = true
    /\ trimmed "fix-b.patch".
Proof.
  eexists. split; [reflexivity|]. split; [reflexivity|].
  refine (listed_patches_are_clean site_packages "click" "8.3.0" _ "fix-b.patch"
            eq_refl _).
  right. left. reflexivity.
Defined.

(** X28.  Where the source of a package is read.  [source_repo] and
    [commit_id] are set together or not at all.  When set, they were read
    from the [downloadLocation] of the FIRST package of the SBOM that bears
    the name, in which [git+], the repository, [@] and the commit stand one
    after the other; the repository begins with [https://] or [http://],
    has something behind that and holds no [@]; the commit is 40 characters
    of [0-9a-f]. *)
Theorem source_is_read_from_first_package (env : sbom_env)
  (package_name version : string) (p : sbom_provenance) :
  extract_sbom_provenance env package_name version = Ok (Extracted (Some p)) ->
  (source_repo p = None <-> commit_id p = None)
  /\ forall repo,
       source_repo p = Some repo ->
       exists dist_info others sbom_data d location before after host commit,
         se_glob env (package_name ++ "-*.dist-info")%string = dist_info :: others
         /\ se_load env (sbom_path_of dist_info) = Ok sbom_data
         /\ named_package package_name sbom_data = Some (PDict d)
         /\ alist_get "downloadLocation" d = Some (PStr location)
         /\ location = (before ++ "git+" ++ repo ++ "@" ++ commit ++ after)%string
         /\ commit_id p = Some commit
         /\ (repo = ("https://" ++ host)%string \/ repo = ("http://" ++ host)%string)
         /\ host <> "" /\ str_forallb not_at host = true
         /\ String.length commit = 40%nat /\ str_forallb is_hex commit = true.
Proof.
  intros H.
  apply extract_sbom_provenance_some in H
    as (dist_info & others & sbom_data & prov & Hglob & _ & Hload & _ & Hr & Hc & Hfrom).
  destruct Hfrom as [->|(package & Hnamed & Hread)].
  { rewrite Hr, Hc. split; [tauto | discriminate]. }
  apply read_package_spec in Hread
    as [_ [[Hr' Hc']|(d & location & repo & commit & -> & Hloc & Hsearch & Hr' & Hc')]].
  { rewrite Hr', Hc', Hr, Hc. split; [tauto | discriminate]. }
  rewrite Hr', Hc'. split; [split; discriminate|].
  intros repo' Heq. injection Heq as <-.
  apply re_search_some in Hsearch as (before & found & Hsplit & Hmatch & _).
  apply match_git_location_some in Hmatch
    as (host & after & -> & Hscheme & Hne & Hhost & Hlen & Hhex).
  exists dist_info, others, sbom_data, d, location, before, after, host, commit.
  repeat split; assumption.
Qed.

Lemma source_is_read_from_first_package_witness :
  exists p,
    extract_sbom_provenance site_packages "click" "8.3.0" = Ok (Extracted (Some p))
    /\ source_repo p = Some "https://github.com/pallets/click"
    /\ (source_repo p = None <-> commit_id p = None).
Proof.
  eexists. split; [reflexivity|]. split; [reflexivity|].
  exact (proj1 (source_is_read_from_first_package site_packages "click" "8.3.0" _
                  eq_refl)).
Defined.

(** What leaves the extraction is an exception outside [Exception], or
    what the [print] of an error raised. *)
Lemma extract_sbom_provenance_raises (env : sbom_env) (package_name version : string)
  (e : pyexc) :
  extract_sbom_provenance env package_name version = Raise e ->
  is_Exception e = false \/ se_print env = Raise e.
Proof.
  unfold extract_sbom_provenance.
  match goal with
  | |- match ?body with _ => _ end = _ -> _ => destruct body as [r|e0]; [discriminate|]
  end.
  destruct (is_Exception e0) eqn:He.
  - destruct (se_print env) as [[]|e']; [discriminate|].
    intros H. injection H as <-. now right.
  - intros H. injection H as <-. now left.
Qed.

Lemma list_distributions_spec (env : sbom_env) (dists : list (string * string)) :
  forall acc packages,
    for_each (list_distribution env) dists acc = Ok packages ->
    exists added,
      packages = acc ++ added
      /\ map (fun r => (pr_name r, pr_version r)) added = filter is_listed dists
      /\ Forall (fun r => exists x,
                     extract_sbom_provenance env (pr_name r) (pr_version r) = Ok x
                     /\ pr_provenance r = returned x) added.
Proof.
  induction dists as [|[name version] dists IH]; intros acc packages; cbn [for_each].
  - intros H. injection H as <-. exists []. now rewrite app_nil_r.
  - intros H. apply bind_ok in H as (acc' & Hstep & H).
    apply IH in H as (added & -> & Hkeys & Hall).
    unfold list_distribution in Hstep. cbn [fst snd] in Hstep.
    cbn [filter]. unfold is_listed at 1. cbn [fst].
    destruct (String.eqb name "pip" || String.eqb name "setuptools"); cbn [negb].
    + injection Hstep as <-. now exists added.
    + apply bind_ok in Hstep as (x & Hx & Hstep). injection Hstep as <-.
      exists (mk_package_record name version (returned x) :: added).
      rewrite <- app_assoc. split; [reflexivity|]. split.
      * cbn [map pr_name pr_version]. now rewrite Hkeys.
      * constructor; [|exact Hall]. exists x. now split.
Qed.

(** A listing that raises does so in the extraction of a listed
    distribution. *)
Lemma list_distributions_raises (env : sbom_env) (dists : list (string * string))
  (e : pyexc) :
  forall acc,
    for_each (list_distribution env) dists acc = Raise e ->
    exists dist,
      In dist dists /\ is_listed dist = true
      /\ extract_sbom_provenance env (fst dist) (snd dist) = Raise e.
Proof.
  induction dists as [|[name version] dists IH]; intros acc; cbn [for_each];
    [discriminate|].
  destruct (list_distribution env acc (name, version)) as [acc'|e0] eqn:Hstep;
    cbn [bind].
  - intros H. apply IH in H as (dist & Hin & Hl & Hx). exists dist.
    split; [now right | now split].
  - intros H. injection H as <-. unfold list_distribution in Hstep.
    cbn [fst snd] in Hstep.
    destruct (String.eqb name "pip" || String.eqb name "setuptools") eqn:Hskip;
      [discriminate|].
    destruct (extract_sbom_provenance env name version) as [x|e1] eqn:Hx;
      [discriminate|].
    cbn [bind] in Hstep. injection Hstep as <-.
    exists (name, version). split; [now left|]. split; [|exact Hx].
    unfold is_listed. cbn [fst]. now rewrite Hskip.
Qed.

(** X29.  The listing survives broken SBOMs.  Given the installed
    distributions, [get_sbom_provenance_api] lets no exception of class
    [Exception] out.  It answers 200 with, in order, every distribution
    but [pip] and [setuptools], each with what [extract_sbom_provenance]
    returned for it, which is null when the SBOM is missing or cannot be
    read.  It answers 500 only when the [print] of such an error itself
    raised, with what it raised; where printing works the answer is never
    a 500. *)
Theorem sbom_listing_survives (env : sbom_env) (dists : list (string * string)) :
  (forall e, get_sbom_provenance_api env (Ok dists) = Raise e -> is_Exception e = false)
  /\ (forall body status,
        get_sbom_provenance_api env (Ok dists) = Ok (body, status) ->
        (status = 200
         /\ exists packages,
              body = SbomPackages packages
              /\ map (fun r => (pr_name r, pr_version r)) packages
                 = filter is_listed dists
              /\ Forall (fun r => exists x,
                             extract_sbom_provenance env (pr_name r) (pr_version r)
                             = Ok x
                             /\ pr_provenance r = returned x) packages)
        \/ (status = 500
            /\ exists e dist,
                 body = SbomError e /\ is_Exception e = true
                 /\ se_print env = Raise e
                 /\ In dist dists /\ is_listed dist = true
                 /\ extract_sbom_provenance env (fst dist) (snd dist) = Raise e))
  /\ (se_print env = Ok tt ->
      forall body status,
        get_sbom_provenance_api env (Ok dists) = Ok (body, status) -> status = 200).
Proof.
  unfold get_sbom_provenance_api. cbn [bind].
  destruct (for_each (list_distribution env) dists []) as [packages|e] eqn:Hloop.
  - split; [discriminate|]. split.
    + intros body status H. injection H as <- <-. left.
      split; [reflexivity|]. exists packages. split; [reflexivity|].
      apply list_distributions_spec in Hloop as (added & -> & Hkeys & Hall). now split.
    + intros _ body status H. now injection H as _ <-.
  - destruct (list_distributions_raises _ _ _ _ Hloop) as (dist & Hin & Hlisted & Hx).
    destruct (extract_sbom_provenance_raises _ _ _ _ Hx) as [He|Hprint].
    + rewrite He. split; [intros e0 H; now injection H as <-|].
      split; discriminate.
    + destruct (is_Exception e) eqn:He.
      * split; [discriminate|]. split.
        -- intros body status H. injection H as <- <-. right.
           split; [reflexivity|]. exists e, dist. now repeat split.
        -- intros Hok. rewrite Hok in Hprint. discriminate Hprint.
      * split; [intros e0 H; now injection H as <-|].
        split; discriminate.
Qed.

(** Where printing fails, the first SBOM that cannot be read costs the
    whole listing. *)
Example sbom_listing_needs_its_print :
  get_sbom_provenance_api site_packages_mute
    (Ok [("pip", "25.0"); ("click", "8.3.0"); ("broken", "1.0"); ("flask", "3.1.2")])
  = Ok (SbomError OSError, 500).
Proof. reflexivity. Qed.

Example sbom_listing_runs :
  exists packages,
    get_sbom_provenance_api site_packages
      (Ok [("pip", "25.0"); ("click", "8.3.0"); ("broken", "1.0"); ("flask", "3.1.2")])
    = Ok (SbomPackages packages, 200)
    /\ map (fun r => (pr_name r, match pr_provenance r with
                                 | Some _ => true
                                 | None => false
                                 end)) packages
       = [("click", true); ("broken", false); ("flask", false)].
Proof. eexists. split; reflexivity. Qed.

(** ** Serving an SBOM *)

Section MatcherFacts.

(** A property of the groups that the rest of the pattern ensures. *)
Variable Q : list string -> Prop.
Variable k : string -> captures -> option (list string).
Hypothesis k_ensures : forall s st groups, k s st = Some groups -> Q groups.

Lemma match_greedy_ensures (least : nat) (p : ascii -> bool) (s : string) :
  forall n st groups, match_greedy k least p n s st = Some groups -> Q groups.
Proof.
  induction s as [|c r IH]; intros n st groups; cbn [match_greedy].
  - destruct (least <=? n)%nat; [apply k_ensures | discriminate].
  - destruct (p c).
    + destruct (match_greedy k least p (S n) r (push c st)) as [m|] eqn:Hmore.
      * intros H. injection H as <-. exact (IH _ _ _ Hmore).
      * destruct (least <=? n)%nat; [apply k_ensures | discriminate].
    + destruct (least <=? n)%nat; [apply k_ensures | discriminate].
Qed.

Lemma match_lazy_ensures (p : ascii -> bool) (s : string) :
  forall st groups, match_lazy k p s st = Some groups -> Q groups.
Proof.
  induction s as [|c r IH]; intros st groups; cbn [match_lazy].
  - destruct (k "" st) as [m|] eqn:Hk; [|discriminate].
    intros H. injection H as <-. exact (k_ensures _ _ _ Hk).
  - destruct (k (String c r) st) as [m|] eqn:Hk.
    + intros H. injection H as <-. exact (k_ensures _ _ _ Hk).
    + destruct (p c); [apply IH | discriminate].
Qed.

Lemma match_exactly_ensures (n : nat) (p : ascii -> bool) :
  forall s st groups, match_exactly k n p s st = Some groups -> Q groups.
Proof.
  induction n as [|n IH]; intros s st groups; cbn [match_exactly].
  - apply k_ensures.
  - destruct s as [|c r]; [discriminate|]. destruct (p c); [apply IH | discriminate].
Qed.

End MatcherFacts.

(** What the end of a pattern ensures of the groups, the whole pattern
    ensures. *)
Lemma run_ensures (Q : list string -> Prop) (tail : list item) :
  (forall s st groups, run tail s st = Some groups -> Q groups) ->
  forall front s st groups, run (front ++ tail) s st = Some groups -> Q groups.
Proof.
  intros Htail front. induction front as [|it front IH]; [exact Htail|].
  intros s st groups. change ((it :: front) ++ tail) with (it :: (front ++ tail)).
  destruct it as [p|p|least p|p|n p| |]; cbn [run].
  - destruct s as [|c r]; [discriminate|]. destruct (p c); [apply IH | discriminate].
  - destruct s as [|c r]; [apply IH|]. destruct (p c); [|apply IH].
    destruct (run (front ++ tail) r (push c st)) as [m|] eqn:Hm; [|apply IH].
    intros H. injection H as <-. exact (IH _ _ _ Hm).
  - apply match_greedy_ensures. exact IH.
  - apply match_lazy_ensures. exact IH.
  - apply match_exactly_ensures. exact IH.
  - apply IH.
  - apply IH.
Qed.

(** A run of exactly [n] characters of a class, read into the open group. *)
Lemma match_exactly_group (k : string -> captures -> option (list string))
  (n : nat) (p : ascii -> bool) :
  forall s done t groups,
    match_exactly k n p s (mk_captures done (Some t)) = Some groups ->
    exists g s',
      String.length g = n /\ str_forallb p g = true
      /\ k s' (mk_captures done (Some (t ++ g)%string)) = Some groups.
Proof.
  induction n as [|n IH]; intros s done t groups; cbn [match_exactly].
  - intros H. exists "", s. rewrite str_app_empty. auto.
  - destruct s as [|c r]; [discriminate|]. destruct (p c) eqn:Hc; [|discriminate].
    unfold push. cbn [current closed]. intros H.
    apply IH in H as (g & s' & Hlen & Hall & Hk).
    exists (String c g), s'. cbn [String.length str_forallb]. rewrite Hc, Hall, Hlen.
    repeat split. rewrite str_app_assoc in Hk. exact Hk.
Qed.

Lemma object_id_group (s : string) (st : captures) (groups : list string) :
  run [Open; Exactly 40 is_hex_any_case; Close] s st = Some groups ->
  ends_with_object_id groups.
Proof.
  cbn [run]. unfold open_group. intros H.
  apply match_exactly_group in H as (g & s' & Hlen & Hall & Hk).
  unfold close_group in Hk. cbn [current closed] in Hk. injection Hk as <-.
  exists (closed st), g. auto.
Qed.

Lemma match_source_info_object_id (s repo_url tag_name object_id : string) :
  match_source_info s = Some (repo_url, tag_name, object_id) ->
  String.length object_id = 40%nat /\ str_forallb is_hex_any_case object_id = true.
Proof.
  unfold match_source_info.
  destruct (run source_info_pattern s (mk_captures [] None)) as [groups|] eqn:Hrun;
    [|discriminate].
  assert (Hend : ends_with_object_id groups).
  { revert Hrun.
    change source_info_pattern
      with (firstn 36 source_info_pattern ++ [Open; Exactly 40 is_hex_any_case; Close]).
    apply run_ensures. apply object_id_group. }
  destruct groups as [|g1 [|g2 [|g3 [|g4 rest]]]]; try discriminate.
  intros H. injection H as <- <- <-.
  destruct Hend as (front & g & Hsplit & Hlen & Hall).
  change [g1; g2; g3] with ([g1; g2] ++ [g3]) in Hsplit.
  apply app_inj_tail in Hsplit as [_ ->]. auto.
Qed.

Section ServingSbomFacts.

Variable utf8_decode : string -> result string.
Variable git : nat -> git_env.

Lemma resolve_package_spec (st st' : nat * list pyval) (package : pyval) (w w' : world) :
  resolve_package utf8_decode git st package w = (Ok st', w') ->
  exists new, snd st' = snd st ++ [new] /\ resolved_from utf8_decode git package new.
Proof.
  unfold resolve_package. intros H.
  apply mbind_ok in H as (has_info & w1 & Hhas & H). unfold lift in Hhas.
  injection Hhas as Hhas <-.
  destruct has_info.
  2:{ injection H as <- _. exists package. split; [reflexivity|]. left.
      split; [|reflexivity].
      destruct package as [| | | | | |d]; try reflexivity.
      cbn [py_in] in Hhas. cbn [source_info_match].
      destruct (alist_get "sourceInfo" d); [discriminate | reflexivity]. }
  apply mbind_ok in H as (source_info & w1 & Hinfo & H). unfold lift in Hinfo.
  injection Hinfo as Hinfo <-.
  destruct package as [| | | | | |d]; try discriminate.
  cbn [py_getitem] in Hinfo.
  destruct (alist_get "sourceInfo" d) as [v|] eqn:Hget; [|discriminate].
  injection Hinfo as ->.
  apply mbind_ok in H as (found & w1 & Hfound & H). unfold lift in Hfound.
  destruct source_info as [| | | |info| |]; try discriminate.
  injection Hfound as <- <-.
  destruct (re_search match_source_info info) as [[[repo_url tag_name] object_id]|]
    eqn:Hsearch.
  2:{ injection H as <- _. exists (PDict d). split; [reflexivity|]. left.
      cbn [source_info_match]. now rewrite Hget, Hsearch. }
  apply mbind_ok in H as (sha & w1 & Hresolve & H).
  apply mbind_ok in H as (package' & w2 & Hset & H). unfold lift in Hset.
  cbn [py_setitem] in Hset. injection Hset as <- <-. injection H as <- _.
  exists (PDict (alist_set "_resolved_commit_sha" (PStr sha) d)).
  split; [reflexivity|]. right.
  pose proof Hsearch as Hmatch.
  apply re_search_some in Hmatch as (before & after & _ & Hmatch & _).
  apply match_source_info_object_id in Hmatch as [Hlen Hall].
  exists d, repo_url, tag_name, object_id, (fst st), w, sha.
  repeat split; try assumption.
  - cbn [source_info_match]. now rewrite Hget.
  - now rewrite Hresolve.
Qed.

Lemma resolve_packages_spec (packages : list pyval) :
  forall st st' w w',
    mfor_each (resolve_package utf8_decode git) packages st w = (Ok st', w') ->
    exists news,
      snd st' = snd st ++ news /\ Forall2 (resolved_from utf8_decode git) packages news.
Proof.
  induction packages as [|package packages IH]; intros st st' w w'; cbn [mfor_each].
  - intros H. injection H as <- _. exists []. now rewrite app_nil_r.
  - intros H. apply mbind_ok in H as (st1 & w1 & Hstep & H).
    apply resolve_package_spec in Hstep as (new & Hnew & Hfrom).
    apply IH in H as (news & Hnews & Hall).
    exists (new :: news). split; [|now constructor].
    rewrite Hnews, Hnew, <- app_assoc. reflexivity.
Qed.

End ServingSbomFacts.

(** X30.  The SBOM is served as it was read, with resolved commits added.
    A 200 of [get_sbom_handler] carries the document of the first matching
    [dist-info] directory.  When that document is an object with a list of
    packages, they are served in the same number and order, each one as it
    was read unless the pattern finds a source, a tag and an object id in
    its [sourceInfo]; then the object id is forty characters of
    [0-9a-fA-F], and the package gains the key [_resolved_commit_sha],
    holding what [resolve_tag_to_commit] returned for the three.  Nothing
    else of the document is changed, and a document without such a list is
    served as it is. *)
Theorem sbom_is_served_with_resolved_commits
  (utf8_decode : string -> result string) (git : nat -> git_env) (env : sbom_env)
  (package_name : string) (w : world) (resp : sbom_response) :
  fst (get_sbom_handler utf8_decode git env package_name w) = Ok resp ->
  sbom_status resp = 200 ->
  exists dist_info others sbom_data,
    se_glob env (package_name ++ "-*.dist-info")%string = dist_info :: others
    /\ se_load env (sbom_path_of dist_info) = Ok sbom_data
    /\ match packages_of sbom_data with
       | None => sbom_answer_of resp = SbomServed sbom_data
       | Some packages =>
           exists top packages',
             sbom_data = PDict top
             /\ Forall2 (resolved_from utf8_decode git) packages packages'
             /\ sbom_answer_of resp
                = SbomServed (PDict (alist_set "packages" (PList packages') top))
       end.
Proof.
  unfold get_sbom_handler, try_except.
  destruct (se_glob env _) as [|dist_info others] eqn:Hglob.
  { cbn. intros H. injection H as <-. discriminate. }
  destruct (se_exists env (sbom_path_of dist_info)); cbn [negb].
  2:{ cbn. intros H. injection H as <-. discriminate. }
  match goal with
  | |- fst (match ?body w with _ => _ end) = _ -> _ =>
      destruct (body w) as [[r|e] w1] eqn:Hbody
  end.
  2:{ destruct (is_Exception e); [|discriminate]. cbn. intros H.
      injection H as <-. discriminate. }
  cbn [fst]. intros H _. injection H as ->.
  apply mbind_ok in Hbody as (sbom_data & w2 & Hload & Hbody). unfold lift in Hload.
  injection Hload as Hload <-.
  exists dist_info, others, sbom_data. split; [reflexivity|]. split; [exact Hload|].
  apply mbind_ok in Hbody as (has_packages & w2 & Hhas & Hbody). unfold lift in Hhas.
  injection Hhas as Hhas <-.
  destruct has_packages.
  2:{ injection Hbody as <- _. cbn [sbom_answer_of].
      destruct sbom_data as [| | | | | |top]; try reflexivity.
      cbn [py_in] in Hhas. cbn [packages_of].
      destruct (alist_get "packages" top); [discriminate | reflexivity]. }
  apply mbind_ok in Hbody as (listed & w2 & Hlisted & Hbody). unfold lift in Hlisted.
  injection Hlisted as Hlisted <-.
  apply mbind_ok in Hbody as (packages & w2 & Hiter & Hbody). unfold lift in Hiter.
  injection Hiter as Hiter <-.
  apply mbind_ok in Hbody as (st & w2 & Hloop & Hbody). injection Hbody as <- _.
  cbn [sbom_answer_of].
  destruct sbom_data as [| | | | | |top]; try discriminate.
  cbn [py_getitem] in Hlisted. cbn [packages_of].
  destruct (alist_get "packages" top) as [v|] eqn:Hget; [|discriminate].
  injection Hlisted as ->.
  destruct listed as [| | | | |l|]; try reflexivity.
  cbn [py_iter] in Hiter. injection Hiter as <-.
  apply resolve_packages_spec in Hloop as (news & Hnews & Hall).
  cbn [snd app] in Hnews. exists top, news.
  repeat split; try assumption. cbn [with_packages]. now rewrite Hnews.
Qed.

Lemma sbom_is_served_with_resolved_commits_witness :
  exists resp top packages',
    fst (get_sbom_handler ref_utf8_decode (fun _ => git_timeout) flask_site "flask"
           fresh_world) = Ok resp
    /\ flask_sbom = PDict top
    /\ Forall2 (resolved_from ref_utf8_decode (fun _ => git_timeout))
               [PDict [("name", PStr "flask");
                       ("sourceInfo",
                        PStr ("built from git+https://github.com/pallets/flask, tag: 3.1.2,"
                              ++ " commit id: " ++ flask_tag_object ++ "; patches: none"))];
                PDict [("name", PStr "wheel"); ("sourceInfo", PStr "vendored")]]
               packages'
    /\ sbom_answer_of resp
       = SbomServed (PDict (alist_set "packages" (PList packages') top)).
Proof.
  eexists.
  destruct (sbom_is_served_with_resolved_commits ref_utf8_decode (fun _ => git_timeout)
              flask_site "flask" fresh_world _ eq_refl eq_refl)
    as (dist_info & others & sbom_data & Hglob & Hload & Hserved).
  injection Hload as <-. cbn [packages_of flask_sbom alist_get String.eqb Ascii.eqb
                              Bool.eqb] in Hserved.
  destruct Hserved as (top & packages' & Htop & Hall & Hanswer).
  exists top, packages'. split; [reflexivity|]. auto.
Defined.

(** The handler at work: the tag resolves and the commit is added; the
    clone times out and the object id of the tag is added in its place. *)
Example get_sbom_handler_runs :
  let added (git : git_env) :=
    match fst (get_sbom_handler ref_utf8_decode (fun _ => git) flask_site "flask"
                 fresh_world) with
    | Ok (mk_sbom_response (SbomServed (PDict top)) 200) =>
        match alist_get "packages" top with
        | Some (PList packages) =>
            map (fun package =>
                   match package with
                   | PDict d => alist_get "_resolved_commit_sha" d
                   | _ => None
                   end) packages
        | _ => []
        end
    | _ => []
    end in
  added git_success = [Some (PStr click_commit); None]
  /\ added git_timeout = [Some (PStr flask_tag_object); None].
Proof. split; reflexivity. Qed.
